(** * things2reminder: the field mapper and the export pipeline

    A shallow embedding of [src/things2reminder/mapper.py] and
    [src/things2reminder/exporter.py].  Python dictionaries that are used
    as records (a todo, an area, the keyword arguments of
    [create_reminder]) are records with optional fields; dictionaries that
    are used as lookup tables are [gmap]s, except [calendar_dict], whose
    insertion order the code reads and which is an association list.
    Exceptions are values of [exn]; code that can raise returns a
    [result]; code that also talks to a collaborator or mutates the
    exporter runs in the state-and-exception monad [M]. *)

From Stdlib Require Import ZArith Ascii String DecimalString.
From stdpp Require Import gmap strings list fin_maps.

Local Open Scope string_scope.
Local Open Scope list_scope.

(** ** Exceptions and results *)

(** The exception classes the two modules name or provoke.  [OtherException]
    stands for any further subclass of [Exception] a collaborator may
    raise; [BaseOnly] for the classes that derive from [BaseException]
    but not from [Exception] ([KeyboardInterrupt], [SystemExit]). *)
Inductive exn_class :=
  | ValueError
  | AttributeError
  | IndexError
  | NameError
  | OverflowError
  | TypeError
  | OtherException (name : string)
  | BaseOnly (name : string).

Record exn := Exn { exn_cls : exn_class; exn_msg : string }.

Global Instance exn_class_eq_dec : EqDecision exn_class.
Proof. solve_decision. Defined.

Global Instance exn_eq_dec : EqDecision exn.
Proof. solve_decision. Defined.

(** [except Exception] *)
Definition is_Exception (c : exn_class) : bool :=
  match c with BaseOnly _ => false | _ => true end.

Inductive result (A : Type) :=
  | Ok (a : A)
  | Raise (e : exn).
Global Arguments Ok {A} a.
Global Arguments Raise {A} e.

Global Instance result_ret : MRet result := λ A a, Ok a.
Global Instance result_bind : MBind result := λ A B f r,
  match r with Ok a => f a | Raise e => Raise e end.

(** [try: body  except (c1, c2, ...): handler] on a pure computation. *)
Definition try_except {A} (body : result A) (classes : list exn_class)
    (handler : exn → result A) : result A :=
  match body with
  | Ok a => Ok a
  | Raise e => if bool_decide (exn_cls e ∈ classes) then handler e else Raise e
  end.

(** ** The string built-ins the code calls

    A Python [str] is the string of its UTF-8 bytes.  The built-ins
    below work on single ASCII characters (the colon, the line feed, the
    comma, [Z]) and on whole strings, and are exact on such bytes: an
    ASCII byte never occurs inside the encoding of another character.
    The built-ins that consult the Unicode tables ([str.strip],
    [str.lower], [int]) are not defined here: the exporter takes them
    from its environment, see [Env]. *)
Module Py.

(** [c in s] for a one-character [c] *)
Fixpoint contains (c : ascii) (s : string) : bool :=
  match s with
  | String d s' => if decide (c = d) then true else contains c s'
  | EmptyString => false
  end.

(** [s.split(c)] for a one-character separator: never the empty list. *)
Fixpoint split (c : ascii) (s : string) : list string :=
  match s with
  | EmptyString => [EmptyString]
  | String d s' =>
      if decide (c = d) then EmptyString :: split c s'
      else match split c s' with
           | piece :: rest => String d piece :: rest
           | [] => [String d EmptyString]
           end
  end.

(** [s.split(c, 1)]: the text before the first [c] and the text after
    it, or the whole string alone when there is no [c]. *)
Fixpoint split1 (c : ascii) (s : string) : list string :=
  match s with
  | EmptyString => [EmptyString]
  | String d s' =>
      if decide (c = d) then [EmptyString; s']
      else match split1 c s' with
           | piece :: rest => String d piece :: rest
           | [] => [String d EmptyString]
           end
  end.

(** [s.replace(c, t)] for a one-character [c]: every occurrence. *)
Fixpoint replace (c : ascii) (t : string) (s : string) : string :=
  match s with
  | EmptyString => EmptyString
  | String d s' =>
      if decide (c = d) then t +:+ replace c t s'
      else String d (replace c t s')
  end.

(** [sep.join(l)] *)
Definition join (sep : string) (l : list string) : string :=
  String.concat sep l.

(** [str(n)] for a non-negative integer. *)
Definition str_nat (n : nat) : string :=
  NilEmpty.string_of_uint (Nat.to_uint n).

(** [l.append(x)] *)
Definition append {A} (l : list A) (x : A) : list A := (l ++ [x])%list.

(** Truthiness of an optional string: [None] and [""] are falsy. *)
Definition truthy (o : option string) : bool :=
  match o with
  | Some (String _ _) => true
  | _ => false
  end.

End Py.

(** ** The Unicode-aware built-ins on ASCII text, for the examples

    [str.strip], [str.lower] and [int] as they act on text that is
    ASCII throughout and short.  No theorem about the code is stated
    with them: they fill the environment of the test doubles, whose
    texts are ASCII. *)
Module AsciiOnly.

(** [str.isspace] on the ASCII range: TAB..CR, FS..US and the blank. *)
Definition is_space (c : ascii) : bool :=
  let n := nat_of_ascii c in
  (((9 <=? n) && (n <=? 13)) || ((28 <=? n) && (n <=? 32)))%nat.

Fixpoint lstrip (s : string) : string :=
  match s with
  | String c s' => if is_space c then lstrip s' else s
  | EmptyString => EmptyString
  end.

(** [s.strip()] *)
Definition strip (s : string) : string :=
  String.rev (lstrip (String.rev (lstrip s))).

Definition lower_ascii (c : ascii) : ascii :=
  let n := nat_of_ascii c in
  if ((65 <=? n) && (n <=? 90))%nat then ascii_of_nat (n + 32) else c.

(** [s.lower()] *)
Fixpoint lower (s : string) : string :=
  match s with
  | String c s' => String (lower_ascii c) (lower s')
  | EmptyString => EmptyString
  end.

Definition digit_val (c : ascii) : option Z :=
  let n := nat_of_ascii c in
  if ((48 <=? n) && (n <=? 57))%nat then Some (Z.of_nat (n - 48)) else None.

(** The digits of an integer literal, most significant first, with
    single underscores allowed between digits.  [prev] tells whether
    the previous character was a digit: an underscore needs a digit on
    both sides. *)
Fixpoint digits (acc : Z) (prev : bool) (s : string) : option Z :=
  match s with
  | EmptyString => if prev then Some acc else None
  | String c s' =>
      match digit_val c with
      | Some d => digits (10 * acc + d)%Z true s'
      | None =>
          if decide (c = "_"%char) then
            if prev then digits acc false s' else None
          else None
      end
  end.

(** [int(s)] on a string, [None] standing for [ValueError]: optional
    surrounding white space, an optional sign, then the digits. *)
Definition int (s : string) : option Z :=
  match strip s with
  | String "+" s' => digits 0 false s'
  | String "-" s' => Z.opp <$> digits 0 false s'
  | s' => digits 0 false s'
  end.

End AsciiOnly.

(** ** Dates: the part of [datetime] the mapper uses *)

(** A [datetime.datetime] value; [tzoffset] is the UTC offset in seconds
    of an aware value and [None] for a naive one. *)
Record datetime := Datetime {
  year : Z; month : Z; day : Z;
  hour : Z; minute : Z; second : Z; microsecond : Z;
  tzoffset : option Z
}.

Global Instance datetime_eq_dec : EqDecision datetime.
Proof. solve_decision. Defined.

Definition is_leap (y : Z) : bool :=
  ((y mod 4 =? 0) && (negb (y mod 100 =? 0) || (y mod 400 =? 0)))%Z.

Definition days_in_month (y m : Z) : Z :=
  if (m =? 2)%Z then (if is_leap y then 29 else 28)%Z
  else if bool_decide (m ∈ [4; 6; 9; 11]%Z) then 30%Z
  else 31%Z.

(** [d - timedelta(days=1)]: the calendar day before, same time of day
    and same offset; [OverflowError] before 0001-01-01. *)
Definition sub_one_day (d : datetime) : result datetime :=
  let at_date y m dd :=
    Datetime y m dd (hour d) (minute d) (second d) (microsecond d) (tzoffset d) in
  if (1 <? day d)%Z then Ok (at_date (year d) (month d) (day d - 1)%Z)
  else if (1 <? month d)%Z then
    Ok (at_date (year d) (month d - 1)%Z (days_in_month (year d) (month d - 1)))
  else if (1 <? year d)%Z then Ok (at_date (year d - 1)%Z 12%Z 31%Z)
  else Raise (Exn OverflowError "date value out of range").

(** A non-negative number in decimal, left-padded with zeros to [w]. *)
Definition zero_pad (w : nat) (n : Z) : string :=
  let s := Py.str_nat (Z.to_nat n) in
  Py.join "" (replicate (w - String.length s) "0") +:+ s.

(** [d.strftime("%Y-%m-%d")] *)
Definition strftime_Y_m_d (d : datetime) : string :=
  zero_pad 4 (year d) +:+ "-" +:+ zero_pad 2 (month d) +:+ "-" +:+ zero_pad 2 (day d).

(** ** The data model *)

(** pyremindkit's [Priority] enumeration. *)
Inductive Priority := NONE | LOW | MEDIUM | HIGH.

Global Instance Priority_eq_dec : EqDecision Priority.
Proof. solve_decision. Defined.

(** One entry of a todo's checklist. *)
Record checklist_item := ChecklistItem {
  item_title : option string;
  item_status : option string
}.

(** The value under the key [checklist]: the list of the items when
    the todo was fetched with its items, and otherwise the flag by which
    the source library only tells whether the todo has any. *)
Inductive checklist :=
  | ChecklistFlag (has_items : bool)
  | ChecklistItems (items : list checklist_item).

(** A Things todo: the dictionary the source library returns, a key that
    is missing being [None]. *)
Record todo := Todo {
  todo_uuid : option string;
  todo_title : option string;
  todo_notes : option string;
  todo_status : option string;
  todo_start : option string;
  todo_deadline : option string;
  todo_when : option string;
  todo_priority : option Z;
  todo_tags : option (list string);
  todo_checklist : option checklist;
  todo_project : option string;
  todo_area : option string;
  todo_stop_date : option string
}.

(** The keyword arguments built for [create_reminder]; the last four keys
    are set only on some paths, and [completion_date] is then whatever
    [todo.get('stop_date')] gave, possibly [None]. *)
Record reminder_params := Params {
  p_title : string;
  p_notes : string;
  p_due_date : option datetime;
  p_priority : Priority;
  p_calendar_id : option string;
  p_tags : list string;
  p_completed : option bool;
  p_completion_date : option (option string);
  p_early_reminder_date : option datetime;
  p_flagged : option bool
}.

Definition nl : string := String (ascii_of_nat 10) EmptyString.

(** A todo with only an identifier and a title, for examples. *)
Definition plain_todo (id ttl : string) : todo :=
  Todo (Some id) (Some ttl) None None None None None None None None None None None.

(** ** mapper.py *)
Section Mapper.

(** [datetime.fromisoformat] on a string: the value it returns, or
    [None] where it raises [ValueError].  Which strings it accepts
    depends on the interpreter's version, so the mapper is stated for
    every such parser. *)
Variable fromisoformat : string → option datetime.

Definition datetime_fromisoformat (s : string) : result datetime :=
  match fromisoformat s with
  | Some d => Ok d
  | None => Raise (Exn ValueError ("Invalid isoformat string: " +:+ s))
  end.

Definition map_priority (things_priority : option Z) : Priority :=
  match things_priority with
  | Some 0%Z => NONE
  | Some 1%Z => LOW
  | Some 2%Z => MEDIUM
  | Some 3%Z => HIGH
  | _ => NONE
  end.

Definition parse_things_date (date_str : option string) : result (option datetime) :=
  if negb (Py.truthy date_str) then Ok None
  else
    try_except
      (d ← datetime_fromisoformat (Py.replace "Z" "+00:00" (default "" date_str));
       Ok (Some d))
      [ValueError; AttributeError]
      (λ _, Ok None).

(** The lines of the checklist block. *)
Definition checklist_line (item : checklist_item) : string :=
  let status :=
    if decide (item_status item = Some "completed") then "✓" else "☐" in
  status +:+ " " +:+ default "" (item_title item).

Definition get_reminder_notes_from_todo (todo : todo) : result string :=
  let notes_sections : list string := [] in
  (* Add original notes *)
  let notes_sections :=
    if Py.truthy (todo_notes todo)
    then Py.append notes_sections (default "" (todo_notes todo))
    else notes_sections in
  (* Add status information *)
  let status := default "incomplete" (todo_status todo) in
  let notes_sections :=
    if decide (status = "completed") then Py.append notes_sections ("Status: ✓ Completed")
    else if decide (status = "canceled") then Py.append notes_sections ("Status: ✗ Canceled")
    else notes_sections in
  (* Add start category information *)
  let start := todo_start todo in
  let notes_sections :=
    if Py.truthy start
    then Py.append notes_sections ("Start: " +:+ default "" start)
    else notes_sections in
  (* Add deadline information *)
  let deadline := todo_deadline todo in
  notes_sections ←
    (if Py.truthy deadline then
       date_obj ← parse_things_date deadline;
       match date_obj with
       | Some date_obj =>
           Ok (Py.append notes_sections ("Deadline: " +:+ strftime_Y_m_d date_obj))
       | None => Ok notes_sections
       end
     else Ok notes_sections);
  (* Add checklist items if any *)
  notes_sections ←
    match todo_checklist todo with
    | Some (ChecklistItems (item :: items)) =>
        let checklist_text := "Checklist:" :: map checklist_line (item :: items) in
        Ok (Py.append notes_sections (Py.join nl checklist_text))
    | Some (ChecklistFlag true) =>
        (* [len(True)] *)
        Raise (Exn TypeError "object of type 'bool' has no len()")
    | _ => Ok notes_sections
    end;
  (* Add source reference *)
  let notes_sections :=
    Py.append notes_sections ("Imported from Things - UUID: " +:+ default "" (todo_uuid todo)) in
  Ok (Py.join (nl +:+ nl) notes_sections).

Definition get_reminder_params_from_todo (todo : todo) (calendar_id : option string)
    : result reminder_params :=
  (* Extract data from todo *)
  let title := default "Untitled Task" (todo_title todo) in
  notes ← get_reminder_notes_from_todo todo;
  (* Map dates *)
  due_date ←
    (if Py.truthy (todo_deadline todo) then parse_things_date (todo_deadline todo)
     else if Py.truthy (todo_when todo) then parse_things_date (todo_when todo)
     else Ok None);
  (* Map priority *)
  let priority := map_priority (Some (default 0%Z (todo_priority todo))) in
  (* Extract tags if present *)
  let tags :=
    match todo_tags todo with
    | Some (t :: ts) => t :: ts
    | _ => []
    end in
  let params := Params title notes due_date priority calendar_id tags None None None None in
  (* 1. Mark completed tasks as completed in Reminders *)
  let params :=
    if decide (todo_status todo = Some "completed")
    then Params (p_title params) (p_notes params) (p_due_date params) (p_priority params)
           (p_calendar_id params) (p_tags params)
           (Some true) (Some (todo_stop_date todo))
           (p_early_reminder_date params) (p_flagged params)
    else params in
  (* 2. Set early reminder and flag for Anytime tasks with deadlines *)
  if Py.truthy (todo_deadline todo) && bool_decide (todo_start todo = Some "Anytime") then
    match due_date with
    | Some due =>
        early_reminder_date ← sub_one_day due;
        Ok (Params (p_title params) (p_notes params) (p_due_date params) (p_priority params)
              (p_calendar_id params) (p_tags params)
              (p_completed params) (p_completion_date params)
              (Some early_reminder_date) (Some true))
    | None => Ok params
    end
  else Ok params.

End Mapper.

(** ** A parser for the examples

    The forms [YYYY-MM-DD], [YYYY-MM-DD?HH:MM] and [YYYY-MM-DD?HH:MM:SS]
    ([?] any one character), the last two with an optional [+HH:MM] or
    [-HH:MM] offset: strings that [datetime.fromisoformat] reads the same
    way in every version that has it.  Everything else is rejected here. *)
Module IsoBasic.

Definition two (a b : ascii) : option Z :=
  x ← AsciiOnly.digit_val a; y ← AsciiOnly.digit_val b; Some (10 * x + y)%Z.

Definition in_range (lo hi n : Z) : option Z :=
  if ((lo <=? n) && (n <=? hi))%Z then Some n else None.

Definition offset (s : string) : option (option Z) :=
  match s with
  | EmptyString => Some None
  | String sg (String h1 (String h2 (String ":" (String m1 (String m2 EmptyString))))) =>
      sign ← (if decide (sg = "+"%char) then Some 1%Z
              else if decide (sg = "-"%char) then Some (-1)%Z else None);
      h ← two h1 h2 ≫= in_range 0 23;
      m ← two m1 m2 ≫= in_range 0 59;
      Some (Some (sign * (3600 * h + 60 * m))%Z)
  | _ => None
  end.

Definition time (s : string) : option (Z * Z * Z * option Z) :=
  match s with
  | String h1 (String h2 (String ":" (String m1 (String m2 rest)))) =>
      h ← two h1 h2 ≫= in_range 0 23;
      m ← two m1 m2 ≫= in_range 0 59;
      match rest with
      | String ":" (String s1 (String s2 rest')) =>
          sec ← two s1 s2 ≫= in_range 0 59;
          tz ← offset rest';
          Some (h, m, sec, tz)
      | _ => tz ← offset rest; Some (h, m, 0%Z, tz)
      end
  | _ => None
  end.

Definition fromisoformat (s : string) : option datetime :=
  match s with
  | String y1 (String y2 (String y3 (String y4 (String "-"
      (String m1 (String m2 (String "-" (String d1 (String d2 rest))))))))) =>
      yh ← two y1 y2; yl ← two y3 y4;
      y ← in_range 1 9999 (100 * yh + yl);
      m ← two m1 m2 ≫= in_range 1 12;
      d ← two d1 d2 ≫= in_range 1 (days_in_month y m);
      match rest with
      | EmptyString => Some (Datetime y m d 0 0 0 0 None)
      | String _ t =>
          '(h, mi, sec, tz) ← time t;
          Some (Datetime y m d h mi sec 0 tz)
      end
  | _ => None
  end.

End IsoBasic.

(** ** The mapper in the words of the specification *)
Section MapperSpec.

Variable fromisoformat : string → option datetime.

(** What the library parser makes of a date string of the source once
    every [Z] is spelled [+00:00]. *)
Definition parsed (date_str : option string) : option datetime :=
  if Py.truthy date_str
  then fromisoformat (Py.replace "Z" "+00:00" (default "" date_str))
  else None.

(** A section that is there only when its source data is. *)
Definition section (present : bool) (text : string) : list string :=
  if present then [text] else [].

Definition original_notes (t : todo) : list string :=
  section (Py.truthy (todo_notes t)) (default "" (todo_notes t)).

Definition status_annotation (t : todo) : list string :=
  section (bool_decide (todo_status t = Some "completed")) "Status: ✓ Completed" ++
  section (bool_decide (todo_status t = Some "canceled")) "Status: ✗ Canceled".

Definition start_annotation (t : todo) : list string :=
  section (Py.truthy (todo_start t)) ("Start: " +:+ default "" (todo_start t)).

Definition deadline_annotation (t : todo) : list string :=
  match parsed (todo_deadline t) with
  | Some d => ["Deadline: " +:+ strftime_Y_m_d d]
  | None => []
  end.

Definition checklist_block (t : todo) : list string :=
  match todo_checklist t with
  | Some (ChecklistItems (item :: items)) =>
      [Py.join nl ("Checklist:" ::
         map (λ it, (if bool_decide (item_status it = Some "completed")
                     then "✓ " else "☐ ") +:+ default "" (item_title it))
           (item :: items))]
  | _ => []
  end.

Definition footer (t : todo) : string :=
  "Imported from Things - UUID: " +:+ default "" (todo_uuid t).

(** Sections in the fixed order, the footer last, a blank line between
    two sections. *)
Definition render_notes (t : todo) : string :=
  Py.join (nl +:+ nl)
    (original_notes t ++ status_annotation t ++ start_annotation t ++
     deadline_annotation t ++ checklist_block t ++ [footer t]).

(** The checklist of the todo is the flag [True], of which line 94 asks
    the length. *)
Definition checklist_is_flag (t : todo) : bool :=
  match todo_checklist t with
  | Some (ChecklistFlag true) => true
  | _ => false
  end.

(** [len(True)] *)
Definition no_len : exn := Exn TypeError "object of type 'bool' has no len()".

(** The due date the mapper chooses. *)
Definition due_date_of (t : todo) : option datetime :=
  if Py.truthy (todo_deadline t) then parsed (todo_deadline t)
  else if Py.truthy (todo_when t) then parsed (todo_when t)
  else None.

(** The date the early-reminder rule starts from: the due date of a todo
    that has a deadline and whose start category is [Anytime]. *)
Definition early_rule_date (t : todo) : option datetime :=
  if Py.truthy (todo_deadline t) && bool_decide (todo_start t = Some "Anytime")
  then parsed (todo_deadline t)
  else None.

End MapperSpec.

(** ** Sample todos *)

(** A todo with a deadline the parser rejects and the start category
    [Anytime]. *)
Definition todo_bad_deadline : todo :=
  Todo (Some "t1") (Some "Pay rent") None None (Some "Anytime") (Some "not a date")
    None None None None None None None.

(** A todo whose title is the empty string. *)
Definition todo_empty_title : todo :=
  Todo (Some "t2") (Some "") None None None None None None None None None None None.

(** A todo without a title, with a deadline and the start category
    [Anytime]. *)
Definition todo_anytime : todo :=
  Todo (Some "t3") None (Some "Sample notes") None (Some "Anytime")
    (Some "2023-10-15T14:30:00Z") None (Some 3%Z) (Some ["tag1"; "tag2"])
    None None None None.

(** A todo with checklist items as the Today view returns it: without
    the items. *)
Definition todo_flagged_checklist : todo :=
  Todo (Some "t6") (Some "Pack") None None None None None None None
    (Some (ChecklistFlag true)) None None None.

(** The parameters a run of the mapper returned, for examples. *)
Definition params_of (r : result reminder_params) : reminder_params :=
  match r with
  | Ok p => p
  | Raise _ => Params "" "" None NONE None [] None None None None
  end.

Definition params_anytime : reminder_params :=
  Eval vm_compute in
    params_of (get_reminder_params_from_todo IsoBasic.fromisoformat todo_anytime
                 (Some "cal123")).

(** ** The collaborators of the exporter *)

Record area := Area { area_uuid : option string; area_title : option string }.
Record project := Project { project_uuid : option string; project_title : option string }.
Record tag := Tag { tag_uuid : option string; tag_title : option string }.

(** A Reminders calendar as the exporter reads it. *)
Record calendar := Calendar { cal_id : string; cal_name : string }.

(** What [subprocess.run(..., capture_output=True, text=True)] returns. *)
Record completed_process := CompletedProcess {
  returncode : Z;
  stdout : string;
  stderr : string
}.

(** The queries of [ThingsClient] the exporter sends. *)
Inductive query :=
  | GetAreas | GetProjects | GetTags | GetTodos
  | GetToday | GetInbox | GetUpcoming | GetSomeday | GetDeadlines
  | GetCompleted (last : option string) | GetCanceled | GetAllTasks.

Inductive level := INFO | WARNING | ERROR.

(** What a run does that can be seen from outside, in order. *)
Inductive event :=
  | Queried (q : query)
  | AskedDefaultCalendar
  | ListedCalendars
  | RanSubprocess (argv : list string)
  | CalledCreate (params : reminder_params)
  | Logged (lvl : level) (msg : string).

Global Instance query_eq_dec : EqDecision query.
Proof. solve_decision. Defined.

(** [calendar_dict]: a [dict] from lower-cased calendar name to calendar
    id, in insertion order. *)
Module Dict.

Fixpoint set (k v : string) (d : list (string * string)) : list (string * string) :=
  match d with
  | [] => [(k, v)]
  | (k', v') :: d' =>
      if decide (k = k') then (k, v) :: d' else (k', v') :: set k v d'
  end.

Fixpoint get (k : string) (d : list (string * string)) : option string :=
  match d with
  | [] => None
  | (k', v') :: d' => if decide (k = k') then Some v' else get k d'
  end.

Definition keys (d : list (string * string)) : list string := d.*1.

(** [k in d] *)
Definition mem (k : string) (d : list (string * string)) : bool :=
  bool_decide (k ∈ keys d).

End Dict.

(** A call that leaves the process: it reads and changes the world, and
    returns or raises. *)
Definition external (World A : Type) : Type := World → result A * World.

(** The methods of [ThingsClient] the exporter calls. *)
Record ThingsClient (World : Type) := {
get_areas : external World (list area);
get_projects : external World (list project);
get_tags : external World (list tag);
get_todos : external World (list todo);
get_today_tasks : external World (list todo);
get_inbox_tasks : external World (list todo);
get_upcoming_tasks : external World (list todo);
get_someday_tasks : external World (list todo);
get_deadlines : external World (list todo);
get_completed_tasks : option string → external World (list todo);
get_canceled_tasks : external World (list todo);
get_all_tasks : external World (list todo)
}.
Global Arguments get_areas {World} _.
Global Arguments get_projects {World} _.
Global Arguments get_tags {World} _.
Global Arguments get_todos {World} _.
Global Arguments get_today_tasks {World} _.
Global Arguments get_inbox_tasks {World} _.
Global Arguments get_upcoming_tasks {World} _.
Global Arguments get_someday_tasks {World} _.
Global Arguments get_deadlines {World} _.
Global Arguments get_completed_tasks {World} _ _.
Global Arguments get_canceled_tasks {World} _.
Global Arguments get_all_tasks {World} _.

(** The methods of [RemindersClient] the exporter calls; [reminder] is
    the object [create_reminder] returns. *)
Record RemindersClient (World reminder : Type) := {
get_default_calendar : external World calendar;
list_calendars : external World (list calendar);
create_reminder : reminder_params → external World reminder
}.
Global Arguments get_default_calendar {World reminder} _.
Global Arguments list_calendars {World reminder} _.
Global Arguments create_reminder {World reminder} _ _.

(** What an exporter runs against: everything outside the process
    ([World]: the Things database, the Reminders store, the [llm]
    command), the two clients, and the library functions whose results
    the code passes on. *)
Class Env := {
World : Type;
reminder : Type;
(** [datetime.fromisoformat], see the mapper *)
fromisoformat : string → option datetime;
(** [str(list(calendar_dict.keys()))] as the f-string renders it *)
str_of_names : list string → string;
(** [s.strip()] and [s.lower()], which follow the Unicode tables of the
    interpreter *)
str_strip : string → string;
str_lower : string → string;
(** [int(s)] on a string, [None] where it raises [ValueError]: it reads
    the decimal digits of every script and refuses a literal beyond its
    length limit *)
str_int : string → option Z;
things : ThingsClient World;
reminders : RemindersClient World reminder;
(** [subprocess.run(argv, capture_output=True, text=True)] *)
subprocess_run : list string → external World completed_process
}.

Section Exporter.

Context `{Env}.

(** The exporter object together with the world and the trace. *)
Record state := State {
  world : World;
  _area_map : gmap (option string) area;
  _project_map : gmap (option string) project;
  _tag_map : gmap (option string) string;
  _default_calendar : option calendar;
  trace : list event
}.

Definition M (A : Type) : Type := state → result A * state.

Global Instance M_ret : MRet M := λ A a s, (Ok a, s).
Global Instance M_bind : MBind M := λ A B f m s,
  match m s with
  | (Ok a, s') => f a s'
  | (Raise e, s') => (Raise e, s')
  end.

Definition lift {A} (r : result A) : M A := λ s, (r, s).

Definition get_self : M state := λ s, (Ok s, s).

(** A call to a collaborator: the world moves on and the call is traced. *)
Definition call {A} (ev : event) (f : external World A) : M A := λ s,
  let '(r, w) := f (world s) in
  (r, State w (_area_map s) (_project_map s) (_tag_map s) (_default_calendar s)
        (trace s ++ [ev])).

(** [self.logger.<lvl>(msg)] *)
Definition log (lvl : level) (msg : string) : M unit := λ s,
  (Ok tt, State (world s) (_area_map s) (_project_map s) (_tag_map s)
            (_default_calendar s) (trace s ++ [Logged lvl msg])).

(** The state [s] after the events [evs]. *)
Definition traced (s : state) (evs : list event) : state :=
  State (world s) (_area_map s) (_project_map s) (_tag_map s) (_default_calendar s)
    (trace s ++ evs).

Definition set_area_map (m : gmap (option string) area) : M unit := λ s,
  (Ok tt, State (world s) m (_project_map s) (_tag_map s) (_default_calendar s) (trace s)).

Definition set_project_map (m : gmap (option string) project) : M unit := λ s,
  (Ok tt, State (world s) (_area_map s) m (_tag_map s) (_default_calendar s) (trace s)).

Definition set_tag_map (m : gmap (option string) string) : M unit := λ s,
  (Ok tt, State (world s) (_area_map s) (_project_map s) m (_default_calendar s) (trace s)).

Definition set_default_calendar (c : calendar) : M unit := λ s,
  (Ok tt, State (world s) (_area_map s) (_project_map s) (_tag_map s) (Some c) (trace s)).

(** [try: body  except <classes>: handler]; what [body] did before it
    raised stays done. *)
Definition try_catch {A} (body : M A) (catches : exn_class → bool)
    (handler : exn → M A) : M A := λ s,
  match body s with
  | (Ok a, s') => (Ok a, s')
  | (Raise e, s') => if catches (exn_cls e) then handler e s' else (Raise e, s')
  end.

(** [for x in l: acc = body(x, acc)] *)
Fixpoint for_each {A S} (l : list A) (body : A → S → M S) (acc : S) : M S :=
  match l with
  | [] => mret acc
  | x :: l' => acc' ← body x acc; for_each l' body acc'
  end.

(** *** Metadata *)

Definition process_areas : M (gmap (option string) area) :=
  areas ← call (Queried GetAreas) (get_areas things);
  log INFO ("Processing " +:+ Py.str_nat (length areas) +:+ " areas from Things");;
  for_each areas (λ area (_ : unit),
    let area_uuid := area_uuid area in
    self ← get_self;
    set_area_map (<[area_uuid := area]> (_area_map self))) tt;;
  self ← get_self;
  mret (_area_map self).

Definition process_projects : M (gmap (option string) project) :=
  projects ← call (Queried GetProjects) (get_projects things);
  log INFO ("Processing " +:+ Py.str_nat (length projects) +:+ " projects from Things");;
  for_each projects (λ project (_ : unit),
    let project_uuid := project_uuid project in
    self ← get_self;
    set_project_map (<[project_uuid := project]> (_project_map self))) tt;;
  self ← get_self;
  mret (_project_map self).

Definition process_tags : M (gmap (option string) string) :=
  tags ← call (Queried GetTags) (get_tags things);
  log INFO ("Processing " +:+ Py.str_nat (length tags) +:+ " tags from Things");;
  for_each tags (λ tag (_ : unit),
    let tag_uuid := tag_uuid tag in
    let tag_title := default "Unnamed Tag" (tag_title tag) in
    self ← get_self;
    set_tag_map (<[tag_uuid := tag_title]> (_tag_map self))) tt;;
  self ← get_self;
  mret (_tag_map self).

Definition _get_default_calendar : M calendar :=
  self ← get_self;
  match _default_calendar self with
  | None =>
      c ← call AskedDefaultCalendar (get_default_calendar reminders);
      set_default_calendar c;;
      mret c
  | Some c => mret c
  end.

(** *** export_todos *)

Definition batch_size : nat := 300.

(** [range(0, n, batch_size)] *)
Definition batch_starts (n : nat) : list nat :=
  (λ k, k * batch_size) <$> seq 0 ((n + batch_size - 1) / batch_size).

(** [todos[i:i+batch_size]] *)
Definition batch_at (todos : list todo) (i : nat) : list todo :=
  take batch_size (drop i todos).

(** [enumerate(l)] *)
Definition enumerate {A} (l : list A) : list (nat * A) := imap (λ j x, (j, x)) l.

(** [a, b = l] *)
Definition unpack2 (l : list string) : result (string * string) :=
  match l with
  | [a; b] => Ok (a, b)
  | _ => Raise (Exn ValueError "wrong number of values to unpack")
  end.

(** [int(s)] *)
Definition py_int (s : string) : result Z :=
  match str_int s with
  | Some z => Ok z
  | None => Raise (Exn ValueError ("invalid literal for int() with base 10: " +:+ s))
  end.

(** [l[0]] *)
Definition item0 {A} (l : list A) : result A :=
  match l with
  | x :: _ => Ok x
  | [] => Raise (Exn IndexError "list index out of range")
  end.

Definition catches (classes : list exn_class) (c : exn_class) : bool :=
  bool_decide (c ∈ classes).

(** The body of the loop over the lines of the calendar reply. *)
Definition parse_calendar_line (calendar_dict : list (string * string))
    (line : string) (calendar_assignments : gmap Z string) : M (gmap Z string) :=
  if Py.contains ":" line then
    try_catch
      ('(index_str, calendar_name) ← lift (unpack2 (Py.split1 ":" line));
       index ← lift (py_int (str_strip index_str));
       let calendar_name := str_lower (str_strip calendar_name) in
       if Dict.mem calendar_name calendar_dict
       then mret (<[index := calendar_name]> calendar_assignments)
       else mret calendar_assignments)
      (catches [ValueError; IndexError])
      (λ _,
         log WARNING ("Could not parse LLM response line: " +:+ line);;
         mret calendar_assignments)
  else mret calendar_assignments.

(** # Parse batch results *)
Definition parse_calendar_assignments (calendar_dict : list (string * string))
    (calendar_names_result : completed_process) : M (gmap Z string) :=
  for_each (Py.split (ascii_of_nat 10) (str_strip (stdout calendar_names_result)))
    (parse_calendar_line calendar_dict) ∅.

(** The name [llm_tagging_result] is read in [export_todos] but bound
    nowhere: the statement that assigned it is commented out and the
    module has no global of that name, so loading it raises. *)
Definition llm_tagging_result : M completed_process :=
  lift (Raise (Exn NameError "name 'llm_tagging_result' is not defined")).

Definition parse_tag_line (line : string) (tag_assignments : gmap Z (list string))
    : M (gmap Z (list string)) :=
  if Py.contains ":" line then
    try_catch
      ('(index_str, tag_name) ← lift (unpack2 (Py.split1 ":" line));
       index ← lift (py_int (str_strip index_str));
       let tag_name := Py.split "," (str_lower (str_strip tag_name)) in
       mret (<[index := tag_name]> tag_assignments))
      (catches [ValueError; IndexError])
      (λ _,
         log WARNING ("Could not parse LLM response line: " +:+ line);;
         mret tag_assignments)
  else mret tag_assignments.

(** # Parse auto tagging results *)
Definition parse_tag_assignments : M (gmap Z (list string)) :=
  result ← llm_tagging_result;
  for_each (Py.split (ascii_of_nat 10) (str_strip (stdout result))) parse_tag_line ∅.

(** [f"{x}"] for an optional string *)
Definition str_opt (o : option string) : string := default "None" o.

Definition with_notes (params : reminder_params) (notes : string) : reminder_params :=
  Params (p_title params) notes (p_due_date params) (p_priority params)
    (p_calendar_id params) (p_tags params) (p_completed params)
    (p_completion_date params) (p_early_reminder_date params) (p_flagged params).

Definition with_tags (params : reminder_params) (tags : list string) : reminder_params :=
  Params (p_title params) (p_notes params) (p_due_date params) (p_priority params)
    (p_calendar_id params) tags (p_completed params)
    (p_completion_date params) (p_early_reminder_date params) (p_flagged params).

Definition with_calendar_id (params : reminder_params) (calendar_id : string)
    : reminder_params :=
  Params (p_title params) (p_notes params) (p_due_date params) (p_priority params)
    (Some calendar_id) (p_tags params) (p_completed params)
    (p_completion_date params) (p_early_reminder_date params) (p_flagged params).

(** The body of the loop over the todos of one batch: todo number [j]
    of the batch. *)
Definition export_todo (default_calendar : calendar)
    (calendar_dict : list (string * string))
    (calendar_assignments : gmap Z string)
    (tag_assignments : gmap Z (list string))
    (jt : nat * todo) (created_reminders : list reminder) : M (list reminder) :=
  let '(j, todo) := jt in
  let todo_uuid := todo_uuid todo in
  let todo_title := default "Unnamed Todo" (todo_title todo) in
  let project_uuid := todo_project todo in
  let area_uuid := todo_area todo in
  (* Collect context information to include in reminder *)
  let context_info : list string := [] in
  (* Get assigned calendar or use default *)
  first_name ← lift (item0 (Dict.keys calendar_dict));
  let calendar_name_lower := default first_name (calendar_assignments !! Z.of_nat j) in
  let calendar_id :=
    default (cal_id default_calendar) (Dict.get calendar_name_lower calendar_dict) in
  self ← get_self;
  (* Add project information if available *)
  let context_info :=
    if Py.truthy project_uuid then
      match _project_map self !! project_uuid with
      | Some project =>
          let project_name := default "Unnamed Project" (project_title project) in
          Py.append context_info ("Project: " +:+ project_name)
      | None => context_info
      end
    else context_info in
  (* Add area information if available *)
  let context_info :=
    if Py.truthy area_uuid then
      match _area_map self !! area_uuid with
      | Some area =>
          let area_name := default "Unnamed Area" (area_title area) in
          Py.append context_info ("Area: " +:+ area_name)
      | None => context_info
      end
    else context_info in
  (* Get tag names if present *)
  let tag_names :=
    match todo_tags todo with
    | Some (_ :: _) => default [] (tag_assignments !! Z.of_nat j)
    | _ => []
    end in
  (* Map the todo to reminder parameters and add context *)
  params ← lift (get_reminder_params_from_todo fromisoformat todo
                   (Some (cal_id default_calendar)));
  (* Add context information to notes *)
  let params :=
    match context_info with
    | [] => params
    | _ =>
        let context_str := Py.join nl context_info in
        match p_notes params with
        | EmptyString => with_notes params context_str
        | notes => with_notes params (notes +:+ nl +:+ nl +:+ context_str)
        end
    end in
  let params := with_tags params tag_names in
  let params := with_calendar_id params calendar_id in
  (* Create the reminder *)
  try_catch
    (log INFO ("Creating reminder for todo: " +:+ todo_title);;
     reminder ← call (CalledCreate params) (create_reminder reminders params);
     mret (Py.append created_reminders reminder))
    is_Exception
    (λ e,
       log ERROR ("Error creating reminder for todo " +:+ str_opt todo_uuid +:+ ": "
                  +:+ exn_msg e);;
       mret created_reminders).

(** # Process each todo in the batch with its assigned calendar *)
Definition export_batch_todos (default_calendar : calendar)
    (calendar_dict : list (string * string))
    (calendar_assignments : gmap Z string)
    (tag_assignments : gmap Z (list string))
    (batch_todos : list todo) (created_reminders : list reminder) : M (list reminder) :=
  for_each (enumerate batch_todos)
    (export_todo default_calendar calendar_dict calendar_assignments tag_assignments)
    created_reminders.

Definition llm_system_prompt (calendar_dict : list (string * string)) : string :=
  "You are a helpful assistant to make a todo list. For each numbered todo, reply with ONLY the calendar name (like 'personal' or 'work') that best fits. Format your response as 'number: calendar_name' for each todo, one per line."
  +:+ nl +:+ nl +:+ "Available calendars: " +:+ str_of_names (Dict.keys calendar_dict).

(** The body of the loop over the batches: the batch that starts at [i]. *)
Definition export_batch (default_calendar : calendar)
    (calendar_dict : list (string * string)) (todos : list todo)
    (i : nat) (created_reminders : list reminder) : M (list reminder) :=
  let batch_todos := batch_at todos i in
  log INFO ("Processing batch of " +:+ Py.str_nat (length batch_todos)
            +:+ " todos (batch " +:+ Py.str_nat (i / batch_size + 1) +:+ ")");;
  (* Prepare batch LLM request *)
  let batch_prompts :=
    (λ '(j, todo),
       Py.str_nat j +:+ ": pick the best calendar for this todo: "
       +:+ default "Unnamed Todo" (todo_title todo)) <$> enumerate batch_todos in
  let batch_prompt := Py.join nl batch_prompts in
  let llm_prompt := batch_prompt in
  (* Execute batch LLM command *)
  let argv := ["llm"; "-s"; llm_system_prompt calendar_dict; llm_prompt] in
  calendar_names_result ← call (RanSubprocess argv) (subprocess_run argv);
  calendar_assignments ← parse_calendar_assignments calendar_dict calendar_names_result;
  tag_assignments ← parse_tag_assignments;
  export_batch_todos default_calendar calendar_dict calendar_assignments
    tag_assignments batch_todos created_reminders.

Definition export_todos (todos_list : option (list todo)) : M (list reminder) :=
  todos ← match todos_list with
          | None => call (Queried GetTodos) (get_todos things)
          | Some todos => mret todos
          end;
  log INFO ("Exporting " +:+ Py.str_nat (length todos) +:+ " todos to Reminders");;
  let created_reminders : list reminder := [] in
  default_calendar ← _get_default_calendar;
  (* Get all calendars once *)
  calendars ← call ListedCalendars (list_calendars reminders);
  let calendar_dict :=
    foldl (λ d calendar, Dict.set (str_lower (cal_name calendar)) (cal_id calendar) d)
      [] calendars in
  for_each (batch_starts (length todos))
    (export_batch default_calendar calendar_dict todos) created_reminders.

(** *** The entry points *)

Definition export_all : M (nat * nat * nat * nat) :=
  (* First process metadata *)
  areas ← process_areas;
  projects ← process_projects;
  tags ← process_tags;
  (* Then export todos *)
  todos ← export_todos None;
  mret (size areas, size projects, size tags, length todos).

(** The keyword arguments of [export_with_options]. *)
Record options := Options {
  include_completed : bool;
  include_canceled : bool;
  only_with_deadlines : bool;
  only_today : bool;
  only_inbox : bool;
  only_upcoming : bool;
  only_someday : bool;
  completed_last : option string;
  filter_tag : option string
}.

(** The two variables the helper [add_todos] closes over. *)
Record selection := Selection {
  todos_to_export : list todo;
  todo_uuids : gset string
}.

(** The body of the loop of [add_todos]. *)
Definition add_todo (todo : todo) (sel : selection) : selection :=
  match todo_uuid todo with
  | Some (String c u) =>
      let uuid := String c u in
      if decide (uuid ∉ todo_uuids sel)
      then Selection (Py.append (todos_to_export sel) todo) ({[uuid]} ∪ todo_uuids sel)
      else sel
  | _ => sel
  end.

(** # Helper to add todos if they aren't already in the list *)
Definition add_todos (todo_list : list todo) (sel : selection) : selection :=
  foldl (λ sel todo, add_todo todo sel) sel todo_list.

(** [if flag: log; add_todos(view())] *)
Definition add_view (flag : bool) (msg : string) (q : query)
    (view : external World (list todo)) (sel : selection) : M selection :=
  if flag then
    log INFO msg;;
    todo_list ← call (Queried q) view;
    mret (add_todos todo_list sel)
  else mret sel.

(** The tag names of a todo that [_tag_map] resolves. *)
Definition resolved_tag_names (tag_map : gmap (option string) string) (todo : todo)
    : list string :=
  let tag_uuids := default [] (todo_tags todo) in
  omap (λ tag_uuid, tag_map !! Some tag_uuid) tag_uuids.

(** # Collect all todos to export based on options *)
Definition collect_todos (o : options) : M (list todo) :=
  let sel := Selection [] ∅ in
  (* Add todos based on the specified options *)
  sel ← add_view (only_today o) "Adding todos from Today view"
          GetToday (get_today_tasks things) sel;
  sel ← add_view (only_inbox o) "Adding todos from Inbox"
          GetInbox (get_inbox_tasks things) sel;
  sel ← add_view (only_upcoming o) "Adding todos from Upcoming view"
          GetUpcoming (get_upcoming_tasks things) sel;
  sel ← add_view (only_someday o) "Adding todos from Someday view"
          GetSomeday (get_someday_tasks things) sel;
  sel ← add_view (only_with_deadlines o) "Adding todos with deadlines"
          GetDeadlines (get_deadlines things) sel;
  (* If no specific view is selected, get all active todos *)
  sel ← add_view
          (negb (only_today o || only_inbox o || only_upcoming o ||
                 only_someday o || only_with_deadlines o))
          "Adding all active incomplete todos" GetTodos (get_todos things) sel;
  (* Apply tag filter if specified *)
  sel ← (match filter_tag o with
         | Some (String c t) =>
             let filter_tag := String c t in
             log INFO ("Filtering todos by tag: " +:+ filter_tag);;
             self ← get_self;
             let filtered_todos :=
               filter (λ todo, filter_tag ∈ resolved_tag_names (_tag_map self) todo)
                 (todos_to_export sel) in
             mret (Selection filtered_todos (todo_uuids sel))
         | _ => mret sel
         end);
  (* Add completed tasks if requested *)
  sel ← (if include_completed o then
           if Py.truthy (completed_last o) then
             add_view true
               ("Adding completed todos from last " +:+ default "" (completed_last o))
               (GetCompleted (completed_last o))
               (get_completed_tasks things (completed_last o)) sel
           else
             add_view true "Adding all completed todos"
               (GetCompleted None) (get_completed_tasks things None) sel
         else mret sel);
  (* Add canceled tasks if requested *)
  sel ← add_view (include_canceled o) "Adding canceled todos"
          GetCanceled (get_canceled_tasks things) sel;
  mret (todos_to_export sel).

Definition export_with_options (o : options) : M (nat * nat * nat * nat) :=
  (* First process metadata *)
  areas ← process_areas;
  projects ← process_projects;
  tags ← process_tags;
  todos_to_export ← collect_todos o;
  (* Export the collected todos *)
  log INFO ("Exporting " +:+ Py.str_nat (length todos_to_export)
            +:+ " todos with custom filters");;
  todos ← export_todos (Some todos_to_export);
  mret (size areas, size projects, size tags, length todos).

Definition export_all_tasks : M (nat * nat * nat * nat) :=
  (* First process metadata *)
  areas ← process_areas;
  projects ← process_projects;
  tags ← process_tags;
  (* Get all tasks without any filtering *)
  log INFO "Retrieving all tasks from Things without any filtering";;
  all_tasks ← call (Queried GetAllTasks) (get_all_tasks things);
  log INFO ("Exporting " +:+ Py.str_nat (length all_tasks)
            +:+ " tasks (including all statuses and trashed items)");;
  todos ← export_todos (Some all_tasks);
  mret (size areas, size projects, size tags, length todos).

End Exporter.

(** ** The classifier's reply in the words of the specification *)

Section ReplySpec.

Context `{Env}.

(** The lines of the reply that [export_todos] goes through. *)
Definition reply_lines (calendar_names_result : completed_process) : list string :=
  Py.split (ascii_of_nat 10) (str_strip (stdout calendar_names_result)).

(** The line assigns the calendar [name] to the index [index]: it
    contains a colon, the text left of the first colon reads as the
    integer [index] once trimmed, and the text right of it, trimmed and
    lower-cased, is [name], a key of [calendar_dict]. *)
Definition assigns (calendar_dict : list (string * string)) (line : string)
    (index : Z) (name : string) : Prop :=
  ∃ pre post,
    line = pre +:+ ":" +:+ post ∧ Py.contains ":" pre = false ∧
    str_int (str_strip pre) = Some index ∧
    name = str_lower (str_strip post) ∧ name ∈ Dict.keys calendar_dict.

(** The line contains a colon, but the text left of the first colon does
    not read as an integer. *)
Definition index_unreadable (line : string) : Prop :=
  ∃ pre post,
    line = pre +:+ ":" +:+ post ∧ Py.contains ":" pre = false ∧
    str_int (str_strip pre) = None.

(** [index_unreadable], computed. *)
Definition unreadable (line : string) : bool :=
  match Py.split1 ":" line with
  | [pre; _] => bool_decide (str_int (str_strip pre) = None)
  | _ => false
  end.

(** The warning the parser logs for a line. *)
Definition parse_warning (line : string) : event :=
  Logged WARNING ("Could not parse LLM response line: " +:+ line).

(** What the parser does with one line. *)
Inductive outcome :=
  | Assigned (index : Z) (name : string)
  | Unreadable
  | Ignored.

Definition outcome_of (calendar_dict : list (string * string)) (line : string) : outcome :=
  match Py.split1 ":" line with
  | [pre; post] =>
      match str_int (str_strip pre) with
      | Some index =>
          let name := str_lower (str_strip post) in
          if Dict.mem name calendar_dict then Assigned index name else Ignored
      | None => Unreadable
      end
  | _ => Ignored
  end.

(** The table after the lines [lines]: a line that assigns overwrites the
    entry of its index. *)
Definition assign_all (d : list (string * string)) (lines : list string)
    (m : gmap Z string) : gmap Z string :=
  foldl (λ m line, match outcome_of d line with
                   | Assigned i n => <[i := n]> m
                   | _ => m
                   end) m lines.

End ReplySpec.

(** ** Selections without duplicates *)

(** What [add_todos] maintains: no identifier occurs twice among the
    todos queued for export, and each of them has an identifier, which
    is in the set of identifiers already queued. *)
Definition selection_ok (l : list todo) (uuids : gset string) : Prop :=
  NoDup (todo_uuid <$> l) ∧
  ∀ t, t ∈ l → ∃ u, todo_uuid t = Some u ∧ u ∈ uuids.

(** ** Reading a trace *)

(** The parameters of the [create_reminder] calls of a trace, in order. *)
Definition created (tr : list event) : list reminder_params :=
  omap (λ ev, match ev with CalledCreate p => Some p | _ => None end) tr.

(** How often a trace sends the query [q] to the source. *)
Definition fetches (q : query) (tr : list event) : nat :=
  length (omap (λ ev, match ev with
                      | Queried q' => if decide (q' = q) then Some q' else None
                      | _ => None
                      end) tr).

(** The warnings of a trace, in order. *)
Definition warnings (tr : list event) : list string :=
  omap (λ ev, match ev with Logged WARNING msg => Some msg | _ => None end) tr.

(** [for x in l: m[key(x)] = val(x)] on a lookup table. *)
Definition store_all {A V} (key : A → option string) (val : A → V) (l : list A)
    (m : gmap (option string) V) : gmap (option string) V :=
  foldl (λ m x, <[key x := val x]> m) m l.

(** ** A test double

    An environment small enough to run: the world is the list of the
    reminders created so far, every query answers with a fixed list, the
    classifier prints a fixed text, and [create_reminder] rejects the
    title [boom]. *)
Module Double.

Definition world : Type := list reminder_params.

Definition returns {A} (a : A) : external world A := λ w, (Ok a, w).

Definition work : calendar := Calendar "cal-work" "Work".
Definition personal : calendar := Calendar "cal-personal" "Personal".

Definition t1 : todo := plain_todo "t1" "Buy milk".
Definition t2 : todo := plain_todo "t2" "Write report".
Definition t3 : todo := plain_todo "t3" "Call mum".

Definition home : area := Area (Some "a1") (Some "Home").

Definition things_client : ThingsClient world := {|
  get_areas := returns [home];
  get_projects := returns [Project (Some "p1") (Some "Thesis")];
  get_tags := returns [Tag (Some "g1") (Some "errand")];
  get_todos := returns [t1; t2; t3];
  get_today_tasks := returns [t1; t2];
  get_inbox_tasks := returns [t2; t3];
  get_upcoming_tasks := returns [];
  get_someday_tasks := returns [];
  get_deadlines := returns [];
  get_completed_tasks := λ _, returns [];
  get_canceled_tasks := returns [];
  get_all_tasks := returns [t1; t2; t3]
|}.

Definition create (p : reminder_params) : external world reminder_params := λ w,
  if decide (p_title p = "boom")
  then (Raise (Exn (OtherException "RuntimeError") "rejected"), w)
  else (Ok p, w ++ [p]).

(** The listing puts [work] first; the default calendar is [personal]. *)
Definition reminders_client : RemindersClient world reminder_params := {|
  get_default_calendar := returns personal;
  list_calendars := returns [work; personal];
  create_reminder := create
|}.

(** [str] of a list of names that need no escaping. *)
Definition show_names (names : list string) : string :=
  "[" +:+ Py.join ", " ((λ n, "'" +:+ n +:+ "'") <$> names) +:+ "]".

(** The environment whose classifier prints [reply]. *)
Definition env (reply : string) : Env := {|
  World := world;
  reminder := reminder_params;
  fromisoformat := IsoBasic.fromisoformat;
  str_of_names := show_names;
  str_strip := AsciiOnly.strip;
  str_lower := AsciiOnly.lower;
  str_int := AsciiOnly.int;
  things := things_client;
  reminders := reminders_client;
  subprocess_run := λ _, returns (CompletedProcess 0 reply "")
|}.

(** A fresh exporter in an empty world. *)
Definition start (reply : string) : @state (env reply) :=
  @State (env reply) [] ∅ ∅ ∅ None [].

(** [calendar_dict] as [export_todos] builds it from the listing. *)
Definition calendar_dict : list (string * string) :=
  [("work", "cal-work"); ("personal", "cal-personal")].

(** What the mapper makes of [t1] for the default calendar. *)
Definition params_t1 : reminder_params :=
  Eval vm_compute in
    params_of (get_reminder_params_from_todo IsoBasic.fromisoformat t1
                 (Some (cal_id personal))).

End Double.

(** A batch of three todos, the second of which [create_reminder]
    rejects. *)
Definition three_todos : list todo :=
  [Double.t1; plain_todo "x" "boom"; Double.t2].

(** The same batch, each todo with what the mapper returns for it and the
    default calendar of the double. *)
Definition three_mapped : list (todo * reminder_params) :=
  Eval vm_compute in
    (λ t, (t, params_of (get_reminder_params_from_todo IsoBasic.fromisoformat t
                           (Some "cal-personal")))) <$> three_todos.

(** * The rest of the code

    What follows models the code around the mapper and the exporter:
    further views of their data, the Reminders client
    ([src/things2reminder/reminders_client.py]), the command line
    ([src/things2reminder/cli.py]) and the setup check
    ([src/scripts/check_reminders_setup.py]). *)
(** ** Further definitions for the properties of the mapper *)

(** The todo without its [deadline] key. *)
Definition without_deadline (t : todo) : todo :=
  Todo (todo_uuid t) (todo_title t) (todo_notes t) (todo_status t) (todo_start t)
    None (todo_when t) (todo_priority t) (todo_tags t) (todo_checklist t)
    (todo_project t) (todo_area t) (todo_stop_date t).

(** A todo completed on a known day, with tags. *)
Definition todo_done : todo :=
  Todo (Some "t4") (Some "File taxes") None (Some "completed") None None None None
    (Some ["tag1"; "tag2"]) None None None (Some "2023-04-01").

(** A todo whose deadline is the first day the calendar has, with the
    start category [Anytime]. *)
Definition todo_first_day : todo :=
  Todo (Some "t5") (Some "Begin") None None (Some "Anytime") (Some "0001-01-01")
    None None None None None None None.

(** ** Further definitions for the properties of the exporter *)

(** The batches [export_todos] goes through, in order. *)
Definition batches (todos : list todo) : list (list todo) :=
  batch_at todos <$> batch_starts (length todos).

(** The errors of a trace, in order. *)
Definition errors (tr : list event) : list string :=
  omap (λ ev, match ev with Logged ERROR msg => Some msg | _ => None end) tr.

(** The queries of a trace, in order. *)
Definition queried (tr : list event) : list query :=
  omap (λ ev, match ev with Queried q => Some q | _ => None end) tr.

Section ExporterSpec.

Context `{Env}.


(** The state [s] once a collaborator has moved the world to [w]. *)
Definition moved (s : state) (w : World) : state :=
  State w (_area_map s) (_project_map s) (_tag_map s) (_default_calendar s) (trace s).

(** The context lines that lines 210-220 collect for a todo. *)
Definition context_info_of (self : state) (t : todo) : list string :=
  (if Py.truthy (todo_project t) then
     match _project_map self !! todo_project t with
     | Some project =>
         ["Project: " +:+ default "Unnamed Project" (project_title project)]
     | None => []
     end
   else []) ++
  (if Py.truthy (todo_area t) then
     match _area_map self !! todo_area t with
     | Some area => ["Area: " +:+ default "Unnamed Area" (area_title area)]
     | None => []
     end
   else []).

(** The notes after lines 231-236. *)
Definition notes_with_context (notes : string) (context_info : list string) : string :=
  match context_info with
  | [] => notes
  | _ :: _ =>
      match notes with
      | EmptyString => Py.join nl context_info
      | String _ _ => notes +:+ nl +:+ nl +:+ Py.join nl context_info
      end
  end.

(** The calendar id lines 203-204 choose for todo [j] of the batch. *)
Definition calendar_id_of (default_calendar : calendar) (d : list (string * string))
    (calendar_assignments : gmap Z string) (j : nat) : string :=
  default (cal_id default_calendar)
    (Dict.get (default (default "" (head (Dict.keys d)))
                 (calendar_assignments !! Z.of_nat j)) d).

(** The tag names lines 223-225 choose for todo [j] of the batch. *)
Definition tag_names_of (tag_assignments : gmap Z (list string)) (j : nat) (t : todo)
    : list string :=
  match todo_tags t with
  | Some (_ :: _) => default [] (tag_assignments !! Z.of_nat j)
  | _ => []
  end.

(** The keyword arguments the loop hands to [create_reminder] when the
    mapper has returned [p0]. *)
Definition params_sent (self : state) (default_calendar : calendar)
    (d : list (string * string)) (calendar_assignments : gmap Z string)
    (tag_assignments : gmap Z (list string)) (j : nat) (t : todo)
    (p0 : reminder_params) : reminder_params :=
  Params (p_title p0)
    (notes_with_context (p_notes p0) (context_info_of self t))
    (p_due_date p0) (p_priority p0)
    (Some (calendar_id_of default_calendar d calendar_assignments j))
    (tag_names_of tag_assignments j t)
    (p_completed p0) (p_completion_date p0) (p_early_reminder_date p0) (p_flagged p0).

(** The two lines the loop logs around a creation. *)
Definition creating (t : todo) : event :=
  Logged INFO ("Creating reminder for todo: " +:+ default "Unnamed Todo" (todo_title t)).

Definition creation_error (t : todo) (e : exn) : event :=
  Logged ERROR ("Error creating reminder for todo " +:+ str_opt (todo_uuid t) +:+ ": "
                +:+ exn_msg e).

(** A call of [create_reminder] in the loop over a batch: the todo it is
    made for, the keyword arguments, and what the call gave. *)
Record create_call := CreateCall {
  call_todo : todo;
  call_params : reminder_params;
  call_result : result reminder
}.

(** One call for each todo of [mapped], in order, from index [j] and world
    [w] on: each todo comes with the parameters the mapper returned for
    it, and each call is made in the world the call before it left.  The
    second component is the world after the last call. *)
Fixpoint calls_of (self : state) (default_calendar : calendar)
    (d : list (string * string)) (calendar_assignments : gmap Z string)
    (tag_assignments : gmap Z (list string)) (j : nat)
    (mapped : list (todo * reminder_params)) (w : World) : list create_call * World :=
  match mapped with
  | [] => ([], w)
  | (t, p0) :: mapped =>
      let p := params_sent self default_calendar d calendar_assignments
                 tag_assignments j t p0 in
      let (r, w1) := create_reminder reminders p w in
      let (calls, w') := calls_of self default_calendar d calendar_assignments
                           tag_assignments (S j) mapped w1 in
      (CreateCall t p r :: calls, w')
  end.

(** The records of the calls that returned, in order. *)
Definition records_of (calls : list create_call) : list reminder :=
  omap (λ c, match call_result c with Ok rem => Some rem | Raise _ => None end) calls.

(** What the loop leaves in the trace around one call: the line it logs
    before, the call, and the error line when the call raised. *)
Definition events_of (c : create_call) : list event :=
  [creating (call_todo c); CalledCreate (call_params c)] ++
  match call_result c with
  | Ok _ => []
  | Raise e => [creation_error (call_todo c) e]
  end.

End ExporterSpec.

Section SelectionSpec.

Context `{Env}.

(** The queries the options ask for, in the order in which
    [export_with_options] sends them. *)
Definition queries_of (o : options) : list query :=
  (if only_today o then [GetToday] else []) ++
  (if only_inbox o then [GetInbox] else []) ++
  (if only_upcoming o then [GetUpcoming] else []) ++
  (if only_someday o then [GetSomeday] else []) ++
  (if only_with_deadlines o then [GetDeadlines] else []) ++
  (if only_today o || only_inbox o || only_upcoming o || only_someday o
      || only_with_deadlines o then [] else [GetTodos]) ++
  (if include_completed o
   then [GetCompleted (if Py.truthy (completed_last o) then completed_last o else None)]
   else []) ++
  (if include_canceled o then [GetCanceled] else []).

End SelectionSpec.

(** ** A second test double: a source with a tagged todo *)
Module Double2.

(** A todo that carries the tag [g1]. *)
Definition t4 : todo :=
  Todo (Some "t4") (Some "Post letter") None None None None None None (Some ["g1"])
    None None None None.

Definition things_client : ThingsClient Double.world := {|
  get_areas := Double.returns [Double.home];
  get_projects := Double.returns [Project (Some "p1") (Some "Thesis")];
  get_tags := Double.returns [Tag (Some "g1") (Some "errand"); Tag (Some "g2") None];
  get_todos := Double.returns [Double.t1; t4];
  get_today_tasks := Double.returns [t4; Double.t1];
  get_inbox_tasks := Double.returns [Double.t1];
  get_upcoming_tasks := Double.returns [];
  get_someday_tasks := Double.returns [];
  get_deadlines := Double.returns [];
  get_completed_tasks := λ _, Double.returns [];
  get_canceled_tasks := Double.returns [];
  get_all_tasks := Double.returns [Double.t1; t4]
|}.

(** A destination that is interrupted while it creates the reminder
    titled [stop]. *)
Definition create (p : reminder_params) : external Double.world reminder_params := λ w,
  if decide (p_title p = "stop")
  then (Raise (Exn (BaseOnly "KeyboardInterrupt") ""), w)
  else (Ok p, w ++ [p]).

Definition reminders_client : RemindersClient Double.world reminder_params := {|
  get_default_calendar := Double.returns Double.personal;
  list_calendars := Double.returns [Double.work; Double.personal];
  create_reminder := create
|}.

Definition env : Env := {|
  World := Double.world;
  reminder := reminder_params;
  fromisoformat := IsoBasic.fromisoformat;
  str_of_names := Double.show_names;
  str_strip := AsciiOnly.strip;
  str_lower := AsciiOnly.lower;
  str_int := AsciiOnly.int;
  things := things_client;
  reminders := reminders_client;
  subprocess_run := λ _, Double.returns (CompletedProcess 0 "" "")
|}.

(** An exporter whose tag table knows [g1] as [errand]. *)
Definition start : @state env :=
  @State env [] ∅ ∅ {[ Some "g1" := "errand" ]} None [].

(** The todo at which the destination is interrupted, and what the
    mapper makes of it. *)
Definition t_stop : todo := plain_todo "t5" "stop".

Definition params_stop : reminder_params :=
  Eval vm_compute in
    params_of (get_reminder_params_from_todo IsoBasic.fromisoformat t_stop
                 (Some (cal_id Double.personal))).

(** The options [--today --tag errand]. *)
Definition today_errands : options :=
  Options false false false true false false false None (Some "errand").

End Double2.

(** The options [--upcoming]. *)
Definition only_upcoming_set : options :=
  Options false false false false false true false None None.

(** The options [--today --inbox]. *)
Definition today_and_inbox : options :=
  Options false false false true true false false None None.

(** The reply ["0: personal"], parsed against the dictionary of the
    double. *)
Definition personal_reply : completed_process := CompletedProcess 0 "0: personal" "".

(** ** reminders_client.py

    [RemindersClient] wraps a [RemindKit] object.  The kit is a
    collaborator: each of its methods reads and changes the Reminders
    store and returns or raises. *)

Inductive loglevel := L_DEBUG | L_INFO | L_WARNING | L_ERROR.

Global Instance loglevel_eq_dec : EqDecision loglevel.
Proof. solve_decision. Defined.

(** The keyword arguments of [RemindKit.create_reminder]. *)
Record new_reminder := NewReminder {
  nr_title : string;
  nr_notes : string;
  nr_due_date : option datetime;
  nr_priority : Priority;
  nr_calendar_id : string;
  nr_is_completed : bool
}.

(** The keyword argument of one [RemindKit.update_reminder] call. *)
Inductive update :=
  | IsCompleted
  | RemindMeDate (d : datetime)
  | IsFlagged.

Record RemindKit (Store rem : Type) := {
calendars_get_default : external Store calendar;
calendars_list : external Store (list calendar);
remind_get_calendars : external Store (list calendar);
remind_create_calendar : string → external Store calendar;
remind_create_reminder : new_reminder → external Store rem;
remind_update_reminder : string → update → external Store unit;
(** [reminder.id] *)
rem_id : rem → string
}.
Global Arguments calendars_get_default {Store rem} _.
Global Arguments calendars_list {Store rem} _.
Global Arguments remind_get_calendars {Store rem} _.
Global Arguments remind_create_calendar {Store rem} _ _.
Global Arguments remind_create_reminder {Store rem} _ _.
Global Arguments remind_update_reminder {Store rem} _ _ _.
Global Arguments rem_id {Store rem} _ _.

(** What the client and the setup check do with the kit, their logger
    and the terminal, in order. *)
Inductive kit_event :=
  | KitImport
  | KitNew
  | KitPrinted (text : string)
  | KitGetDefault
  | KitList
  | KitGetCalendars
  | KitCreateCalendar (name : string)
  | KitCreateReminder (r : new_reminder)
  | KitUpdateReminder (id : string) (u : update)
  | KitLogged (lvl : loglevel) (msg : string).

(** The arguments of [RemindersClient.create_reminder], defaults filled
    in. *)
Record create_args := CreateArgs {
  a_title : string;
  a_notes : option string;
  a_due_date : option datetime;
  a_priority : option Priority;
  a_calendar_id : option string;
  a_tags : option (list string);
  a_completed : bool;
  a_completion_date : option string;
  a_early_reminder_date : option datetime;
  a_flagged : bool
}.

(** The store behind the kit, and the trace of the client. *)
Record client (Store : Type) := Client {
  store : Store;
  kit_trace : list kit_event
}.
Global Arguments Client {Store} _ _.
Global Arguments store {Store} _.
Global Arguments kit_trace {Store} _.

Definition K (Store A : Type) : Type := client Store → result A * client Store.

Global Instance K_ret {Store} : MRet (K Store) := λ A a k, (Ok a, k).
Global Instance K_bind {Store} : MBind (K Store) := λ A B f m k,
  match m k with
  | (Ok a, k') => f a k'
  | (Raise e, k') => (Raise e, k')
  end.

(** A call of a method of the kit. *)
Definition kit {Store A} (ev : kit_event) (f : external Store A) : K Store A := λ k,
  let '(r, w) := f (store k) in (r, Client w (kit_trace k ++ [ev])).

(** [self.logger.<lvl>(msg)] *)
Definition klog {Store} (lvl : loglevel) (msg : string) : K Store unit := λ k,
  (Ok tt, Client (store k) (kit_trace k ++ [KitLogged lvl msg])).

Definition kraise {Store A} (e : exn) : K Store A := λ k, (Raise e, k).

(** [try: body  except <classes>: handler] *)
Definition ktry {Store A} (body : K Store A) (catches : exn_class → bool)
    (handler : exn → K Store A) : K Store A := λ k,
  match body k with
  | (Ok a, k') => (Ok a, k')
  | (Raise e, k') => if catches (exn_cls e) then handler e k' else (Raise e, k')
  end.

Module Reminders.

Definition no_calendar : string :=
  "Could not find or create a Reminders calendar. Please make sure you have at least one calendar set up in the Reminders app and that the app has been launched at least once.".

(** The notes [create_reminder] hands to the kit (lines 135-152). *)
Definition structured_notes (a : create_args) : string :=
  (* Add reminder structure info to notes *)
  let structured_notes := default "" (a_notes a) in
  (* Add tags if provided *)
  let structured_notes :=
    match a_tags a with
    | Some (tag :: tags) =>
        let tag_str := Py.join " " ((λ tag, "#" +:+ tag) <$> tag :: tags) in
        match structured_notes with
        | String _ _ => structured_notes +:+ nl +:+ nl +:+ "Tags: " +:+ tag_str
        | EmptyString => "Tags: " +:+ tag_str
        end
    | _ => structured_notes
    end in
  (* Add completion date info if relevant *)
  if a_completed a && Py.truthy (a_completion_date a) then
    match structured_notes with
    | String _ _ =>
        structured_notes +:+ nl +:+ nl +:+ "Completed on: "
        +:+ default "" (a_completion_date a)
    | EmptyString => "Completed on: " +:+ default "" (a_completion_date a)
    end
  else structured_notes.

Section Client.

Context {Store rem : Type}.
Variable remind : RemindKit Store rem.
(** [str(d)] of a datetime, as the f-string of line 180 renders it *)
Variable str_datetime : datetime → string.

Definition list_calendars : K Store (list calendar) :=
  kit KitList (calendars_list remind).

Definition get_default_calendar : K Store calendar :=
  ktry (kit KitGetDefault (calendars_get_default remind))
    (catches [ValueError])
    (λ e,
       klog L_WARNING
         "No default calendar found. Attempting to find any available calendar.";;
       (* Try to get all calendars and use the first one *)
       found ← ktry
         (all_calendars ← kit KitGetCalendars (remind_get_calendars remind);
          match all_calendars with
          | first :: _ =>
              klog L_INFO ("Using first available calendar: " +:+ cal_name first);;
              mret (Some first)
          | [] => mret None
          end)
         is_Exception
         (λ cal_err,
            klog L_WARNING ("Could not retrieve calendars: " +:+ exn_msg cal_err);;
            mret None);
       match found with
       | Some first => mret first
       | None =>
           (* Try to create a new calendar as a last resort *)
           made ← ktry
             (klog L_INFO "Attempting to create a new calendar 'Things Export'";;
              new_calendar ← kit (KitCreateCalendar "Things Export")
                               (remind_create_calendar remind "Things Export");
              mret (Some new_calendar))
             is_Exception
             (λ create_err,
                klog L_ERROR ("Could not create a new calendar: "
                              +:+ exn_msg create_err);;
                mret None);
           match made with
           | Some new_calendar => mret new_calendar
           | None =>
               (* If all else fails, raise a more helpful error *)
               kraise (Exn ValueError no_calendar)
           end
       end).

Definition get_calendars : K Store (list calendar) :=
  default_calendar ← get_default_calendar;
  mret [default_calendar].

Definition find_or_create_calendar (name : string) : K Store calendar :=
  default_calendar ← get_default_calendar;
  klog L_WARNING ("Calendar '" +:+ name
                  +:+ "' requested but pyremindkit cannot create calendars. "
                  +:+ "Using default calendar '" +:+ cal_name default_calendar
                  +:+ "' instead.");;
  mret default_calendar.

(** The reminder [create_reminder] asks the kit for, once the calendar
    is known. *)
Definition reminder_of (a : create_args) (calendar_id : string) : new_reminder :=
  NewReminder (a_title a) (structured_notes a) (a_due_date a)
    (default NONE (a_priority a)) calendar_id (a_completed a).

(** The body of the [try] of lines 165-188. *)
Definition post_creation_updates (a : create_args) (reminder : rem) : K Store unit :=
  (* Set completed status if needed *)
  (if a_completed a then
     kit (KitUpdateReminder (rem_id remind reminder) IsCompleted)
       (remind_update_reminder remind (rem_id remind reminder) IsCompleted);;
     klog L_DEBUG ("Marked reminder '" +:+ a_title a +:+ "' as completed")
   else mret tt);;
  (* Set early reminder alert if provided *)
  (match a_early_reminder_date a with
   | Some early_reminder_date =>
       kit (KitUpdateReminder (rem_id remind reminder) (RemindMeDate early_reminder_date))
         (remind_update_reminder remind (rem_id remind reminder)
            (RemindMeDate early_reminder_date));;
       klog L_DEBUG ("Set early reminder for '" +:+ a_title a +:+ "' at "
                     +:+ str_datetime early_reminder_date)
   | None => mret tt
   end);;
  (* Set flagged status if needed *)
  (if a_flagged a then
     kit (KitUpdateReminder (rem_id remind reminder) IsFlagged)
       (remind_update_reminder remind (rem_id remind reminder) IsFlagged);;
     klog L_DEBUG ("Flagged reminder '" +:+ a_title a +:+ "' as important")
   else mret tt).

Definition create_reminder (a : create_args) : K Store rem :=
  calendar_id ← match a_calendar_id a with
                | None => default_calendar ← get_default_calendar;
                          mret (cal_id default_calendar)
                | Some calendar_id => mret calendar_id
                end;
  (* Create the reminder with the enhanced notes *)
  reminder ← kit (KitCreateReminder (reminder_of a calendar_id))
               (remind_create_reminder remind (reminder_of a calendar_id));
  (* Handle post-creation updates that require the reminder ID *)
  ktry (post_creation_updates a reminder)
    is_Exception
    (λ e, klog L_WARNING ("Error updating reminder attributes: " +:+ exn_msg e));;
  mret reminder.

End Client.

End Reminders.

(** *** The client in the words of its docstrings *)

(** The calls of the kit in a trace, without the log lines and the
    printed ones. *)
Definition kit_calls (tr : list kit_event) : list kit_event :=
  omap (λ ev, match ev with
              | KitLogged _ _ | KitPrinted _ => None
              | _ => Some ev
              end) tr.

(** The three calls of the fallback chain of [get_default_calendar]. *)
Definition fallback_calls : list kit_event :=
  [KitGetDefault; KitGetCalendars; KitCreateCalendar "Things Export"].

(** The reminders a trace asks the kit to create. *)
Definition kit_created (tr : list kit_event) : list new_reminder :=
  omap (λ ev, match ev with KitCreateReminder r => Some r | _ => None end) tr.

(** The updates a trace asks the kit for. *)
Definition kit_updates (tr : list kit_event) : list (string * update) :=
  omap (λ ev, match ev with KitUpdateReminder id u => Some (id, u) | _ => None end) tr.

(** The warnings of the client's logger. *)
Definition kit_warnings (tr : list kit_event) : list string :=
  omap (λ ev, match ev with KitLogged L_WARNING msg => Some msg | _ => None end) tr.

(** The sections of the notes: the caller's notes, the tags as hashtags,
    the completion date. *)
Definition tags_section (a : create_args) : list string :=
  match a_tags a with
  | Some (tag :: tags) => ["Tags: " +:+ Py.join " " ((λ tag, "#" +:+ tag) <$> tag :: tags)]
  | _ => []
  end.

Definition completed_section (a : create_args) : list string :=
  if a_completed a && Py.truthy (a_completion_date a)
  then ["Completed on: " +:+ default "" (a_completion_date a)]
  else [].

Definition notes_section (a : create_args) : list string :=
  if Py.truthy (a_notes a) then [default "" (a_notes a)] else [].

(** The reminder [create_reminder] asks for, section by section. *)
Definition requested (a : create_args) (calendar_id : string) : new_reminder :=
  NewReminder (a_title a)
    (Py.join (nl +:+ nl) (notes_section a ++ tags_section a ++ completed_section a))
    (a_due_date a) (default NONE (a_priority a)) calendar_id (a_completed a).

(** The updates the arguments ask for, in the order of the code. *)
Definition wanted_updates (a : create_args) : list update :=
  (if a_completed a then [IsCompleted] else []) ++
  (match a_early_reminder_date a with Some d => [RemindMeDate d] | None => [] end) ++
  (if a_flagged a then [IsFlagged] else []).

(** What [get_default_calendar] answers from store [w], read as a table
    of the kit's answers: the result, the store it leaves and the calls of
    the kit it makes.  A call is made only when the one before it gave no
    calendar: the default calendar first; when that raises [ValueError],
    the listing, whose first calendar is the answer; when the listing is
    empty or raises an [Exception], a new calendar [Things Export]. *)
Definition fallback_answer {Store rem} (remind : RemindKit Store rem) (w : Store)
    : result calendar * Store * list kit_event :=
  match calendars_get_default remind w with
  | (Ok c, w1) => (Ok c, w1, [KitGetDefault])
  | (Raise e, w1) =>
      if decide (exn_cls e = ValueError) then
        let last_resort w2 :=
          match remind_create_calendar remind "Things Export" w2 with
          | (Ok c, w3) => (Ok c, w3, fallback_calls)
          | (Raise e3, w3) =>
              (Raise (if is_Exception (exn_cls e3)
                      then Exn ValueError Reminders.no_calendar else e3),
               w3, fallback_calls)
          end in
        match remind_get_calendars remind w1 with
        | (Ok (first :: _), w2) => (Ok first, w2, [KitGetDefault; KitGetCalendars])
        | (Ok [], w2) => last_resort w2
        | (Raise e2, w2) =>
            if is_Exception (exn_cls e2) then last_resort w2
            else (Raise e2, w2, [KitGetDefault; KitGetCalendars])
        end
      else (Raise e, w1, [KitGetDefault])
  end.

(** The updates of reminder [id] that are tried when [updates] are
    wanted, from store [w] on: each in the store the one before it left,
    up to and including the first that raises.  With them come the store
    after the last update tried and the exception, if one raised. *)
Fixpoint updates_tried {Store rem} (remind : RemindKit Store rem) (id : string)
    (updates : list update) (w : Store) : list update * Store * option exn :=
  match updates with
  | [] => ([], w, None)
  | u :: updates =>
      match remind_update_reminder remind id u w with
      | (Ok _, w1) =>
          let '(tried, w2, failure) := updates_tried remind id updates w1 in
          (u :: tried, w2, failure)
      | (Raise e, w1) => ([u], w1, Some e)
      end
  end.

(** The exporter calls [create_reminder] with the dictionary unpacked:
    its keys become arguments, a missing key takes the default of the
    signature. *)
Definition args_of_params (p : reminder_params) : create_args :=
  CreateArgs (p_title p) (Some (p_notes p)) (p_due_date p) (Some (p_priority p))
    (p_calendar_id p) (Some (p_tags p)) (default false (p_completed p))
    (default None (p_completion_date p)) (p_early_reminder_date p)
    (default false (p_flagged p)).

(** ** The exporter on the Reminders client

    [ThingsExporter.__init__] builds a [RemindersClient] and the loop of
    [export_todos] calls its [create_reminder] with the dictionary of the
    todo unpacked.  This is the environment of such an exporter: its
    world is the store behind the kit together with the trace of the
    client, and its destination is the client above, run on the kit. *)
Section KitEnv.

Context {Store rem : Type}.
Variable remind : RemindKit Store rem.
Variable str_datetime : datetime → string.
Variable iso : string → option datetime.
Variable names : list string → string.
Variable strip : string → string.
Variable lower : string → string.
Variable int : string → option Z.
Variable source : ThingsClient (client Store).
Variable run : list string → external (client Store) completed_process.

Definition kit_client : RemindersClient (client Store) rem := {|
  get_default_calendar := Reminders.get_default_calendar remind;
  list_calendars := Reminders.list_calendars remind;
  create_reminder := λ p, Reminders.create_reminder remind str_datetime (args_of_params p)
|}.

Definition kit_env : Env := {|
  World := client Store;
  reminder := rem;
  fromisoformat := iso;
  str_of_names := names;
  str_strip := strip;
  str_lower := lower;
  str_int := int;
  things := source;
  reminders := kit_client;
  subprocess_run := run
|}.

End KitEnv.

(** ** cli.py

    [main] reads the parsed command line, checks the Reminders setup,
    builds an exporter and runs one of its three entry points.  The
    setup check and the construction of the two clients are
    collaborators; the logger of the module has its own trace. *)

(** What [parse_args] returns. *)
Record args := Args {
  arg_verbose : bool;
  arg_skip_checks : bool;
  arg_all : bool;
  arg_completed : bool;
  arg_canceled : bool;
  arg_with_deadlines : bool;
  arg_today : bool;
  arg_inbox : bool;
  arg_upcoming : bool;
  arg_someday : bool;
  arg_completed_last : option string;
  arg_tag : option string
}.

(** A value of the dictionary [export_options]: a flag or an optional
    string. *)
Inductive value :=
  | VBool (b : bool)
  | VStr (s : option string).

Definition value_truthy (v : value) : bool :=
  match v with
  | VBool b => b
  | VStr s => Py.truthy s
  end.

Inductive cli_event :=
  | CheckedSetup
  | BuiltExporter
  | CliLogged (lvl : loglevel) (msg : string).

(** [sub in s] on strings *)
Fixpoint str_in (sub s : string) : bool :=
  if String.prefix sub s then true
  else match s with
       | EmptyString => false
       | String _ s' => str_in sub s'
       end.

(** [kwargs.get(key)] on keyword arguments in call order *)
Fixpoint kw_get (key : string) (kwargs : list (string * value)) : option value :=
  match kwargs with
  | [] => None
  | (k, v) :: kwargs' => if decide (key = k) then Some v else kw_get key kwargs'
  end.

(** A flag of [export_with_options], [False] when not passed. *)
Definition kw_flag (key : string) (kwargs : list (string * value)) : bool :=
  match kw_get key kwargs with
  | Some (VBool b) => b
  | _ => false
  end.

(** An optional string of [export_with_options], [None] when not
    passed. *)
Definition kw_str (key : string) (kwargs : list (string * value)) : option string :=
  match kw_get key kwargs with
  | Some (VStr s) => s
  | _ => None
  end.

(** The parameters of [export_with_options] for a call with the
    dictionary unpacked. *)
Definition options_of_kwargs (kwargs : list (string * value)) : options :=
  Options (kw_flag "include_completed" kwargs) (kw_flag "include_canceled" kwargs)
    (kw_flag "only_with_deadlines" kwargs) (kw_flag "only_today" kwargs)
    (kw_flag "only_inbox" kwargs) (kw_flag "only_upcoming" kwargs)
    (kw_flag "only_someday" kwargs) (kw_str "completed_last" kwargs)
    (kw_str "filter_tag" kwargs).

(** Lines 126-139: the options, only the ones that were specified. *)
Definition export_options (a : args) : list (string * value) :=
  (* Configure export options based on arguments *)
  let export_options :=
    [("include_completed", VBool (arg_completed a));
     ("include_canceled", VBool (arg_canceled a));
     ("only_with_deadlines", VBool (arg_with_deadlines a));
     ("only_today", VBool (arg_today a));
     ("only_inbox", VBool (arg_inbox a));
     ("only_upcoming", VBool (arg_upcoming a));
     ("only_someday", VBool (arg_someday a));
     ("completed_last", VStr (arg_completed_last a));
     ("filter_tag", VStr (arg_tag a))] in
  (* Filter export options to only include ones that were specified *)
  filter (λ kv, value_truthy kv.2) export_options.

Module Cli.

Section Main.

Context `{Env}.

(** [check_reminders_setup()] of the script of the same name *)
Variable check_reminders_setup : external World bool.
(** [ThingsClient()] and [RemindersClient()], which builds the kit *)
Variable new_clients : external World unit.
(** [str(export_options)] as the f-string of line 142 renders it *)
Variable str_of_options : list (string * value) → string.

(** The exporter with the world, and the trace of the module's logger. *)
Record process := Process {
  exporter : state;
  cli_trace : list cli_event
}.

Definition C (A : Type) : Type := process → result A * process.

Global Instance C_ret : MRet C := λ A a p, (Ok a, p).
Global Instance C_bind : MBind C := λ A B f m p,
  match m p with
  | (Ok a, p') => f a p'
  | (Raise e, p') => (Raise e, p')
  end.

(** [logger.<lvl>(msg)] *)
Definition clog (lvl : loglevel) (msg : string) : C unit := λ p,
  (Ok tt, Process (exporter p) (cli_trace p ++ [CliLogged lvl msg])).

(** A call of a collaborator of the module. *)
Definition ccall {A} (ev : cli_event) (f : external World A) : C A := λ p,
  let '(r, w) := f (world (exporter p)) in
  (r, Process (moved (exporter p) w) (cli_trace p ++ [ev])).

(** A method of the exporter. *)
Definition run {A} (m : M A) : C A := λ p,
  let '(r, s) := m (exporter p) in (r, Process s (cli_trace p)).

(** [try: body  except <classes>: handler] *)
Definition ctry {A} (body : C A) (catches : exn_class → bool)
    (handler : exn → C A) : C A := λ p,
  match body p with
  | (Ok a, p') => (Ok a, p')
  | (Raise e, p') => if catches (exn_cls e) then handler e p' else (Raise e, p')
  end.

(** The tables and the default calendar of a new exporter. *)
Definition empty_tables : C unit := λ p,
  (Ok tt, Process (State (world (exporter p)) ∅ ∅ ∅ None (trace (exporter p)))
            (cli_trace p)).

(** [ThingsToRemindersExporter()]: the two clients and empty tables. *)
Definition new_exporter : C unit :=
  ccall BuiltExporter new_clients;;
  empty_tables.

(** The body of the [try] of lines 117-154. *)
Definition export (a : args) : C Z :=
  new_exporter;;
  (* Check if we should export everything *)
  counts ← (if arg_all a then
              clog L_INFO
                "Exporting ALL tasks from Things (including all statuses and trashed items)";;
              run export_all_tasks
            else
              let export_options := export_options a in
              match export_options with
              | _ :: _ =>
                  clog L_INFO ("Using custom export options: "
                               +:+ str_of_options export_options);;
                  run (export_with_options (options_of_kwargs export_options))
              | [] =>
                  (* If no options specified, do the default export *)
                  clog L_INFO "Using default export options (active incomplete tasks)";;
                  run export_all
              end);
  let '(areas, projects, tags, todos) := counts in
  clog L_INFO "Export completed successfully!";;
  clog L_INFO ("Exported " +:+ Py.str_nat todos +:+ " todos from Things to Reminders");;
  clog L_INFO ("(Processed " +:+ Py.str_nat areas +:+ " areas, " +:+ Py.str_nat projects
               +:+ " projects, and " +:+ Py.str_nat tags +:+ " tags)");;
  clog L_INFO "All tasks have been exported to your default Reminders calendar.";;
  mret 0%Z.

(** The three [except] clauses of lines 155-176, tried in order. *)
Definition handle (a : args) (e : exn) : C Z :=
  if decide (exn_cls e = OtherException "PermissionError") then
    clog L_ERROR ("Permission error: " +:+ exn_msg e);;
    clog L_ERROR "Please run 'python permission_check.py' to grant access to Reminders";;
    mret 1%Z
  else if decide (exn_cls e = ValueError) then
    if str_in "No default calendar found" (exn_msg e)
       || str_in "Could not find or create a Reminders calendar" (exn_msg e)
    then
      clog L_ERROR ("Calendar error: " +:+ exn_msg e);;
      clog L_ERROR
        "Please make sure Reminders app is open and has at least one list created.";;
      clog L_ERROR "Run python check_reminders_setup.py for a detailed check.";;
      mret 1%Z
    else
      clog L_ERROR ("Export failed: " +:+ exn_msg e);;
      (if arg_verbose a then clog L_DEBUG "Error details:" else mret tt);;
      mret 1%Z
  else
    clog L_ERROR ("Export failed: " +:+ exn_msg e);;
    (if arg_verbose a then clog L_DEBUG "Error details:"
     else clog L_ERROR "Run with --verbose for more details");;
    mret 1%Z.

Definition main (a : args) : C Z :=
  clog L_INFO "Starting Things2Reminder export";;
  (* Check Reminders setup first unless skipped *)
  passed ← (if negb (arg_skip_checks a) then
              clog L_INFO "Checking Reminders setup...";;
              ok ← ccall CheckedSetup check_reminders_setup;
              if negb ok then
                clog L_ERROR
                  "Reminders setup check failed. Run check_reminders_setup.py for details.";;
                clog L_ERROR "To skip this check, run with --skip-checks";;
                mret false
              else
                clog L_INFO "Reminders setup verified";;
                mret true
            else mret true);
  if negb passed then mret 1%Z
  else ctry (export a) is_Exception (handle a).

End Main.

End Cli.

(** *** The command line in the words of its help texts *)

(** The options the command line asks for, read off the arguments. *)
Definition options_of_args (a : args) : options :=
  Options (arg_completed a) (arg_canceled a) (arg_with_deadlines a) (arg_today a)
    (arg_inbox a) (arg_upcoming a) (arg_someday a) (arg_completed_last a) (arg_tag a).

(** No export option is given. *)
Definition no_option (a : args) : bool :=
  negb (arg_completed a || arg_canceled a || arg_with_deadlines a || arg_today a
        || arg_inbox a || arg_upcoming a || arg_someday a
        || Py.truthy (arg_completed_last a) || Py.truthy (arg_tag a)).

(** The messages of the module's logger at a level. *)
Definition cli_logged (lvl : loglevel) (tr : list cli_event) : list string :=
  omap (λ ev, match ev with
              | CliLogged l msg => if decide (l = lvl) then Some msg else None
              | _ => None
              end) tr.

(** *** From a todo to the notes of its reminder *)

Section PipelineSpec.

Context `{Env}.

(** The arguments [create_reminder] receives from the loop of
    [export_todos] for todo [j] of a batch. *)
Definition sent_args (self : state) (default_calendar : calendar)
    (d : list (string * string)) (calendar_assignments : gmap Z string)
    (tag_assignments : gmap Z (list string)) (j : nat) (t : todo)
    (p0 : reminder_params) : create_args :=
  args_of_params
    (params_sent self default_calendar d calendar_assignments tag_assignments j t p0).

(** The project and area lines, one block. *)
Definition context_block (self : state) (t : todo) : list string :=
  match context_info_of self t with
  | [] => []
  | context_info => [Py.join nl context_info]
  end.

(** The tag names as hashtags. *)
Definition hashtags (tag_names : list string) : list string :=
  match tag_names with
  | [] => []
  | _ => ["Tags: " +:+ Py.join " " ((λ tag, "#" +:+ tag) <$> tag_names)]
  end.

(** The completion date of a completed todo that has one. *)
Definition completion_note (t : todo) : list string :=
  if bool_decide (todo_status t = Some "completed") && Py.truthy (todo_stop_date t)
  then ["Completed on: " +:+ default "" (todo_stop_date t)]
  else [].

End PipelineSpec.

(** ** scripts/check_reminders_setup.py *)

Module CheckSetup.

(** The eight lines printed when Reminders has no list. *)
Definition instructions : list string :=
  [nl +:+ "===== INSTRUCTIONS TO CREATE A REMINDERS LIST =====";
   "1. Open the Reminders app on your Mac";
   "2. In the sidebar, click the + button near the bottom of the lists";
   "3. Enter a name for your new list (e.g., 'Things Import')";
   "4. Press Enter/Return to create the list";
   "5. Close and reopen Reminders to ensure changes are saved";
   "6. Run this check script again";
   "===============================================" +:+ nl].

Definition grant_permission : string :=
  nl +:+ "To grant permission:" +:+ nl
  +:+ "1. Go to System Preferences > Privacy & Security > Privacy > Reminders" +:+ nl
  +:+ "2. Click the '+' button and add Terminal (or Python)" +:+ nl
  +:+ "3. Ensure the checkbox next to Terminal/Python is checked" +:+ nl
  +:+ "4. Restart Terminal and run this script again" +:+ nl.

Section Check.

Context {Store rem : Type}.
(** [from pyremindkit import RemindKit] *)
Variable import_pyremindkit : external Store unit.
(** [RemindKit()], which asks for the permission *)
Variable new_RemindKit : external Store unit.
(** the kit it returns *)
Variable remind : RemindKit Store rem.
(** [str.lower], which follows the Unicode tables of the interpreter *)
Variable lower : string → string.

(** [print(text)] *)
Definition print (text : string) : K Store unit := λ k,
  (Ok tt, Client (store k) (kit_trace k ++ [KitPrinted text])).

Definition print_instructions : K Store unit :=
  foldr (λ line rest, print line;; rest) (mret tt) instructions.

Definition check_reminders_setup : K Store bool :=
  ktry
    (kit KitImport import_pyremindkit;;
     klog L_INFO "Checking Reminders setup...";;
     (* 1. Create RemindKit instance (will test permissions) *)
     kit KitNew new_RemindKit;;
     klog L_INFO "✅ Reminders permission granted";;
     (* 2. Check for at least one calendar *)
     ktry
       ((* Try to get default calendar *)
        default_calendar ← kit KitGetDefault (calendars_get_default remind);
        klog L_INFO ("✅ Default calendar found: " +:+ cal_name default_calendar);;
        mret true)
       (catches [ValueError])
       (λ ve,
          klog L_WARNING ("No default calendar found: " +:+ exn_msg ve);;
          (* If no default, try to get all calendars *)
          ktry
            (calendars ← kit KitGetCalendars (remind_get_calendars remind);
             match calendars with
             | first :: _ =>
                 klog L_INFO ("✅ Found " +:+ Py.str_nat (length calendars)
                              +:+ " calendar(s). First one: " +:+ cal_name first);;
                 mret true
             | [] =>
                 klog L_ERROR "❌ No calendars found in Reminders";;
                 klog L_ERROR
                   "Please open the Reminders app and create at least one list";;
                 (* Instructions on how to create a list in Reminders *)
                 print_instructions;;
                 mret false
             end)
            is_Exception
            (λ e,
               klog L_ERROR ("❌ Could not retrieve calendars: " +:+ exn_msg e);;
               klog L_ERROR "Please ensure Reminders app is properly set up";;
               mret false)))
    is_Exception
    (λ e,
       if decide (exn_cls e = OtherException "ImportError") then
         klog L_ERROR
           "❌ PyRemindKit not installed. Run: pip install git+https://github.com/namuan/pyremindkit.git";;
         mret false
       else if decide (exn_cls e = OtherException "PermissionError") then
         klog L_ERROR "❌ Permission denied. You need to grant access to Reminders";;
         klog L_ERROR grant_permission;;
         mret false
       else
         klog L_ERROR ("❌ Unexpected error: " +:+ exn_msg e);;
         (* Check if the error message contains specific known issues *)
         let err_msg := lower (exn_msg e) in
         (if str_in "no default calendar" err_msg || str_in "calendar" err_msg then
            klog L_ERROR "❌ No calendars found in Reminders";;
            klog L_ERROR "Please open the Reminders app and create at least one list";;
            print_instructions
          else mret tt);;
         mret false).

(** [main] of the script: the exit status *)
Definition main : K Store Z :=
  print (nl +:+ "=== Reminders Setup Check ===" +:+ nl);;
  ktry
    (check_reminders_setup ≫= λ ok : bool,
     if ok then
       print (nl +:+ "✅ Reminders is properly set up! You can now run the Things2Reminder export tool." +:+ nl);;
       mret 0%Z
     else
       print (nl +:+ "❌ Reminders setup issues detected. Please fix the problems above." +:+ nl);;
       mret 1%Z)
    is_Exception
    (λ e,
       klog L_ERROR ("Error during check: " +:+ exn_msg e);;
       mret 1%Z).

End Check.

End CheckSetup.

(** *** The check in the words of its docstring *)

Section CheckSpec.

Context {Store rem : Type}.
Variable import_pyremindkit : external Store unit.
Variable new_RemindKit : external Store unit.
Variable remind : RemindKit Store rem.

(** The kit can be built on the store [w] and either has a default
    calendar or, having none, lists at least one calendar. *)
Definition setup_valid (w : Store) : Prop :=
  ∃ w1 w2, import_pyremindkit w = (Ok tt, w1) ∧ new_RemindKit w1 = (Ok tt, w2) ∧
    ((∃ c w3, calendars_get_default remind w2 = (Ok c, w3)) ∨
     (∃ e w3 c cs w4, calendars_get_default remind w2 = (Raise e, w3) ∧
        exn_cls e = ValueError ∧
        remind_get_calendars remind w3 = (Ok (c :: cs), w4))).

End CheckSpec.

(** The calls the check can make, in order. *)
Definition check_calls : list kit_event :=
  [KitImport; KitNew; KitGetDefault; KitGetCalendars].

(** ** Test doubles for the client, the check and the command line *)
Module KitDouble.

(** The store of the double: the reminders created so far. *)
Definition store : Type := list new_reminder.

Definition lists : calendar := Calendar "cal-lists" "Lists".

Definition refuses {A} (msg : string) : external store A := λ w,
  (Raise (Exn (OtherException "RuntimeError") msg), w).

(** A kit without a default calendar that lists [calendars], creates no
    calendar, creates every reminder (its id is its title) and cannot
    set an alert. *)
Definition remind (calendars : list calendar) : RemindKit store new_reminder := {|
  calendars_get_default := λ w, (Raise (Exn ValueError "No default calendar found"), w);
  calendars_list := λ w, (Ok calendars, w);
  remind_get_calendars := λ w, (Ok calendars, w);
  remind_create_calendar := λ _, refuses "calendars cannot be created";
  remind_create_reminder := λ r w, (Ok r, w ++ [r]);
  remind_update_reminder := λ _ u,
    match u with
    | RemindMeDate _ => refuses "alerts are not supported"
    | _ => λ w, (Ok tt, w)
    end;
  rem_id := nr_title
|}.

Definition start : client store := Client [] [].

Definition succeeds : external store unit := λ w, (Ok tt, w).

Definition str_datetime (d : datetime) : string := strftime_Y_m_d d.

(** The arguments for a completed, flagged reminder with two tags and an
    alert. *)
Definition report_args : create_args :=
  CreateArgs "Write report" (Some "Draft first") None None (Some "cal-lists")
    (Some ["work"; "urgent"]) true (Some "2023-04-01")
    (Some (Datetime 2023 3 31 0 0 0 0 None)) true.

(** A Things database without a record. *)
Definition no_things : ThingsClient (client store) := {|
  get_areas := λ k, (Ok [], k);
  get_projects := λ k, (Ok [], k);
  get_tags := λ k, (Ok [], k);
  get_todos := λ k, (Ok [], k);
  get_today_tasks := λ k, (Ok [], k);
  get_inbox_tasks := λ k, (Ok [], k);
  get_upcoming_tasks := λ k, (Ok [], k);
  get_someday_tasks := λ k, (Ok [], k);
  get_deadlines := λ k, (Ok [], k);
  get_completed_tasks := λ _ k, (Ok [], k);
  get_canceled_tasks := λ k, (Ok [], k);
  get_all_tasks := λ k, (Ok [], k)
|}.

(** The exporter on the client of this kit. *)
Definition env : Env :=
  kit_env (remind [lists]) str_datetime IsoBasic.fromisoformat Double.show_names
    AsciiOnly.strip AsciiOnly.lower AsciiOnly.int no_things
    (λ _ k, (Ok (CompletedProcess 0 "" ""), k)).

Definition exporter : @state env := @State env start ∅ ∅ ∅ None [].

End KitDouble.

Module CliDouble.

(** [--upcoming --skip-checks] *)
Definition upcoming_only : args :=
  Args false true false false false false false false true false None None.

(** No argument at all. *)
Definition no_args : args :=
  Args false false false false false false false false false false None None.

Definition start : @Cli.process (Double.env "") :=
  @Cli.Process (Double.env "") (Double.start "") [].

Definition no_repr (kwargs : list (string * value)) : string := "{...}".

End CliDouble.

(** * Examples *)

Example strip_ex : AsciiOnly.strip "  Work
 " = "Work".
Proof. reflexivity. Qed.

Example split1_ex : Py.split1 ":" "0: a:b" = ["0"; " a:b"].
Proof. reflexivity. Qed.

Example split_ex : Py.split "," "a,,b" = ["a"; ""; "b"].
Proof. reflexivity. Qed.

Example int_ex :
  AsciiOnly.int " 12 " = Some 12%Z ∧ AsciiOnly.int "-3" = Some (-3)%Z ∧
  AsciiOnly.int "1_0" = Some 10%Z ∧ AsciiOnly.int "1__0" = None ∧
  AsciiOnly.int "" = None ∧ AsciiOnly.int "x1" = None ∧ AsciiOnly.int "+ 5" = None.
Proof. repeat split; reflexivity. Qed.

Example replace_ex :
  Py.replace "Z" "+00:00" "2023-10-15T14:30:00Z" = "2023-10-15T14:30:00+00:00".
Proof. reflexivity. Qed.

Example sub_one_day_ex :
  sub_one_day (Datetime 2024 3 1 9 0 0 0 None) = Ok (Datetime 2024 2 29 9 0 0 0 None) ∧
  sub_one_day (Datetime 2023 1 1 0 0 0 0 (Some 0%Z)) = Ok (Datetime 2022 12 31 0 0 0 0 (Some 0%Z)) ∧
  sub_one_day (Datetime 1 1 1 0 0 0 0 None) = Raise (Exn OverflowError "date value out of range").
Proof. repeat split; reflexivity. Qed.

Example strftime_ex : strftime_Y_m_d (Datetime 2023 10 5 14 30 0 0 (Some 0%Z)) = "2023-10-05".
Proof. reflexivity. Qed.

Example parse_things_date_ex :
  parse_things_date IsoBasic.fromisoformat (Some "2023-10-15T14:30:00Z")
    = Ok (Some (Datetime 2023 10 15 14 30 0 0 (Some 0%Z))) ∧
  parse_things_date IsoBasic.fromisoformat None = Ok None ∧
  parse_things_date IsoBasic.fromisoformat (Some "not a date") = Ok None.
Proof. repeat split; reflexivity. Qed.

Example map_priority_ex :
  map_priority (Some 0%Z) = NONE ∧ map_priority (Some 1%Z) = LOW ∧
  map_priority (Some 2%Z) = MEDIUM ∧ map_priority (Some 3%Z) = HIGH ∧
  map_priority (Some 999%Z) = NONE ∧ map_priority None = NONE.
Proof. repeat split; reflexivity. Qed.

Example notes_ex :
  get_reminder_notes_from_todo IsoBasic.fromisoformat
    (Todo (Some "todo2") None (Some "Todo with checklist") None None
       (Some "2023-10-15T14:30:00Z") None None None
       (Some (ChecklistItems [ChecklistItem (Some "Item 1") (Some "completed");
                              ChecklistItem (Some "Item 2") (Some "incomplete")]))
       None None None)
  = Ok ("Todo with checklist" +:+ nl +:+ nl +:+
        "Deadline: 2023-10-15" +:+ nl +:+ nl +:+
        "Checklist:" +:+ nl +:+ "✓ Item 1" +:+ nl +:+ "☐ Item 2" +:+ nl +:+ nl +:+
        "Imported from Things - UUID: todo2").
Proof. reflexivity. Qed.

(** * Properties of the mapper *)

Lemma string_app_assoc (s1 s2 s3 : string) :
  (s1 +:+ s2) +:+ s3 = s1 +:+ s2 +:+ s3.
Proof.
  induction s1 as [|c s1 IH]; [done|].
  change (String c ((s1 +:+ s2) +:+ s3) = String c (s1 +:+ s2 +:+ s3)).
  by rewrite IH.
Qed.

Section MapperFacts.

Variable fromisoformat : string → option datetime.

Lemma parse_things_date_eq (date_str : option string) :
  parse_things_date fromisoformat date_str = Ok (parsed fromisoformat date_str).
Proof.
  unfold parse_things_date, parsed, datetime_fromisoformat.
  destruct (Py.truthy date_str); simpl; [|done].
  by destruct (fromisoformat _).
Qed.

(** C7: [parse_things_date] returns on every input and never raises.
    [None] and the empty string give [None]; any other string gives
    what [datetime.fromisoformat] reads from it after every [Z] has been
    replaced by [+00:00]: that timestamp, or [None] when the library
    rejects the string. *)
Theorem parse_things_date_total (date_str : option string) :
  (∃ r, parse_things_date fromisoformat date_str = Ok r) ∧
  parse_things_date fromisoformat None = Ok None ∧
  parse_things_date fromisoformat (Some "") = Ok None ∧
  (∀ c s, parse_things_date fromisoformat (Some (String c s))
          = Ok (fromisoformat (Py.replace "Z" "+00:00" (String c s)))).
Proof.
  repeat split.
  - eexists. apply parse_things_date_eq.
  - intros c s. apply parse_things_date_eq.
Qed.

Lemma checklist_line_eq (it : checklist_item) :
  checklist_line it
  = (if bool_decide (item_status it = Some "completed") then "✓ " else "☐ ")
    +:+ default "" (item_title it).
Proof. unfold checklist_line. by case_decide; case_bool_decide. Qed.

Lemma status_sections (l : list string) (st : option string) :
  (if decide (default "incomplete" st = "completed")
   then Py.append l "Status: ✓ Completed"
   else if decide (default "incomplete" st = "canceled")
        then Py.append l "Status: ✗ Canceled" else l)
  = l ++ section (bool_decide (st = Some "completed")) "Status: ✓ Completed"
      ++ section (bool_decide (st = Some "canceled")) "Status: ✗ Canceled".
Proof.
  unfold Py.append.
  destruct st as [st|]; simpl.
  - repeat case_decide; repeat case_bool_decide; simplify_eq; simpl;
      by rewrite ?app_nil_r.
  - by rewrite app_nil_r.
Qed.

(** The mapper's notes for every todo: the [TypeError] of [len(True)]
    when the checklist is the flag [True], and the rendering of the
    specification otherwise. *)
Lemma get_reminder_notes_from_todo_eq (t : todo) :
  get_reminder_notes_from_todo fromisoformat t
  = if checklist_is_flag t then Raise no_len else Ok (render_notes fromisoformat t).
Proof.
  unfold get_reminder_notes_from_todo, render_notes, checklist_is_flag, no_len.
  rewrite status_sections, parse_things_date_eq.
  unfold original_notes, status_annotation, start_annotation,
    deadline_annotation, checklist_block, footer, section, Py.append, parsed.
  destruct (todo_checklist t) as [[[]|[|item items]]|];
    destruct (Py.truthy (todo_notes t)), (Py.truthy (todo_start t)),
      (Py.truthy (todo_deadline t));
    cbn [mbind result_bind app];
    repeat case_match; simplify_eq;
    cbn [mbind result_bind app];
    rewrite <- ?app_assoc, ?app_nil_r; cbn [app];
    by rewrite ?(map_ext _ _ checklist_line_eq).
Qed.

Lemma get_reminder_notes_from_todo_returns (t : todo) :
  checklist_is_flag t = false →
  get_reminder_notes_from_todo fromisoformat t = Ok (render_notes fromisoformat t).
Proof. intros Hflag. by rewrite get_reminder_notes_from_todo_eq, Hflag. Qed.

Lemma join_snoc (sep : string) (l : list string) (x : string) :
  ∃ before, Py.join sep (l ++ [x]) = before +:+ x.
Proof.
  unfold Py.join. induction l as [|y l [before IH]]; [by exists ""|].
  destruct l as [|z l]; simpl in *.
  - exists (y +:+ sep). symmetry. apply string_app_assoc.
  - exists (y +:+ sep +:+ before). rewrite IH.
    by rewrite !string_app_assoc.
Qed.

(** For every todo whose checklist is not the flag [True], the notes are
    the sections of the specification in their fixed order (original
    notes, status, start, deadline as a date, checklist block), each
    absent when its source data is absent, joined by blank lines, with
    the footer last; the footer ends the notes, and is all of the notes
    when the todo carries nothing else. *)
Lemma get_reminder_notes_from_todo_sections (t : todo) :
  (checklist_is_flag t = false →
   get_reminder_notes_from_todo fromisoformat t = Ok (render_notes fromisoformat t)) ∧
  (∃ before, render_notes fromisoformat t = before +:+ footer t) ∧
  (todo_notes t = None → original_notes t = []) ∧
  (todo_status t = None → status_annotation t = []) ∧
  (todo_start t = None → start_annotation t = []) ∧
  (todo_deadline t = None → deadline_annotation fromisoformat t = []) ∧
  (todo_checklist t = None → checklist_block t = []) ∧
  (∀ id, get_reminder_notes_from_todo fromisoformat
           (Todo id None None None None None None None None None None None None)
         = Ok ("Imported from Things - UUID: " +:+ default "" id)).
Proof.
  split; [apply get_reminder_notes_from_todo_returns|].
  split.
  { unfold render_notes. rewrite !app_assoc. apply join_snoc. }
  unfold original_notes, status_annotation, start_annotation,
    deadline_annotation, checklist_block, parsed.
  repeat split; by intros ->.
Qed.

(** C6 at a todo that Things returns with the flag [checklist: True] (a
    todo with checklist items, fetched by a view that does not include
    the items).  By the specification its notes are the footer alone;
    the code asks for [len(True)] at line 94 and raises [TypeError],
    whatever the date parser. *)
Theorem get_reminder_notes_from_todo_TypeError :
  get_reminder_notes_from_todo fromisoformat todo_flagged_checklist
  = Raise (Exn TypeError "object of type 'bool' has no len()") ∧
  render_notes fromisoformat todo_flagged_checklist
  = "Imported from Things - UUID: t6".
Proof. split; reflexivity. Qed.

Lemma get_reminder_params_from_todo_inv (t : todo) (cal : option string)
    (p : reminder_params) :
  get_reminder_params_from_todo fromisoformat t cal = Ok p →
  p_title p = default "Untitled Task" (todo_title t) ∧
  p_notes p = render_notes fromisoformat t ∧
  p_due_date p = due_date_of fromisoformat t ∧
  p_priority p = map_priority (Some (default 0%Z (todo_priority t))) ∧
  p_calendar_id p = cal ∧
  match early_rule_date fromisoformat t with
  | Some due =>
      ∃ early, sub_one_day due = Ok early ∧
        p_early_reminder_date p = Some early ∧ p_flagged p = Some true
  | None => p_early_reminder_date p = None ∧ p_flagged p = None
  end.
Proof.
  unfold get_reminder_params_from_todo, due_date_of, early_rule_date.
  rewrite get_reminder_notes_from_todo_eq.
  destruct (checklist_is_flag t); cbn [mbind result_bind]; [done|].
  destruct (Py.truthy (todo_deadline t)) eqn:Hd.
  - rewrite parse_things_date_eq. cbn [mbind result_bind andb].
    destruct (bool_decide (todo_start t = Some "Anytime")).
    + destruct (parsed fromisoformat (todo_deadline t)) as [due|].
      * destruct (sub_one_day due) as [early|e] eqn:He; cbn [mbind result_bind];
          [|done].
        intros ?; simplify_eq. case_decide; simpl; eauto 10.
      * intros ?; simplify_eq. by case_decide.
    + intros ?; simplify_eq. by case_decide.
  - cbn [andb].
    destruct (Py.truthy (todo_when t)); rewrite ?parse_things_date_eq;
      cbn [mbind result_bind]; intros ?; simplify_eq; by case_decide.
Qed.

(** C5, as the code has it: the due date is the parsed deadline when the
    todo has a deadline string, else the parsed [when] date when it has
    one, else absent; the priority is [map_priority] of the todo's
    priority (0 when it has none); an early-reminder date of one day
    before the due date and [flagged = True] are set exactly when the
    todo has a deadline that parses and its start category is
    [Anytime], and neither is set otherwise. *)
Theorem get_reminder_params_from_todo_dates (t : todo) (cal : option string)
    (p : reminder_params) :
  get_reminder_params_from_todo fromisoformat t cal = Ok p →
  p_due_date p =
    (if Py.truthy (todo_deadline t) then parsed fromisoformat (todo_deadline t)
     else if Py.truthy (todo_when t) then parsed fromisoformat (todo_when t)
     else None) ∧
  p_priority p = map_priority (Some (default 0%Z (todo_priority t))) ∧
  match (if Py.truthy (todo_deadline t) && bool_decide (todo_start t = Some "Anytime")
         then parsed fromisoformat (todo_deadline t) else None) with
  | Some due =>
      ∃ early, sub_one_day due = Ok early ∧
        p_early_reminder_date p = Some early ∧ p_flagged p = Some true
  | None => p_early_reminder_date p = None ∧ p_flagged p = None
  end.
Proof.
  intros H. apply get_reminder_params_from_todo_inv in H.
  by destruct H as (_ & _ & ? & ? & _ & ?).
Qed.

(** C10, as the code has it: the title of the parameters is the todo's
    own title, and the placeholder [Untitled Task] when the todo has no
    title; so it is non-empty unless the todo's own title is the empty
    string. *)
Theorem get_reminder_params_from_todo_title (t : todo) (cal : option string)
    (p : reminder_params) :
  get_reminder_params_from_todo fromisoformat t cal = Ok p →
  p_title p = default "Untitled Task" (todo_title t) ∧
  (todo_title t = None → p_title p = "Untitled Task") ∧
  (todo_title t ≠ Some "" → p_title p ≠ "").
Proof.
  intros H. apply get_reminder_params_from_todo_inv in H.
  destruct H as (-> & _). split; [done|].
  split; [by intros ->|].
  by destruct (todo_title t) as [[|]|].
Qed.

(** The mapper raises in two places only: where the notes ask for the
    length of the flag, and at the early-reminder subtraction. *)
Lemma get_reminder_params_from_todo_defined (t : todo) (cal : option string) :
  if checklist_is_flag t
  then get_reminder_params_from_todo fromisoformat t cal = Raise no_len
  else
    match early_rule_date fromisoformat t with
    | Some due =>
        match sub_one_day due with
        | Ok _ => ∃ p, get_reminder_params_from_todo fromisoformat t cal = Ok p
        | Raise e => get_reminder_params_from_todo fromisoformat t cal = Raise e
        end
    | None => ∃ p, get_reminder_params_from_todo fromisoformat t cal = Ok p
    end.
Proof.
  unfold get_reminder_params_from_todo, early_rule_date.
  rewrite get_reminder_notes_from_todo_eq.
  destruct (checklist_is_flag t); cbn [mbind result_bind]; [done|].
  destruct (Py.truthy (todo_deadline t)) eqn:Hd.
  - rewrite parse_things_date_eq. cbn [mbind result_bind andb].
    destruct (bool_decide (todo_start t = Some "Anytime")).
    + destruct (parsed fromisoformat (todo_deadline t)) as [due|]; [|by eexists].
      destruct (sub_one_day due); cbn [mbind result_bind]; [by eexists|done].
    + by eexists.
  - cbn [andb].
    destruct (Py.truthy (todo_when t)); rewrite ?parse_things_date_eq;
      cbn [mbind result_bind]; by eexists.
Qed.

End MapperFacts.

(** C5 fails as stated: a todo with a deadline string and the start
    category [Anytime] whose deadline does not parse gets neither an
    early-reminder date nor the flag. *)
Lemma anytime_deadline_without_flag :
  ∃ p, get_reminder_params_from_todo IsoBasic.fromisoformat todo_bad_deadline None = Ok p ∧
       Py.truthy (todo_deadline todo_bad_deadline) = true ∧
       todo_start todo_bad_deadline = Some "Anytime" ∧
       p_early_reminder_date p = None ∧ p_flagged p = None.
Proof. eexists. repeat split; reflexivity. Qed.

(** The theorem at a todo with a deadline, priority 3 and the start
    category [Anytime]. *)
Lemma get_reminder_params_from_todo_dates_witness :
  get_reminder_params_from_todo IsoBasic.fromisoformat todo_anytime (Some "cal123")
    = Ok params_anytime ∧
  p_due_date params_anytime = Some (Datetime 2023 10 15 14 30 0 0 (Some 0%Z)) ∧
  p_priority params_anytime = HIGH ∧
  p_early_reminder_date params_anytime = Some (Datetime 2023 10 14 14 30 0 0 (Some 0%Z)) ∧
  p_flagged params_anytime = Some true.
Proof.
  assert (get_reminder_params_from_todo IsoBasic.fromisoformat todo_anytime (Some "cal123")
          = Ok params_anytime) as Hrun by (vm_compute; reflexivity).
  pose proof (get_reminder_params_from_todo_dates IsoBasic.fromisoformat
                todo_anytime (Some "cal123") params_anytime Hrun) as Hpost.
  vm_compute in Hpost.
  destruct Hpost as (Hdue & Hprio & early & Hsub & He & Hf).
  split; [exact Hrun|]. split; [exact Hdue|]. split; [exact Hprio|].
  split; [|exact Hf]. injection Hsub as <-. exact He.
Defined.

(** C10 fails as stated: the empty title of a todo is kept. *)
Lemma empty_title_is_kept :
  ∃ p, get_reminder_params_from_todo IsoBasic.fromisoformat todo_empty_title None = Ok p ∧
       p_title p = "".
Proof. eexists. split; reflexivity. Qed.

(** The theorem at a todo that has no title. *)
Lemma get_reminder_params_from_todo_title_witness :
  get_reminder_params_from_todo IsoBasic.fromisoformat todo_anytime (Some "cal123")
    = Ok params_anytime ∧
  p_title params_anytime = "Untitled Task" ∧ p_title params_anytime ≠ "".
Proof.
  assert (get_reminder_params_from_todo IsoBasic.fromisoformat todo_anytime (Some "cal123")
          = Ok params_anytime) as Hrun by (vm_compute; reflexivity).
  destruct (get_reminder_params_from_todo_title IsoBasic.fromisoformat
              todo_anytime (Some "cal123") params_anytime Hrun) as (_ & Hnone & Hne).
  split; [exact Hrun|]. split; [by apply Hnone|]. apply Hne. discriminate.
Defined.

(** * Properties of the exporter *)

Lemma store_all_snoc {A V} (key : A → option string) (val : A → V) (l : list A) (x : A)
    (m : gmap (option string) V) :
  store_all key val (l ++ [x]) m = <[key x := val x]> (store_all key val l m).
Proof. unfold store_all. by rewrite foldl_app. Qed.

Lemma store_all_union {A V} (key : A → option string) (val : A → V) (l : list A)
    (m : gmap (option string) V) :
  store_all key val l m = store_all key val l ∅ ∪ m.
Proof.
  induction l as [|x l IH] using rev_ind.
  - unfold store_all; simpl. by rewrite (left_id_L ∅ (∪)).
  - by rewrite !store_all_snoc, IH, insert_union_l.
Qed.

(** Storing the same records a second time changes nothing. *)
Lemma store_all_idemp {A V} (key : A → option string) (val : A → V) (l : list A)
    (m : gmap (option string) V) :
  store_all key val l (store_all key val l m) = store_all key val l m.
Proof.
  rewrite (store_all_union key val l (store_all key val l m)).
  rewrite (store_all_union key val l m) at 1 2.
  by rewrite (assoc_L (∪)), (idemp_L (∪)).
Qed.

Lemma fetches_app (q : query) (tr1 tr2 : list event) :
  fetches q (tr1 ++ tr2) = fetches q tr1 + fetches q tr2.
Proof. unfold fetches. by rewrite omap_app, length_app. Qed.

Section MetadataFacts.

Context `{Env}.

Lemma for_each_set_area_map (areas : list area) (s : state) :
  for_each areas (λ area (_ : unit),
    self ← get_self;
    set_area_map (<[area_uuid area := area]> (_area_map self))) tt s
  = (Ok tt, State (world s) (store_all area_uuid id areas (_area_map s))
              (_project_map s) (_tag_map s) (_default_calendar s) (trace s)).
Proof.
  revert s. induction areas as [|a areas IH]; intros s; [by destruct s|].
  cbn [for_each]. unfold mbind, M_bind, get_self, set_area_map at 1. by rewrite IH.
Qed.

Lemma for_each_set_project_map (projects : list project) (s : state) :
  for_each projects (λ project (_ : unit),
    self ← get_self;
    set_project_map (<[project_uuid project := project]> (_project_map self))) tt s
  = (Ok tt, State (world s) (_area_map s)
              (store_all project_uuid id projects (_project_map s))
              (_tag_map s) (_default_calendar s) (trace s)).
Proof.
  revert s. induction projects as [|a projects IH]; intros s; [by destruct s|].
  cbn [for_each]. unfold mbind, M_bind, get_self, set_project_map at 1. by rewrite IH.
Qed.

Lemma for_each_set_tag_map (tags : list tag) (s : state) :
  for_each tags (λ tag (_ : unit),
    self ← get_self;
    set_tag_map (<[tag_uuid tag := default "Unnamed Tag" (tag_title tag)]> (_tag_map self))) tt s
  = (Ok tt, State (world s) (_area_map s) (_project_map s)
              (store_all tag_uuid (λ tag, default "Unnamed Tag" (tag_title tag)) tags
                 (_tag_map s))
              (_default_calendar s) (trace s)).
Proof.
  revert s. induction tags as [|a tags IH]; intros s; [by destruct s|].
  cbn [for_each]. unfold mbind, M_bind, get_self, set_tag_map at 1. by rewrite IH.
Qed.

Lemma process_areas_eq (s : state) :
  process_areas s =
  match get_areas things (world s) with
  | (Ok areas, w) =>
      let m := store_all area_uuid id areas (_area_map s) in
      (Ok m, State w m (_project_map s) (_tag_map s) (_default_calendar s)
               (trace s ++ [Queried GetAreas;
                            Logged INFO ("Processing " +:+ Py.str_nat (length areas)
                                         +:+ " areas from Things")]))
  | (Raise e, w) =>
      (Raise e, State w (_area_map s) (_project_map s) (_tag_map s) (_default_calendar s)
                  (trace s ++ [Queried GetAreas]))
  end.
Proof.
  unfold process_areas, mbind, M_bind, call, log.
  destruct (get_areas things (world s)) as [[areas|e] w]; [|done].
  rewrite for_each_set_area_map. cbn. by rewrite <- app_assoc.
Qed.

Lemma process_projects_eq (s : state) :
  process_projects s =
  match get_projects things (world s) with
  | (Ok projects, w) =>
      let m := store_all project_uuid id projects (_project_map s) in
      (Ok m, State w (_area_map s) m (_tag_map s) (_default_calendar s)
               (trace s ++ [Queried GetProjects;
                            Logged INFO ("Processing " +:+ Py.str_nat (length projects)
                                         +:+ " projects from Things")]))
  | (Raise e, w) =>
      (Raise e, State w (_area_map s) (_project_map s) (_tag_map s) (_default_calendar s)
                  (trace s ++ [Queried GetProjects]))
  end.
Proof.
  unfold process_projects, mbind, M_bind, call, log.
  destruct (get_projects things (world s)) as [[projects|e] w]; [|done].
  rewrite for_each_set_project_map. cbn. by rewrite <- app_assoc.
Qed.

Lemma process_tags_eq (s : state) :
  process_tags s =
  match get_tags things (world s) with
  | (Ok tags, w) =>
      let m := store_all tag_uuid (λ tag, default "Unnamed Tag" (tag_title tag)) tags
                 (_tag_map s) in
      (Ok m, State w (_area_map s) (_project_map s) m (_default_calendar s)
               (trace s ++ [Queried GetTags;
                            Logged INFO ("Processing " +:+ Py.str_nat (length tags)
                                         +:+ " tags from Things")]))
  | (Raise e, w) =>
      (Raise e, State w (_area_map s) (_project_map s) (_tag_map s) (_default_calendar s)
                  (trace s ++ [Queried GetTags]))
  end.
Proof.
  unfold process_tags, mbind, M_bind, call, log.
  destruct (get_tags things (world s)) as [[tags|e] w]; [|done].
  rewrite for_each_set_tag_map. cbn. by rewrite <- app_assoc.
Qed.

Lemma fetches_one (q : query) (tr : list event) (lvl : level) (msg : string) :
  fetches q (tr ++ [Queried q; Logged lvl msg]) = fetches q tr + 1.
Proof. rewrite fetches_app. unfold fetches at 2. simpl. by case_decide. Qed.

(** C9, as the code has it: every call of [process_areas],
    [process_projects] and [process_tags] sends its query to the source
    once more, stores each record it gets under the record's identifier
    in the exporter's table (a later record replacing an earlier one
    with the same identifier, an entry of before staying otherwise) and
    returns that table, which is then the table of the exporter.  A
    second call therefore fetches a second time and stores what it gets
    on top of the first table; when the source answers it with the same
    records, the table is the same as after the first call. *)
Theorem process_metadata_refetches (s : state) :
  (∀ areas w1,
     get_areas things (world s) = (Ok areas, w1) →
     ∃ m s1,
       process_areas s = (Ok m, s1) ∧
       _area_map s1 = m ∧ world s1 = w1 ∧
       m = store_all area_uuid id areas (_area_map s) ∧
       fetches GetAreas (trace s1) = fetches GetAreas (trace s) + 1 ∧
       ∀ again w2,
         get_areas things w1 = (Ok again, w2) →
         ∃ m' s2,
           process_areas s1 = (Ok m', s2) ∧
           _area_map s2 = m' ∧ world s2 = w2 ∧
           m' = store_all area_uuid id again m ∧
           fetches GetAreas (trace s2) = fetches GetAreas (trace s) + 2 ∧
           (again = areas → m' = m)) ∧
  (∀ projects w1,
     get_projects things (world s) = (Ok projects, w1) →
     ∃ m s1,
       process_projects s = (Ok m, s1) ∧
       _project_map s1 = m ∧ world s1 = w1 ∧
       m = store_all project_uuid id projects (_project_map s) ∧
       fetches GetProjects (trace s1) = fetches GetProjects (trace s) + 1 ∧
       ∀ again w2,
         get_projects things w1 = (Ok again, w2) →
         ∃ m' s2,
           process_projects s1 = (Ok m', s2) ∧
           _project_map s2 = m' ∧ world s2 = w2 ∧
           m' = store_all project_uuid id again m ∧
           fetches GetProjects (trace s2) = fetches GetProjects (trace s) + 2 ∧
           (again = projects → m' = m)) ∧
  (∀ tags w1,
     get_tags things (world s) = (Ok tags, w1) →
     ∃ m s1,
       process_tags s = (Ok m, s1) ∧
       _tag_map s1 = m ∧ world s1 = w1 ∧
       m = store_all tag_uuid (λ tag, default "Unnamed Tag" (tag_title tag)) tags (_tag_map s) ∧
       fetches GetTags (trace s1) = fetches GetTags (trace s) + 1 ∧
       ∀ again w2,
         get_tags things w1 = (Ok again, w2) →
         ∃ m' s2,
           process_tags s1 = (Ok m', s2) ∧
           _tag_map s2 = m' ∧ world s2 = w2 ∧
           m' = store_all tag_uuid (λ tag, default "Unnamed Tag" (tag_title tag)) again m ∧
           fetches GetTags (trace s2) = fetches GetTags (trace s) + 2 ∧
           (again = tags → m' = m)).
Proof.
  split; [|split].
  - intros areas w1 H1. do 2 eexists.
    split; [rewrite process_areas_eq, H1; reflexivity|].
    split; [done|]. split; [done|]. split; [done|].
    split; [cbv beta iota zeta delta [trace]; by rewrite fetches_one|].
    intros again w2 H2. do 2 eexists.
    split; [rewrite process_areas_eq; cbn; rewrite H2; reflexivity|].
    split; [done|]. split; [done|]. split; [done|].
    split; [cbv beta iota zeta delta [trace]; rewrite !fetches_one; lia|].
    intros ->. cbn. apply store_all_idemp.
  - intros projects w1 H1. do 2 eexists.
    split; [rewrite process_projects_eq, H1; reflexivity|].
    split; [done|]. split; [done|]. split; [done|].
    split; [cbv beta iota zeta delta [trace]; by rewrite fetches_one|].
    intros again w2 H2. do 2 eexists.
    split; [rewrite process_projects_eq; cbn; rewrite H2; reflexivity|].
    split; [done|]. split; [done|]. split; [done|].
    split; [cbv beta iota zeta delta [trace]; rewrite !fetches_one; lia|].
    intros ->. cbn. apply store_all_idemp.
  - intros tags w1 H1. do 2 eexists.
    split; [rewrite process_tags_eq, H1; reflexivity|].
    split; [done|]. split; [done|]. split; [done|].
    split; [cbv beta iota zeta delta [trace]; by rewrite fetches_one|].
    intros again w2 H2. do 2 eexists.
    split; [rewrite process_tags_eq; cbn; rewrite H2; reflexivity|].
    split; [done|]. split; [done|]. split; [done|].
    split; [cbv beta iota zeta delta [trace]; rewrite !fetches_one; lia|].
    intros ->. cbn. apply store_all_idemp.
Qed.

End MetadataFacts.

(** C9 fails as stated: the second call of [process_areas] sends the
    query to the source again. *)
Lemma second_process_areas_fetches_again :
  ∃ m1 s1 m2 s2,
    @process_areas (Double.env "") (Double.start "") = (Ok m1, s1) ∧
    @process_areas (Double.env "") s1 = (Ok m2, s2) ∧
    fetches GetAreas (trace s1) = 1 ∧
    fetches GetAreas (trace s2) = 2.
Proof. do 4 eexists. repeat split. Qed.

(** The theorem at the double, whose source has one area. *)
Lemma process_metadata_refetches_witness :
  ∃ m s1 s2,
    @process_areas (Double.env "") (Double.start "") = (Ok m, s1) ∧
    @process_areas (Double.env "") s1 = (Ok m, s2) ∧
    _area_map s1 = m ∧ _area_map s2 = m ∧
    m = {[ Some "a1" := Double.home ]} ∧
    fetches GetAreas (trace s2) = 2.
Proof.
  destruct (@process_metadata_refetches (Double.env "") (Double.start "")) as [Hareas _].
  destruct (Hareas [Double.home] [] eq_refl)
    as (m & s1 & H1 & Hs1 & Hw1 & Hm & _ & Hagain).
  destruct (Hagain [Double.home] [] eq_refl)
    as (m' & s2 & H2 & Hs2 & _ & _ & Hn & Hsame).
  rewrite (Hsame eq_refl) in H2, Hs2.
  exists m, s1, s2. repeat split; [exact H1 | exact H2 | exact Hs1 | exact Hs2 | | exact Hn].
  rewrite Hm. reflexivity.
Defined.

(** * Properties of the selection *)

Lemma NoDup_fmap_filter {A B} (f : A → B) (P : A → Prop) `{∀ x, Decision (P x)}
    (l : list A) :
  NoDup (f <$> l) → NoDup (f <$> filter P l).
Proof.
  induction l as [|x l IH]; [done|].
  rewrite fmap_cons, NoDup_cons. intros [Hx Hl].
  rewrite filter_cons. case_decide; [|by apply IH].
  rewrite fmap_cons, NoDup_cons. split; [|by apply IH].
  intros (y & Hy & Hin%list_elem_of_filter)%list_elem_of_fmap.
  apply Hx, list_elem_of_fmap. exists y. by destruct Hin.
Qed.

Section SelectionFacts.

Context `{Env}.

Lemma bind_Ok {A B} (m : M A) (k : A → M B) (s s' : state) (r : B) :
  (m ≫= k) s = (Ok r, s') → ∃ a s1, m s = (Ok a, s1) ∧ k a s1 = (Ok r, s').
Proof. unfold mbind, M_bind. destruct (m s) as [[a|e] s1]; [eauto|done]. Qed.

Lemma add_todo_ok (t : todo) (sel : selection) :
  selection_ok (todos_to_export sel) (todo_uuids sel) →
  selection_ok (todos_to_export (add_todo t sel)) (todo_uuids (add_todo t sel)).
Proof.
  intros [Hnd Hin]. unfold add_todo.
  destruct (todo_uuid t) as [[|c u]|] eqn:Ht; [done| |done].
  case_decide as Hnew; [|done]. cbn. unfold Py.append. split.
  - rewrite fmap_app. apply NoDup_app. split; [done|]. split; [|apply NoDup_singleton].
    intros x (t' & -> & Ht')%list_elem_of_fmap Hx%list_elem_of_singleton.
    destruct (Hin t' Ht') as (u' & Hu' & Hset). rewrite Ht in Hx. congruence.
  - intros t' [Ht'| ->%list_elem_of_singleton]%elem_of_app.
    + destruct (Hin t' Ht') as (u' & Hu' & Hset). exists u'. split; [done|set_solver].
    + exists (String c u). split; [done|set_solver].
Qed.

Lemma add_todos_ok (todo_list : list todo) (sel : selection) :
  selection_ok (todos_to_export sel) (todo_uuids sel) →
  selection_ok (todos_to_export (add_todos todo_list sel))
    (todo_uuids (add_todos todo_list sel)).
Proof.
  revert sel. unfold add_todos.
  induction todo_list as [|t l IH]; intros sel Hsel; [done|].
  cbn. by apply IH, add_todo_ok.
Qed.

Lemma add_view_ok (flag : bool) (msg : string) (q : query)
    (view : external World (list todo)) (sel sel' : selection) (s s' : state) :
  add_view flag msg q view sel s = (Ok sel', s') →
  selection_ok (todos_to_export sel) (todo_uuids sel) →
  selection_ok (todos_to_export sel') (todo_uuids sel').
Proof.
  unfold add_view. destruct flag.
  - intros (? & ? & _ & (l & ? & _ & [= <- _])%bind_Ok)%bind_Ok.
    apply add_todos_ok.
  - by intros [= <- _].
Qed.

(** C8: whatever the options and whatever the views return, no task
    identifier occurs twice in the list that [export_with_options]
    collects for export, and every task in it has an identifier. *)
Theorem collect_todos_no_duplicates (o : options) (s s' : state) (l : list todo) :
  collect_todos o s = (Ok l, s') →
  NoDup (todo_uuid <$> l) ∧ ∀ t, t ∈ l → is_Some (todo_uuid t).
Proof.
  unfold collect_todos. intros Hrun.
  assert (selection_ok (todos_to_export (Selection [] ∅)) (todo_uuids (Selection [] ∅)))
    as H0 by (split; [constructor|by intros ? ?%elem_of_nil]).
  apply bind_Ok in Hrun as (sel1 & s1 & H1%add_view_ok & Hrun); [|done].
  apply bind_Ok in Hrun as (sel2 & s2 & H2%add_view_ok & Hrun); [|done].
  apply bind_Ok in Hrun as (sel3 & s3 & H3%add_view_ok & Hrun); [|done].
  apply bind_Ok in Hrun as (sel4 & s4 & H4%add_view_ok & Hrun); [|done].
  apply bind_Ok in Hrun as (sel5 & s5 & H5%add_view_ok & Hrun); [|done].
  apply bind_Ok in Hrun as (sel6 & s6 & H6%add_view_ok & Hrun); [|done].
  apply bind_Ok in Hrun as (sel7 & s7 & Hfilter & Hrun).
  assert (selection_ok (todos_to_export sel7) (todo_uuids sel7)) as H7.
  { destruct (filter_tag o) as [[|c tg]|]; try (by injection Hfilter as <- _).
    apply bind_Ok in Hfilter as (? & ? & _ & (self & ? & _ & [= <- _])%bind_Ok).
    destruct H6 as [Hnd Hin]. split; cbn.
    - by apply NoDup_fmap_filter.
    - intros t [_ Ht]%list_elem_of_filter. by apply Hin. }
  apply bind_Ok in Hrun as (sel8 & s8 & Hcompleted & Hrun).
  assert (selection_ok (todos_to_export sel8) (todo_uuids sel8)) as H8.
  { destruct (include_completed o); [|by injection Hcompleted as <- _].
    destruct (Py.truthy (completed_last o)); by eapply add_view_ok. }
  apply bind_Ok in Hrun as (sel9 & s9 & H9%add_view_ok & Hrun); [|done].
  injection Hrun as <- _. destruct H9 as [Hnd Hin]. split; [done|].
  intros t Ht. destruct (Hin t Ht) as (u & -> & _). by eexists.
Qed.

End SelectionFacts.

(** The today view and the inbox view of the double share the todo [t2]. *)
Lemma collect_todos_no_duplicates_witness :
  fst (@collect_todos (Double.env "")
         (Options false false false true true false false None None) (Double.start ""))
    = Ok [Double.t1; Double.t2; Double.t3] ∧
  NoDup (todo_uuid <$> [Double.t1; Double.t2; Double.t3]).
Proof.
  split; [reflexivity|].
  eapply (@collect_todos_no_duplicates (Double.env "")
            (Options false false false true true false false None None)
            (Double.start "")).
  reflexivity.
Defined.

(** * Properties of the reply parser *)

Lemma string_cons_app (c : ascii) (s t : string) :
  String c s +:+ t = String c (s +:+ t).
Proof. reflexivity. Qed.

(** [split1] cuts at the first separator. *)
Lemma split1_cut (c : ascii) (pre post : string) :
  Py.contains c pre = false →
  Py.split1 c (pre +:+ String c post) = [pre; post] ∧
  Py.contains c (pre +:+ String c post) = true.
Proof.
  induction pre as [|d pre IH]; intros Hleft.
  - change ("" +:+ String c post) with (String c post).
    cbn [Py.split1 Py.contains]. by destruct (decide (c = c)).
  - cbn in Hleft. rewrite string_cons_app. cbn [Py.split1 Py.contains].
    destruct (decide (c = d)); [done|].
    destruct (IH Hleft) as [-> ->]. done.
Qed.

Lemma split1_spec (c : ascii) (line : string) :
  (Py.contains c line = false ∧ Py.split1 c line = [line]) ∨
  (∃ pre post, line = pre +:+ String c post ∧ Py.contains c pre = false).
Proof.
  induction line as [|d line IH].
  - by left.
  - cbn [Py.contains Py.split1]. destruct (decide (c = d)) as [->|Hne].
    + right. by exists "", line.
    + destruct IH as [[-> ->]|(pre & post & -> & Hleft)]; [by left|].
      right. exists (String d pre), post. split; [done|].
      cbn. by rewrite decide_False.
Qed.

Section ParserFacts.

Context `{Env}.

Lemma outcome_assigned (d : list (string * string)) (line : string) (i : Z) (n : string) :
  outcome_of d line = Assigned i n ↔ assigns d line i n.
Proof.
  unfold outcome_of, assigns. split.
  - destruct (split1_spec ":" line) as [[_ ->]|(pre & post & -> & Hleft)]; [done|].
    destruct (split1_cut ":" pre post Hleft) as [-> _].
    destruct (str_int (str_strip pre)) as [i'|] eqn:Hi; [|done].
    unfold Dict.mem. case_bool_decide; [|done]. intros [= <- <-].
    by exists pre, post.
  - intros (pre & post & -> & Hleft & Hi & -> & Hmem).
    change (":" +:+ post) with (String ":" post).
    destruct (split1_cut ":" pre post Hleft) as [-> _]. rewrite Hi.
    unfold Dict.mem. by rewrite bool_decide_eq_true_2.
Qed.

Lemma outcome_unreadable (d : list (string * string)) (line : string) :
  outcome_of d line = Unreadable ↔ unreadable line = true.
Proof.
  unfold outcome_of, unreadable.
  destruct (Py.split1 ":" line) as [|pre [|post [|]]]; try done.
  destruct (str_int (str_strip pre)); [|done].
  cbn. by destruct (Dict.mem _ _).
Qed.

Lemma unreadable_spec (line : string) :
  unreadable line = true ↔ index_unreadable line.
Proof.
  unfold unreadable, index_unreadable. split.
  - destruct (split1_spec ":" line) as [[_ ->]|(pre & post & -> & Hleft)]; [done|].
    destruct (split1_cut ":" pre post Hleft) as [-> _].
    intros Hi%bool_decide_eq_true. by exists pre, post.
  - intros (pre & post & -> & Hleft & Hi).
    change (":" +:+ post) with (String ":" post).
    destruct (split1_cut ":" pre post Hleft) as [-> _].
    by apply bool_decide_eq_true.
Qed.

Lemma assign_all_lookup (d : list (string * string)) (lines : list string)
    (m : gmap Z string) (i : Z) (n : string) :
  assign_all d lines m !! i = Some n →
  m !! i = Some n ∨ ∃ line, line ∈ lines ∧ outcome_of d line = Assigned i n.
Proof.
  revert m. unfold assign_all.
  induction lines as [|line lines IH]; intros m; [by left|].
  cbn [foldl]. intros [Hm|(line' & Hin & Hout)]%IH.
  - destruct (outcome_of d line) as [i' n'| |] eqn:Hline; try by left.
    destruct (decide (i' = i)) as [->|Hne].
    + rewrite lookup_insert_eq in Hm. injection Hm as ->.
      right. exists line. split; [left|done].
    + rewrite lookup_insert_ne in Hm by done. by left.
  - right. exists line'. split; [by right|done].
Qed.

Lemma assign_all_keeps (d : list (string * string)) (lines : list string)
    (m : gmap Z string) (i : Z) :
  is_Some (m !! i) → is_Some (assign_all d lines m !! i).
Proof.
  revert m. unfold assign_all.
  induction lines as [|line lines IH]; intros m Hm; [done|].
  cbn [foldl]. apply IH. destruct (outcome_of d line) as [i' n'| |]; try done.
  destruct (decide (i' = i)) as [->|Hne].
  - rewrite lookup_insert_eq. by eexists.
  - by rewrite lookup_insert_ne.
Qed.

Lemma assign_all_defined (d : list (string * string)) (lines : list string)
    (m : gmap Z string) (line : string) (i : Z) (n : string) :
  line ∈ lines → outcome_of d line = Assigned i n →
  is_Some (assign_all d lines m !! i).
Proof.
  revert m. induction lines as [|line' lines IH]; intros m Hin Hout.
  - by apply elem_of_nil in Hin.
  - apply elem_of_cons in Hin as [<-|Hin].
    + unfold assign_all. cbn [foldl]. rewrite Hout.
      apply assign_all_keeps. rewrite lookup_insert_eq. by eexists.
    + by apply (IH _ Hin Hout).
Qed.

Lemma traced_nil (s : state) : traced s [] = s.
Proof. destruct s. unfold traced. cbn. by rewrite app_nil_r. Qed.

Lemma traced_traced (s : state) (evs1 evs2 : list event) :
  traced (traced s evs1) evs2 = traced s (evs1 ++ evs2).
Proof. unfold traced. cbn. by rewrite app_assoc. Qed.

Lemma parse_calendar_line_eq (d : list (string * string)) (line : string)
    (m : gmap Z string) (s : state) :
  parse_calendar_line d line m s =
  match outcome_of d line with
  | Assigned i n => (Ok (<[i := n]> m), s)
  | Unreadable => (Ok m, traced s [parse_warning line])
  | Ignored => (Ok m, s)
  end.
Proof.
  unfold parse_calendar_line, outcome_of.
  destruct (split1_spec ":" line) as [[-> ->]|(pre & post & -> & Hpre)]; [done|].
  destruct (split1_cut ":" pre post Hpre) as [-> ->].
  unfold try_catch, mbind, M_bind, lift, unpack2, py_int.
  destruct (str_int (str_strip pre)) as [i|]; [|done].
  by destruct (Dict.mem _ _).
Qed.

Lemma for_each_parse_calendar_line (d : list (string * string)) (lines : list string)
    (m : gmap Z string) (s : state) :
  for_each lines (parse_calendar_line d) m s =
  (Ok (assign_all d lines m),
   traced s (parse_warning <$> filter (λ line, unreadable line = true) lines)).
Proof.
  revert m s. induction lines as [|line lines IH]; intros m s.
  - cbn. by rewrite traced_nil.
  - cbn [for_each]. unfold mbind, M_bind. rewrite parse_calendar_line_eq.
    rewrite filter_cons. unfold assign_all. cbn [foldl].
    destruct (outcome_of d line) as [i n| |] eqn:Hline.
    + rewrite IH. rewrite decide_False; [done|].
      intros Hu. apply (outcome_unreadable d) in Hu. by rewrite Hline in Hu.
    + rewrite IH, traced_traced. rewrite decide_True; [done|].
      by apply (outcome_unreadable d).
    + rewrite IH. rewrite decide_False; [done|].
      intros Hu. apply (outcome_unreadable d) in Hu. by rewrite Hline in Hu.
Qed.

(** C4, as the code has it: parsing the reply never raises.  An index
    gets an entry exactly when some line of the reply contains a colon,
    has left of its first colon a text that, trimmed, reads as that
    index, and has right of it a text that, trimmed and lower-cased, is
    a key of [calendar_dict]; the entry is the name of such a line.  All
    other lines are skipped; a warning is logged for the skipped lines
    that contain a colon and whose index does not read as an integer,
    and for no other line. *)
Theorem parse_calendar_assignments_spec (d : list (string * string))
    (r : completed_process) (s : state) :
  ∃ m,
    parse_calendar_assignments d r s
    = (Ok m, traced s (parse_warning <$>
                         filter (λ line, unreadable line = true) (reply_lines r))) ∧
    (∀ i n, m !! i = Some n → ∃ line, line ∈ reply_lines r ∧ assigns d line i n) ∧
    (∀ line i n, line ∈ reply_lines r → assigns d line i n → is_Some (m !! i)) ∧
    (∀ line, unreadable line = true ↔ index_unreadable line).
Proof.
  exists (assign_all d (reply_lines r) ∅).
  split; [apply for_each_parse_calendar_line|].
  split; [|split].
  - intros i n [Hempty|(line & Hin & Hline)]%assign_all_lookup.
    + by rewrite lookup_empty in Hempty.
    + exists line. split; [done|]. by apply outcome_assigned.
  - intros line i n Hin Hline%outcome_assigned. by eapply assign_all_defined.
  - apply unreadable_spec.
Qed.

End ParserFacts.

(** C4 fails as stated: a line without a colon and a line that names no
    available calendar are skipped without a warning. *)
Lemma skipped_lines_without_warning :
  ∃ s',
    @parse_calendar_assignments (Double.env "") Double.calendar_dict
      (CompletedProcess 0 ("badline" +:+ nl +:+ "2: nonexistent") "") (Double.start "")
    = (Ok ∅, s') ∧
    warnings (trace s') = [].
Proof. eexists. split; reflexivity. Qed.

(** * Properties of export_todos *)

Lemma created_app (tr1 tr2 : list event) :
  created (tr1 ++ tr2) = created tr1 ++ created tr2.
Proof. apply omap_app. Qed.

Lemma created_warnings (lines : list string) :
  created (parse_warning <$> lines) = [].
Proof. by induction lines. Qed.

Section ExportFacts.

Context `{Env}.

Lemma get_default_calendar_quiet (s : state) :
  (∀ w, ∃ c w', get_default_calendar reminders w = (Ok c, w')) →
  ∃ c s', _get_default_calendar s = (Ok c, s') ∧
          created (trace s') = created (trace s).
Proof.
  intros Hdefault. unfold _get_default_calendar, mbind, M_bind, get_self.
  destruct (_default_calendar s) as [c|] eqn:Hc.
  - by exists c, s.
  - unfold call. destruct (Hdefault (world s)) as (c & w' & ->).
    eexists c, _. split; [reflexivity|].
    cbn. rewrite created_app. cbn. by rewrite app_nil_r.
Qed.

(** The first batch stops at the tag assignments. *)
Lemma export_batch_raises (default_calendar : calendar) (d : list (string * string))
    (todos : list todo) (i : nat) (acc : list reminder) (s : state) :
  (∀ argv w, ∃ r w', subprocess_run argv w = (Ok r, w')) →
  ∃ s', export_batch default_calendar d todos i acc s
        = (Raise (Exn NameError "name 'llm_tagging_result' is not defined"), s') ∧
        created (trace s') = created (trace s).
Proof.
  intros Hrun. unfold export_batch, mbind, M_bind, log, call.
  cbv beta iota zeta delta [world].
  match goal with |- context [subprocess_run ?argv ?w] =>
    destruct (Hrun argv w) as (r & w' & ->) end.
  unfold parse_calendar_assignments. rewrite for_each_parse_calendar_line.
  eexists. split; [reflexivity|].
  cbn. rewrite !created_app, created_warnings. cbn. by rewrite !app_nil_r.
Qed.

Lemma batch_starts_nonempty (n : nat) :
  0 < n → ∃ rest, batch_starts n = 0 :: rest.
Proof.
  intros Hn. unfold batch_starts.
  assert (0 < (n + batch_size - 1) / batch_size) as Hpos
    by (apply Nat.div_str_pos; unfold batch_size; lia).
  destruct ((n + batch_size - 1) / batch_size) as [|k]; [lia|].
  eexists. reflexivity.
Qed.

(** C2: when the default calendar, the calendar listing and the [llm]
    command answer, [export_todos] on a non-empty list of todos raises
    the [NameError] of the unbound name [llm_tagging_result] and calls
    [create_reminder] for no todo; on the empty list it returns the empty
    list. *)
Theorem export_todos_NameError (todos : list todo) (s : state) :
  (∀ w, ∃ c w', get_default_calendar reminders w = (Ok c, w')) →
  (∀ w, ∃ cs w', list_calendars reminders w = (Ok cs, w')) →
  (∀ argv w, ∃ r w', subprocess_run argv w = (Ok r, w')) →
  (todos ≠ [] →
   ∃ s', export_todos (Some todos) s
         = (Raise (Exn NameError "name 'llm_tagging_result' is not defined"), s') ∧
         created (trace s') = created (trace s)) ∧
  (∃ s', export_todos (Some []) s = (Ok [], s') ∧
         created (trace s') = created (trace s)).
Proof.
  intros Hdefault Hlist Hrun.
  assert (∀ l : list todo, ∃ c cs s2,
            created (trace s2) = created (trace s) ∧
            export_todos (Some l) s
            = for_each (batch_starts (length l))
                (export_batch c
                   (foldl (λ d calendar,
                             Dict.set (str_lower (cal_name calendar)) (cal_id calendar) d)
                      [] cs) l) [] s2) as Hprefix.
  { intros l. unfold export_todos, mbind at 1 2 3 4, M_bind at 1 2 3 4.
    cbn [mret M_ret].
    destruct (get_default_calendar_quiet
                (traced s [Logged INFO ("Exporting " +:+ Py.str_nat (length l)
                                        +:+ " todos to Reminders")]) Hdefault)
      as (c & s1 & E1 & C1).
    change (log INFO ("Exporting " +:+ Py.str_nat (length l) +:+ " todos to Reminders") s)
      with (Ok tt, traced s [Logged INFO ("Exporting " +:+ Py.str_nat (length l)
                                          +:+ " todos to Reminders")]).
    cbv beta iota. rewrite E1. unfold call.
    destruct (Hlist (world s1)) as (cs & w2 & ->).
    eexists c, cs, _. split; [|reflexivity].
    cbn. rewrite created_app, C1. cbn. rewrite created_app. cbn.
    by rewrite !app_nil_r. }
  split.
  - intros Hne. destruct (Hprefix todos) as (c & cs & s2 & C2 & ->).
    destruct (batch_starts_nonempty (length todos)) as (rest & ->).
    { destruct todos; [done|cbn; lia]. }
    cbn [for_each]. unfold mbind, M_bind.
    destruct (export_batch_raises c
                (foldl (λ d calendar,
                          Dict.set (str_lower (cal_name calendar)) (cal_id calendar) d)
                   [] cs) todos 0 [] s2 Hrun) as (s' & -> & C').
    exists s'. split; [done|]. by rewrite C'.
  - destruct (Hprefix []) as (c & cs & s2 & C2 & ->).
    exists s2. by split.
Qed.

(** Whatever the collaborators do, no batch gets past the tag
    assignments, and a non-empty list is never exported. *)
Lemma get_default_calendar_run (s : state) :
  ∃ r s', _get_default_calendar s = (r, s') ∧
          created (trace s') = created (trace s).
Proof.
  unfold _get_default_calendar, mbind, M_bind, get_self.
  destruct (_default_calendar s) as [c|]; [by eexists _, _|].
  unfold call. destruct (get_default_calendar reminders (world s)) as [[c|e] w'];
    (eexists _, _; split; [reflexivity|]);
    cbn; rewrite created_app; cbn; by rewrite app_nil_r.
Qed.

Lemma export_batch_never_returns (default_calendar : calendar)
    (d : list (string * string)) (todos : list todo) (i : nat) (acc : list reminder)
    (s : state) :
  ∃ e s', export_batch default_calendar d todos i acc s = (Raise e, s') ∧
          created (trace s') = created (trace s).
Proof.
  unfold export_batch, mbind, M_bind, log, call.
  cbv beta iota zeta delta [world].
  match goal with |- context [subprocess_run ?argv ?w] =>
    destruct (subprocess_run argv w) as [[r|e] w'] end.
  - cbn [_area_map _project_map _tag_map _default_calendar trace].
    unfold parse_calendar_assignments. rewrite for_each_parse_calendar_line.
    eexists _, _. split; [reflexivity|].
    cbn. rewrite !created_app, created_warnings. cbn. by rewrite !app_nil_r.
  - eexists _, _. split; [reflexivity|].
    cbn. rewrite !created_app. cbn. by rewrite !app_nil_r.
Qed.

Lemma export_todos_never_returns (todos : list todo) (s : state) :
  todos ≠ [] →
  ∃ e s', export_todos (Some todos) s = (Raise e, s') ∧
          created (trace s') = created (trace s).
Proof.
  intros Hne. unfold export_todos, mbind at 1 2 3 4, M_bind at 1 2 3 4.
  cbn [mret M_ret].
  change (log INFO ("Exporting " +:+ Py.str_nat (length todos) +:+ " todos to Reminders") s)
    with (Ok tt, traced s [Logged INFO ("Exporting " +:+ Py.str_nat (length todos)
                                        +:+ " todos to Reminders")]).
  cbv beta iota.
  destruct (get_default_calendar_run
              (traced s [Logged INFO ("Exporting " +:+ Py.str_nat (length todos)
                                      +:+ " todos to Reminders")]))
    as ([c|e] & s1 & -> & C1).
  - unfold call. destruct (list_calendars reminders (world s1)) as [[cs|e] w2].
    + destruct (batch_starts_nonempty (length todos)) as (rest & ->).
      { destruct todos; [done|cbn; lia]. }
      cbn [for_each]. unfold mbind, M_bind.
      match goal with |- context [export_batch c ?d todos 0 [] ?s2] =>
        destruct (export_batch_never_returns c d todos 0 [] s2) as (e & s' & -> & C')
      end.
      exists e, s'. split; [done|]. rewrite C'. cbn.
      rewrite created_app, C1. cbn. rewrite created_app. cbn. by rewrite !app_nil_r.
    + eexists _, _. split; [reflexivity|]. cbn.
      rewrite created_app, C1. cbn. rewrite created_app. cbn. by rewrite !app_nil_r.
  - exists e, s1. split; [done|]. rewrite C1. cbn. rewrite created_app. cbn.
    by rewrite app_nil_r.
Qed.



(** What lines 241-247 do once the loop body is reached: a
    [create_reminder] that returns adds its record to the list; one that
    raises an [Exception] leaves the list as it was and logs the todo's
    identifier, and the loop goes on. *)
Lemma export_todo_isolates (default_calendar : calendar)
    (d : list (string * string)) (name id : string) (rest : list (string * string))
    (calendar_assignments : gmap Z string) (tag_assignments : gmap Z (list string))
    (j : nat) (t : todo) (acc : list reminder) (s : state) (p0 : reminder_params) :
  d = (name, id) :: rest →
  get_reminder_params_from_todo fromisoformat t (Some (cal_id default_calendar)) = Ok p0 →
  ∃ p r s',
    export_todo default_calendar d calendar_assignments tag_assignments (j, t) acc s
    = (r, s') ∧
    match create_reminder reminders p (world s) with
    | (Ok rem, _) => r = Ok (acc ++ [rem])
    | (Raise e, _) =>
        is_Exception (exn_cls e) = true →
        r = Ok acc ∧
        last (trace s') =
          Some (Logged ERROR ("Error creating reminder for todo "
                              +:+ str_opt (todo_uuid t) +:+ ": " +:+ exn_msg e))
    end.
Proof.
  intros -> Hp0. unfold export_todo.
  cbn [Dict.keys fmap list_fmap fst item0].
  unfold mbind at 1 2 3, M_bind at 1 2 3, lift at 1 2, get_self.
  rewrite Hp0.
  unfold try_catch, mbind, M_bind, log, call. cbn [world trace].
  match goal with |- context [create_reminder reminders ?p ?w] =>
    exists p; destruct (create_reminder reminders p w) as [[rem|e] w'] end.
  - by eexists _, _.
  - destruct (is_Exception (exn_cls e)).
    + eexists _, _. split; [reflexivity|]. intros _. split; [done|].
      cbn [trace]. by rewrite last_snoc.
    + by eexists _, _.
Qed.

End ExportFacts.

(** The theorem at the double, on two todos and on none. *)
Lemma export_todos_NameError_witness :
  (∃ s', @export_todos (Double.env "0: personal") (Some [Double.t1; Double.t2])
           (Double.start "0: personal")
         = (Raise (Exn NameError "name 'llm_tagging_result' is not defined"), s') ∧
         created (trace s') = []) ∧
  (∃ s', @export_todos (Double.env "0: personal") (Some []) (Double.start "0: personal")
         = (Ok [], s') ∧
         created (trace s') = []).
Proof.
  destruct (@export_todos_NameError (Double.env "0: personal") [Double.t1; Double.t2]
              (Double.start "0: personal")) as [Hne Hempty].
  - intros w. eexists _, _. reflexivity.
  - intros w. eexists _, _. reflexivity.
  - intros argv w. eexists _, _. reflexivity.
  - split; [by apply Hne|exact Hempty].
Defined.

(** C1: the loop over a batch does isolate the failure of one todo, but
    [export_todos] never reaches it.  With every collaborator answering
    and [create_reminder] rejecting only the second of three todos,
    [export_todos] raises [NameError] and creates nothing, where the
    claim has it return the two records created for the first and the
    third todo. *)
Theorem export_todos_loses_the_batch :
  let run := @export_todos (Double.env "0: personal") (Some three_todos)
               (Double.start "0: personal") in
  fst run = Raise (Exn NameError "name 'llm_tagging_result' is not defined") ∧
  world (snd run) = [] ∧ created (trace (snd run)) = [].
Proof. cbv zeta. split; [|split]; vm_compute; reflexivity. Qed.

(** The loop of lines 193-247 on the same batch, given the two tables the
    parsers would hand it: the second todo is skipped and logged with its
    identifier, the other two are created. *)
Example export_batch_todos_isolates :
  let run := @export_batch_todos (Double.env "") Double.personal Double.calendar_dict ∅ ∅
               three_todos [] (Double.start "") in
  p_title <$> world (snd run) = ["Buy milk"; "Write report"] ∧
  fst run = Ok (world (snd run)) ∧
  filter (λ msg, msg ≠ "") ((λ ev, match ev with Logged ERROR msg => msg | _ => "" end)
                             <$> trace (snd run))
  = ["Error creating reminder for todo x: rejected"].
Proof. cbv zeta. split; [|split]; vm_compute; reflexivity. Qed.


(** * Further properties of the mapper *)

Section MoreMapperFacts.

Variable fromisoformat : string → option datetime.

Lemma get_reminder_params_from_todo_fields (t : todo) (cal : option string)
    (p : reminder_params) :
  get_reminder_params_from_todo fromisoformat t cal = Ok p →
  p_completed p = (if decide (todo_status t = Some "completed") then Some true else None) ∧
  p_completion_date p =
    (if decide (todo_status t = Some "completed") then Some (todo_stop_date t) else None) ∧
  p_tags p = default [] (todo_tags t) ∧
  p_calendar_id p = cal ∧
  p_notes p = render_notes fromisoformat t.
Proof.
  unfold get_reminder_params_from_todo.
  rewrite get_reminder_notes_from_todo_eq.
  destruct (checklist_is_flag t); cbn [mbind result_bind]; [done|].
  assert (match todo_tags t with Some (x :: xs) => x :: xs | _ => [] end
          = default [] (todo_tags t)) as -> by (by destruct (todo_tags t) as [[|]|]).
  destruct (Py.truthy (todo_deadline t)) eqn:Hd.
  - rewrite parse_things_date_eq. cbn [mbind result_bind andb].
    destruct (bool_decide (todo_start t = Some "Anytime")).
    + destruct (parsed fromisoformat (todo_deadline t)) as [due|].
      * destruct (sub_one_day due) as [early|e] eqn:He; cbn [mbind result_bind];
          [|done].
        intros ?; simplify_eq. by case_decide.
      * intros ?; simplify_eq. by case_decide.
    + intros ?; simplify_eq. by case_decide.
  - cbn [andb].
    destruct (Py.truthy (todo_when t)); rewrite ?parse_things_date_eq;
      cbn [mbind result_bind]; intros ?; simplify_eq; by case_decide.
Qed.

(** X1: the parameters are marked completed, and carry the todo's
    [stop_date] (absent or not) as completion date, exactly when the
    status of the todo is [completed]; for every other status, [canceled]
    included, neither key is set.  The tags are the todo's own tag
    identifiers and the calendar id is the one passed in. *)
Theorem get_reminder_params_from_todo_completed (t : todo) (cal : option string)
    (p : reminder_params) :
  get_reminder_params_from_todo fromisoformat t cal = Ok p →
  (todo_status t = Some "completed" →
   p_completed p = Some true ∧ p_completion_date p = Some (todo_stop_date t)) ∧
  (todo_status t ≠ Some "completed" →
   p_completed p = None ∧ p_completion_date p = None) ∧
  p_tags p = default [] (todo_tags t) ∧
  p_calendar_id p = cal.
Proof.
  intros (Hc & Hd & Htags & Hcal & _)%get_reminder_params_from_todo_fields.
  rewrite Hc, Hd. split; [|split; [|done]]; intros Hs; by case_decide.
Qed.

Lemma sub_one_day_raises (d : datetime) (e : exn) :
  sub_one_day d = Raise e ↔
  e = Exn OverflowError "date value out of range" ∧
  (day d ≤ 1 ∧ month d ≤ 1 ∧ year d ≤ 1)%Z.
Proof.
  unfold sub_one_day.
  destruct (Z.ltb_spec 1 (day d)); [split; [done|lia]|].
  destruct (Z.ltb_spec 1 (month d)); [split; [done|lia]|].
  destruct (Z.ltb_spec 1 (year d)); [split; [done|lia]|].
  split; [by intros [= <-]|by intros [-> _]].
Qed.

Lemma checklist_is_flag_spec (t : todo) :
  (checklist_is_flag t = true → todo_checklist t = Some (ChecklistFlag true)) ∧
  (todo_checklist t = Some (ChecklistFlag true) → checklist_is_flag t = true).
Proof.
  unfold checklist_is_flag.
  destruct (todo_checklist t) as [[[|]|items]|]; split; intros; simplify_eq; done.
Qed.

(** X2: the mapper has two ways to fail, and no third.  It raises the
    [TypeError] of [len(True)] exactly when the checklist of the todo is
    the flag [True].  Otherwise it raises exactly when the todo has a
    deadline that parses, the start category [Anytime], and a due date
    with no day before it (0001-01-01), and what it raises then is the
    [OverflowError] of the date subtraction. *)
Theorem get_reminder_params_from_todo_raises (t : todo) (cal : option string) (e : exn) :
  get_reminder_params_from_todo fromisoformat t cal = Raise e ↔
  (todo_checklist t = Some (ChecklistFlag true) ∧
   e = Exn TypeError "object of type 'bool' has no len()") ∨
  (todo_checklist t ≠ Some (ChecklistFlag true) ∧
   e = Exn OverflowError "date value out of range" ∧
   ∃ due, Py.truthy (todo_deadline t) = true ∧
          todo_start t = Some "Anytime" ∧
          parsed fromisoformat (todo_deadline t) = Some due ∧
          (day due ≤ 1 ∧ month due ≤ 1 ∧ year due ≤ 1)%Z).
Proof.
  pose proof (get_reminder_params_from_todo_defined fromisoformat t cal) as Hdef.
  pose proof (checklist_is_flag_spec t) as Hflag.
  destruct (checklist_is_flag t).
  { rewrite Hdef. destruct Hflag as [Hflag _]. specialize (Hflag eq_refl). split.
    - intros [= <-]. by left.
    - intros [[_ ->]|[? _]]; done. }
  assert (todo_checklist t ≠ Some (ChecklistFlag true)) as Hno.
  { intros Hc. destruct Hflag as [_ Hflag]. by specialize (Hflag Hc). }
  clear Hflag.
  unfold early_rule_date in Hdef.
  destruct (Py.truthy (todo_deadline t)) eqn:Hd; cbn [andb] in Hdef.
  - destruct (bool_decide (todo_start t = Some "Anytime")) eqn:Hs.
    + apply bool_decide_eq_true in Hs.
      destruct (parsed fromisoformat (todo_deadline t)) as [due|] eqn:Hdue.
      * destruct (sub_one_day due) as [early|e0] eqn:Hsub.
        -- destruct Hdef as [p Hp]. rewrite Hp. split; [done|].
           intros [[? _]|(_ & -> & due' & _ & _ & [= <-] & Hfirst)]; [done|].
           assert (sub_one_day due = Raise (Exn OverflowError "date value out of range"))
             as Hr by (by apply sub_one_day_raises).
           congruence.
        -- rewrite Hdef.
           apply sub_one_day_raises in Hsub as [-> Hfirst]. split.
           ++ intros [= <-]. right. split; [done|]. split; [done|]. by exists due.
           ++ by intros [[? _]|(_ & -> & _)].
      * destruct Hdef as [p Hp]. rewrite Hp. split; [done|].
        by intros [[? _]|(_ & _ & due & _ & _ & ? & _)].
    + apply bool_decide_eq_false in Hs.
      destruct Hdef as [p Hp]. rewrite Hp. split; [done|].
      by intros [[? _]|(_ & _ & due & _ & ? & _)].
  - destruct Hdef as [p Hp]. rewrite Hp. split; [done|].
    by intros [[? _]|(_ & _ & due & ? & _)].
Qed.

(** X3: a deadline that the parser does not read leaves no trace in the
    notes: they are the notes of the same todo without a deadline. *)
Theorem unparsed_deadline_leaves_notes (t : todo) :
  parsed fromisoformat (todo_deadline t) = None →
  get_reminder_notes_from_todo fromisoformat t
  = get_reminder_notes_from_todo fromisoformat (without_deadline t).
Proof.
  intros Hnone. rewrite !get_reminder_notes_from_todo_eq. f_equal.
  unfold render_notes, deadline_annotation. rewrite Hnone.
  by destruct t.
Qed.

End MoreMapperFacts.

(** The theorem at a completed todo. *)
Lemma get_reminder_params_from_todo_completed_witness :
  ∃ p, get_reminder_params_from_todo IsoBasic.fromisoformat todo_done None = Ok p ∧
       p_completed p = Some true ∧ p_completion_date p = Some (Some "2023-04-01") ∧
       p_tags p = ["tag1"; "tag2"].
Proof.
  exists (params_of (get_reminder_params_from_todo IsoBasic.fromisoformat todo_done None)).
  assert (get_reminder_params_from_todo IsoBasic.fromisoformat todo_done None
          = Ok (params_of (get_reminder_params_from_todo IsoBasic.fromisoformat
                             todo_done None))) as Hrun by (vm_compute; reflexivity).
  destruct (get_reminder_params_from_todo_completed IsoBasic.fromisoformat todo_done None
              _ Hrun) as (Hdone & _ & Htags & _).
  destruct (Hdone eq_refl) as [Hc Hd].
  split; [exact Hrun|]. split; [exact Hc|]. split; [exact Hd|exact Htags].
Defined.

(** The theorem at the todo with the unreadable deadline. *)
Lemma unparsed_deadline_leaves_notes_witness :
  get_reminder_notes_from_todo IsoBasic.fromisoformat todo_bad_deadline
  = get_reminder_notes_from_todo IsoBasic.fromisoformat (without_deadline todo_bad_deadline).
Proof.
  apply unparsed_deadline_leaves_notes. vm_compute. reflexivity.
Defined.

(** The mapper at a todo whose checklist is the flag. *)
Example flagged_checklist_raises :
  get_reminder_params_from_todo IsoBasic.fromisoformat todo_flagged_checklist None
  = Raise (Exn TypeError "object of type 'bool' has no len()").
Proof. vm_compute. reflexivity. Qed.

(** The mapper at a deadline on the first day. *)
Example first_day_overflows :
  get_reminder_params_from_todo IsoBasic.fromisoformat todo_first_day None
  = Raise (Exn OverflowError "date value out of range").
Proof. vm_compute. reflexivity. Qed.

(** * Further properties of the exporter: batches and tables *)

Lemma concat_chunks {A} (b : nat) (l : list A) (m : nat) :
  concat ((λ k, take b (drop (k * b) l)) <$> seq 0 m) = take (m * b) l.
Proof.
  induction m as [|m IH]; [done|].
  rewrite seq_S, fmap_app, concat_app, IH. cbn [fmap list_fmap concat].
  rewrite app_nil_r, take_take_drop. f_equal. lia.
Qed.

Lemma batch_count_covers (n : nat) :
  (n ≤ (n + batch_size - 1) / batch_size * batch_size)%nat ∧
  ∀ k, k < (n + batch_size - 1) / batch_size → k * batch_size < n.
Proof.
  unfold batch_size.
  pose proof (Nat.div_mod_eq (n + 300 - 1) 300) as Hdm.
  pose proof (Nat.mod_upper_bound (n + 300 - 1) 300 ltac:(lia)) as Hlt.
  split; [lia|]. intros k Hk. nia.
Qed.

(** X4: the batches of [export_todos] cut the list without losing,
    repeating or reordering a todo: put end to end they are the list.
    Every batch holds at least one and at most 300 todos, so the empty
    list has no batch and a list of [n] todos has [n/300] batches, rounded
    up. *)
Theorem batches_partition (todos : list todo) :
  concat (batches todos) = todos ∧
  Forall (λ batch, (0 < length batch ≤ 300)%nat) (batches todos) ∧
  length (batches todos) = (length todos + 299) / 300.
Proof.
  unfold batches, batch_starts, batch_at. rewrite <- list_fmap_compose.
  destruct (batch_count_covers (length todos)) as [Hcover Hstart].
  split; [|split].
  - rewrite (concat_chunks batch_size todos). by apply take_ge.
  - apply Forall_fmap, Forall_seq. intros k [_ Hk]. cbn.
    rewrite length_take, length_drop.
    assert (k * batch_size < length todos) as Hlt; [|unfold batch_size in *; lia].
    unfold batch_size in *. apply Hstart. lia.
  - rewrite length_fmap, length_seq. unfold batch_size. f_equal. lia.
Qed.



Lemma dict_get_keys (k : string) (d : list (string * string)) :
  is_Some (Dict.get k d) ↔ k ∈ Dict.keys d.
Proof.
  unfold Dict.keys. induction d as [|[k0 v0] d IH]; cbn.
  - split; [by intros [? ?]|by intros ?%elem_of_nil].
  - case_decide as Hk.
    + subst. split; [left|by eexists].
    + rewrite IH. split; [by right|]. by intros [?|?]%elem_of_cons.
Qed.

Section CalendarDictFacts.

Context `{Env}.



End CalendarDictFacts.

(** * Further properties of the exporter: the loop over a batch *)

Section LoopFacts.

Context `{Env}.

(** What one round of the loop does, once the listing is not empty and the
    mapper has returned. *)
Lemma export_todo_eq (default_calendar : calendar) (d : list (string * string))
    (calendar_assignments : gmap Z string) (tag_assignments : gmap Z (list string))
    (j : nat) (t : todo) (acc : list reminder) (s : state) (p0 : reminder_params) :
  d ≠ [] →
  get_reminder_params_from_todo fromisoformat t (Some (cal_id default_calendar)) = Ok p0 →
  export_todo default_calendar d calendar_assignments tag_assignments (j, t) acc s =
  let p := params_sent s default_calendar d calendar_assignments tag_assignments j t p0 in
  match create_reminder reminders p (world s) with
  | (Ok rem, w) => (Ok (acc ++ [rem]), traced (moved s w) [creating t; CalledCreate p])
  | (Raise e, w) =>
      if is_Exception (exn_cls e)
      then (Ok acc, traced (moved s w) [creating t; CalledCreate p; creation_error t e])
      else (Raise e, traced (moved s w) [creating t; CalledCreate p])
  end.
Proof.
  intros Hd Hp0. destruct d as [|[name id] rest]; [done|].
  unfold export_todo.
  cbn [Dict.keys fmap list_fmap fst item0].
  unfold mbind at 1 2 3, M_bind at 1 2 3, lift at 1 2, get_self.
  rewrite Hp0.
  unfold try_catch, mbind, M_bind, log, call. cbn [world trace].
  assert (∀ p p' : reminder_params, p = p' →
            create_reminder reminders p (world s) = create_reminder reminders p' (world s))
    as Hcongr by (by intros ? ? ->).
  set (p := params_sent s default_calendar ((name, id) :: rest) calendar_assignments
              tag_assignments j t p0).
  match goal with |- context [create_reminder reminders ?q (world s)] =>
    assert (q = p) as -> end.
  { match goal with |- context [match ?c with [] => p0 | _ :: _ => _ end] =>
      assert (c = context_info_of s t) as -> end.
    { unfold context_info_of, Py.append.
      destruct (Py.truthy (todo_project t)), (Py.truthy (todo_area t));
        repeat case_match; done. }
    unfold p, params_sent, with_calendar_id, with_tags, with_notes, calendar_id_of,
      tag_names_of, notes_with_context.
    cbn [Dict.keys fmap list_fmap fst head default Dict.get].
    destruct (context_info_of s t); [done|]. by destruct (p_notes p0). }
  destruct (create_reminder reminders p (world s)) as [[rem|e] w]; cbv zeta.
  - unfold traced, moved. cbn. by rewrite <- app_assoc.
  - destruct (is_Exception (exn_cls e)); unfold traced, moved; cbn;
      by rewrite <- ?app_assoc.
Qed.

Lemma errors_app (tr1 tr2 : list event) :
  errors (tr1 ++ tr2) = errors tr1 ++ errors tr2.
Proof. apply omap_app. Qed.

Lemma params_sent_maps (self s : state) (default_calendar : calendar)
    (d : list (string * string)) (calendar_assignments : gmap Z string)
    (tag_assignments : gmap Z (list string)) (j : nat) (t : todo) (p0 : reminder_params) :
  _project_map self = _project_map s →
  _area_map self = _area_map s →
  params_sent self default_calendar d calendar_assignments tag_assignments j t p0
  = params_sent s default_calendar d calendar_assignments tag_assignments j t p0.
Proof.
  intros Hp Ha. unfold params_sent, context_info_of. by rewrite Hp, Ha.
Qed.

Lemma traced_moved_traced (s : state) (w w' : World) (evs evs' : list event) :
  traced (moved (traced (moved s w) evs) w') evs' = traced (moved s w') (evs ++ evs').
Proof. unfold traced, moved. cbn. by rewrite app_assoc. Qed.

Lemma for_each_calls_of (default_calendar : calendar) (d : list (string * string))
    (calendar_assignments : gmap Z string) (tag_assignments : gmap Z (list string))
    (mapped : list (todo * reminder_params)) (f : nat → todo → nat * todo) (j : nat)
    (self : state) (acc : list reminder) (s : state)
    (calls : list create_call) (w' : World) :
  d ≠ [] →
  (∀ k t, f k t = (j + k, t)) →
  _project_map self = _project_map s →
  _area_map self = _area_map s →
  Forall (λ tp, get_reminder_params_from_todo fromisoformat tp.1
                  (Some (cal_id default_calendar)) = Ok tp.2) mapped →
  calls_of self default_calendar d calendar_assignments tag_assignments j mapped (world s)
  = (calls, w') →
  Forall (λ c, ∀ e, call_result c = Raise e → is_Exception (exn_cls e) = true) calls →
  for_each (imap f mapped.*1)
    (export_todo default_calendar d calendar_assignments tag_assignments) acc s
  = (Ok (acc ++ records_of calls), traced (moved s w') (concat (events_of <$> calls))) ∧
  call_todo <$> calls = mapped.*1.
Proof.
  intros Hd Hf Hpm Ham Hmap. revert f j Hf acc s calls Hpm Ham.
  induction Hmap as [|[t p0] mapped Hp0 _ IH]; intros f j Hf acc s calls Hpm Ham.
  - cbn. intros [= <- <-] _. rewrite app_nil_r. split; [|done].
    unfold traced, moved. cbn. rewrite app_nil_r. by destruct s.
  - cbn [calls_of fmap list_fmap fst imap for_each]. cbn [fst snd] in Hp0.
    rewrite (params_sent_maps self s) by done.
    unfold mbind, M_bind. rewrite Hf, Nat.add_0_r.
    rewrite (export_todo_eq _ _ _ _ _ _ _ _ p0 Hd Hp0). cbv zeta.
    set (p := params_sent s default_calendar d calendar_assignments tag_assignments
                j t p0).
    destruct (create_reminder reminders p (world s)) as [r w1].
    destruct (calls_of self default_calendar d calendar_assignments tag_assignments
                (S j) mapped w1) as [rest w2] eqn:Hrest.
    intros [= <- <-] [Hexc Hrestexc]%Forall_cons.
    assert (∀ k x, (f ∘ S) k x = (S j + k, x)) as Hf'.
    { intros k x. unfold compose. rewrite Hf. f_equal. lia. }
    destruct r as [rem|e]; cbn [call_result] in Hexc.
    + destruct (IH (f ∘ S) (S j) Hf' (acc ++ [rem])
                  (traced (moved s w1) [creating t; CalledCreate p]) rest
                  Hpm Ham Hrest Hrestexc) as [-> Htodos].
      rewrite traced_moved_traced, <- app_assoc. split; [done|].
      cbn. by rewrite Htodos.
    + rewrite (Hexc e eq_refl).
      destruct (IH (f ∘ S) (S j) Hf' acc
                  (traced (moved s w1) [creating t; CalledCreate p; creation_error t e])
                  rest Hpm Ham Hrest Hrestexc) as [-> Htodos].
      rewrite traced_moved_traced. split; [done|].
      cbn. by rewrite Htodos.
Qed.

(** X6: the loop over a batch isolates the failures of [create_reminder].
    With a non-empty calendar listing and a mapper that returns for each
    todo of the batch, the loop calls [create_reminder] once for every
    todo, in the order of the batch, each call in the world the call
    before it left.  When none of these calls raises outside [Exception]
    the loop returns the list it was given followed by the records of the
    calls that returned, in order; it leaves the world as the last call
    left it, the tables and the cached calendar untouched; and around
    each call it logs the line before it and, when the call raised, one
    error that names the todo and carries the exception's message. *)
Theorem export_batch_todos_isolates_failures (default_calendar : calendar)
    (d : list (string * string))
    (calendar_assignments : gmap Z string) (tag_assignments : gmap Z (list string))
    (mapped : list (todo * reminder_params)) (acc : list reminder) (s : state)
    (calls : list create_call) (w' : World) :
  d ≠ [] →
  Forall (λ tp, get_reminder_params_from_todo fromisoformat tp.1
                  (Some (cal_id default_calendar)) = Ok tp.2) mapped →
  calls_of s default_calendar d calendar_assignments tag_assignments 0 mapped (world s)
  = (calls, w') →
  Forall (λ c, ∀ e, call_result c = Raise e → is_Exception (exn_cls e) = true) calls →
  export_batch_todos default_calendar d calendar_assignments tag_assignments
    mapped.*1 acc s
  = (Ok (acc ++ records_of calls),
     State w' (_area_map s) (_project_map s) (_tag_map s) (_default_calendar s)
       (trace s ++ concat (events_of <$> calls))) ∧
  call_todo <$> calls = mapped.*1.
Proof.
  intros Hd Hmap Hcalls Hexc. unfold export_batch_todos, enumerate.
  by apply (for_each_calls_of default_calendar d calendar_assignments tag_assignments
              mapped _ 0 s).
Qed.

Lemma assign_all_resolves (d : list (string * string)) (lines : list string)
    (i : Z) (n : string) :
  assign_all d lines ∅ !! i = Some n → is_Some (Dict.get n d).
Proof.
  intros [Hempty|(line & _ & Hline)]%assign_all_lookup.
  - by rewrite lookup_empty in Hempty.
  - apply outcome_assigned in Hline as (pre & post & _ & _ & _ & _ & Hkey).
    by apply dict_get_keys.
Qed.

(** X7: a todo whose index the classifier's reply assigns is sent to
    [create_reminder] with the id that [calendar_dict] holds under the
    assigned name.  The name always has an entry, so the id of the default
    calendar is not used for it. *)
Theorem export_todo_assigned_calendar (default_calendar : calendar)
    (d : list (string * string)) (reply : completed_process) (s0 s1 : state)
    (calendar_assignments : gmap Z string) (tag_assignments : gmap Z (list string))
    (j : nat) (name : string) (t : todo) (acc : list reminder) (s : state)
    (p0 : reminder_params) :
  parse_calendar_assignments d reply s0 = (Ok calendar_assignments, s1) →
  calendar_assignments !! Z.of_nat j = Some name →
  get_reminder_params_from_todo fromisoformat t (Some (cal_id default_calendar)) = Ok p0 →
  ∃ id p r s',
    Dict.get name d = Some id ∧
    export_todo default_calendar d calendar_assignments tag_assignments (j, t) acc s
    = (r, s') ∧
    created (trace s') = created (trace s) ++ [p] ∧
    p_calendar_id p = Some id.
Proof.
  unfold parse_calendar_assignments. rewrite for_each_parse_calendar_line.
  intros [= <- _] Hname Hp0.
  destruct (assign_all_resolves _ _ _ _ Hname) as [id Hid].
  assert (d ≠ []) as Hd by (by intros ->).
  exists id, (params_sent s default_calendar d
                (assign_all d (Py.split (ascii_of_nat 10) (str_strip (stdout reply))) ∅)
                tag_assignments j t p0).
  rewrite (export_todo_eq _ _ _ _ _ _ _ _ p0 Hd Hp0). cbv zeta.
  destruct (create_reminder reminders _ (world s)) as [[rem|e] w];
    [|destruct (is_Exception (exn_cls e))];
    (eexists _, _; split; [exact Hid|]; split; [reflexivity|];
     split; [cbn [trace traced moved]; rewrite created_app; by cbn|];
     unfold params_sent, calendar_id_of; cbn [p_calendar_id];
     rewrite Hname; simpl; by rewrite Hid).
Qed.

(** X8: what the loop sends besides the calendar.  The tags it sends are
    not the todo's own tag identifiers, which the mapper had put into the
    parameters: they are the classifier's tag list for the todo's index
    when the todo has tags and the list exists, and empty otherwise.  The
    notes are the mapper's notes, followed after a blank line by a
    [Project:] and an [Area:] line for the project and the area of the
    todo that the exporter's tables know. *)
Theorem export_todo_sends (default_calendar : calendar) (d : list (string * string))
    (calendar_assignments : gmap Z string) (tag_assignments : gmap Z (list string))
    (j : nat) (t : todo) (acc : list reminder) (s : state) (p0 : reminder_params) :
  d ≠ [] →
  get_reminder_params_from_todo fromisoformat t (Some (cal_id default_calendar)) = Ok p0 →
  ∃ p r s',
    export_todo default_calendar d calendar_assignments tag_assignments (j, t) acc s
    = (r, s') ∧
    created (trace s') = created (trace s) ++ [p] ∧
    p_tags p = (if bool_decide (default [] (todo_tags t) = [])
                then [] else default [] (tag_assignments !! Z.of_nat j)) ∧
    p_notes p = notes_with_context (p_notes p0) (context_info_of s t) ∧
    p_title p = p_title p0 ∧ p_due_date p = p_due_date p0 ∧
    p_priority p = p_priority p0.
Proof.
  intros Hd Hp0.
  exists (params_sent s default_calendar d calendar_assignments tag_assignments j t p0).
  rewrite (export_todo_eq _ _ _ _ _ _ _ _ p0 Hd Hp0). cbv zeta.
  destruct (create_reminder reminders _ (world s)) as [[rem|e] w];
    [|destruct (is_Exception (exn_cls e))];
    (eexists _, _; split; [reflexivity|];
     split; [cbn [trace traced moved]; rewrite created_app; by cbn|];
     split; [|done];
     unfold params_sent, tag_names_of; cbn [p_tags];
     by destruct (todo_tags t) as [[|]|]).
Qed.

Lemma for_each_first_raises {A S} (x : A) (l : list A) (body : A → S → M S)
    (acc : S) (s s' : state) (e : exn) :
  body x acc s = (Raise e, s') → for_each (x :: l) body acc s = (Raise e, s').
Proof. intros Hx. cbn [for_each]. unfold mbind, M_bind. by rewrite Hx. Qed.

(** X9: what the loop does not catch.  With an empty calendar listing
    the first todo of a batch raises [IndexError] before anything is
    logged or created; a todo for which the mapper raises stops the loop
    in the same way with the mapper's exception; and an exception of
    [create_reminder] that is no [Exception] leaves the loop. *)
Theorem export_batch_todos_aborts (default_calendar : calendar)
    (d : list (string * string))
    (calendar_assignments : gmap Z string) (tag_assignments : gmap Z (list string))
    (t : todo) (batch : list todo) (acc : list reminder) (s : state) :
  (d = [] →
   export_batch_todos default_calendar d calendar_assignments tag_assignments
     (t :: batch) acc s
   = (Raise (Exn IndexError "list index out of range"), s)) ∧
  (∀ e, d ≠ [] →
     get_reminder_params_from_todo fromisoformat t (Some (cal_id default_calendar))
     = Raise e →
     export_batch_todos default_calendar d calendar_assignments tag_assignments
       (t :: batch) acc s
     = (Raise e, s)) ∧
  (∀ p0 e w, d ≠ [] →
     get_reminder_params_from_todo fromisoformat t (Some (cal_id default_calendar))
     = Ok p0 →
     create_reminder reminders
       (params_sent s default_calendar d calendar_assignments tag_assignments 0 t p0)
       (world s) = (Raise e, w) →
     is_Exception (exn_cls e) = false →
     fst (export_batch_todos default_calendar d calendar_assignments tag_assignments
            (t :: batch) acc s)
     = Raise e).
Proof.
  unfold export_batch_todos, enumerate. cbn [imap]. split; [|split].
  - intros ->. by apply for_each_first_raises.
  - intros e Hd He. apply for_each_first_raises.
    destruct d as [|[name id] rest]; [done|].
    unfold export_todo. cbn [Dict.keys fmap list_fmap fst item0].
    unfold mbind at 1 2 3, M_bind at 1 2 3, lift at 1 2, get_self.
    by rewrite He.
  - intros p0 e w Hd Hp0 Hcreate Hbase.
    erewrite for_each_first_raises; [done|].
    rewrite (export_todo_eq _ _ _ _ _ _ _ _ p0 Hd Hp0). cbv zeta.
    by rewrite Hcreate, Hbase.
Qed.

End LoopFacts.

(** * Further properties of the exporter: tables, the default calendar,
      the reply, the entry points *)

Lemma store_all_lookup {A V} (key : A → option string) (val : A → V) (l : list A)
    (m : gmap (option string) V) (k : option string) :
  store_all key val l m !! k
  = match last (filter (λ x, key x = k) l) with
    | Some x => Some (val x)
    | None => m !! k
    end.
Proof.
  induction l as [|x l IH] using rev_ind; [done|].
  rewrite store_all_snoc, filter_app, filter_cons, filter_nil.
  destruct (decide (key x = k)) as [<-|Hne].
  - by rewrite lookup_insert_eq, last_snoc.
  - by rewrite lookup_insert_ne, app_nil_r.
Qed.

Section TableFacts.

Context `{Env}.

Lemma assign_all_app (d : list (string * string)) (l1 l2 : list string)
    (m : gmap Z string) :
  assign_all d (l1 ++ l2) m = assign_all d l2 (assign_all d l1 m).
Proof. unfold assign_all. by rewrite foldl_app. Qed.

Lemma assign_all_cons (d : list (string * string)) (line : string)
    (lines : list string) (m : gmap Z string) :
  assign_all d (line :: lines) m
  = assign_all d lines (match outcome_of d line with
                        | Assigned i n => <[i := n]> m
                        | _ => m
                        end).
Proof. reflexivity. Qed.

Lemma assign_all_untouched (d : list (string * string)) (lines : list string)
    (m : gmap Z string) (i : Z) :
  (∀ line n, line ∈ lines → outcome_of d line ≠ Assigned i n) →
  assign_all d lines m !! i = m !! i.
Proof.
  revert m. induction lines as [|line lines IH]; intros m Hnot; [done|].
  rewrite assign_all_cons.
  rewrite IH by (intros l n Hl; apply Hnot; by right).
  destruct (outcome_of d line) as [i' n'| |] eqn:Hline; try done.
  destruct (decide (i' = i)) as [->|Hne]; [|by rewrite lookup_insert_ne].
  exfalso. apply (Hnot line n'); [by left|done].
Qed.

(** X10: after [process_tags] the table of the exporter answers, for
    every identifier, with the title of the last fetched tag that has this
    identifier, [Unnamed Tag] standing in for a missing title; an
    identifier that no fetched tag has keeps the entry it had.  The table
    is what the call returns. *)
Theorem process_tags_lookup (s : state) (tags : list tag) (w : World) :
  get_tags things (world s) = (Ok tags, w) →
  ∃ m s',
    process_tags s = (Ok m, s') ∧ _tag_map s' = m ∧
    ∀ k, m !! k =
         match last (filter (λ tg, tag_uuid tg = k) tags) with
         | Some tg => Some (default "Unnamed Tag" (tag_title tg))
         | None => _tag_map s !! k
         end.
Proof.
  intros Hget. rewrite process_tags_eq, Hget. cbv zeta.
  eexists _, _. split; [reflexivity|]. split; [reflexivity|].
  intros k. apply store_all_lookup.
Qed.

(** X11: the default calendar is asked for once.  After a call of
    [_get_default_calendar] that returned, every further call returns the
    same calendar and leaves the exporter, the world and the trace as they
    are. *)
Theorem get_default_calendar_cached (s s1 : state) (c : calendar) :
  _get_default_calendar s = (Ok c, s1) →
  _get_default_calendar s1 = (Ok c, s1) ∧ _default_calendar s1 = Some c.
Proof.
  unfold _get_default_calendar, mbind, M_bind, get_self.
  destruct (_default_calendar s) as [c0|] eqn:Hc0.
  - intros [= <- <-]. by rewrite Hc0.
  - unfold call. destruct (get_default_calendar reminders (world s)) as [[c1|e] w]; [|done].
    intros [= <- <-]. by cbn.
Qed.

(** X12: when several lines of the reply assign the same index, the last
    of them decides. *)
Theorem parse_last_line_wins (d : list (string * string)) (reply : completed_process)
    (s : state) (lines rest : list string) (line : string) (i : Z) (n : string) :
  reply_lines reply = lines ++ line :: rest →
  assigns d line i n →
  (∀ later n', later ∈ rest → ¬ assigns d later i n') →
  ∃ m s', parse_calendar_assignments d reply s = (Ok m, s') ∧ m !! i = Some n.
Proof.
  intros Hlines Hline Hrest. unfold parse_calendar_assignments.
  rewrite for_each_parse_calendar_line. eexists _, _. split; [reflexivity|].
  fold (reply_lines reply). rewrite Hlines.
  rewrite assign_all_app. change (line :: rest) with ([line] ++ rest).
  rewrite assign_all_app, assign_all_untouched.
  - unfold assign_all at 1. cbn [foldl].
    apply outcome_assigned in Hline as ->. by rewrite lookup_insert_eq.
  - intros later n' Hin Hout%outcome_assigned. by apply (Hrest later n').
Qed.

Lemma export_todos_some_returns_nothing (todos : list todo) (s s' : state)
    (r : list reminder) :
  export_todos (Some todos) s = (Ok r, s') →
  r = [] ∧ created (trace s') = created (trace s).
Proof.
  destruct todos as [|t todos].
  - unfold export_todos, mbind at 1 2 3 4, M_bind at 1 2 3 4.
    cbn [mret M_ret].
    change (log INFO ("Exporting " +:+ Py.str_nat (length (@nil todo))
                      +:+ " todos to Reminders") s)
      with (Ok tt, traced s [Logged INFO ("Exporting " +:+ Py.str_nat (length (@nil todo))
                                          +:+ " todos to Reminders")]).
    cbv beta iota.
    destruct (get_default_calendar_run
                (traced s [Logged INFO ("Exporting " +:+ Py.str_nat (length (@nil todo))
                                        +:+ " todos to Reminders")]))
      as ([c|e] & s1 & -> & C1); [|done].
    unfold call. destruct (list_calendars reminders (world s1)) as [[cs|e] w2]; [|done].
    cbn. intros [= <- <-]. split; [done|]. cbn.
    rewrite created_app, C1. cbn. rewrite created_app. cbn. by rewrite !app_nil_r.
  - intros Hrun.
    destruct (export_todos_never_returns (t :: todos) s) as (e & s2 & Hraise & _); [done|].
    congruence.
Qed.

Lemma export_todos_quiet (todos_list : option (list todo)) (s s' : state)
    (r : list reminder) :
  export_todos todos_list s = (Ok r, s') →
  r = [] ∧ created (trace s') = created (trace s).
Proof.
  destruct todos_list as [todos|]; [apply export_todos_some_returns_nothing|].
  unfold export_todos. unfold mbind at 1, M_bind at 1, call at 1.
  destruct (get_todos things (world s)) as [[todos|e] w]; [|done].
  intros Hrun.
  apply (export_todos_some_returns_nothing todos
           (State w (_area_map s) (_project_map s) (_tag_map s) (_default_calendar s)
              (trace s ++ [Queried GetTodos]))) in Hrun as [-> Hc].
  split; [done|]. rewrite Hc. cbn. rewrite created_app. cbn. by rewrite app_nil_r.
Qed.

(** X13: [export_todos] never returns a reminder.  Whenever it returns,
    with a list of todos given or fetched from Things and whatever the
    collaborators do, what it returns is the empty list, it has called
    [create_reminder] for nothing, and a list that was given was empty. *)
Theorem export_todos_returns_nothing (todos_list : option (list todo)) (s s' : state)
    (r : list reminder) :
  export_todos todos_list s = (Ok r, s') →
  r = [] ∧ created (trace s') = created (trace s) ∧
  (∀ todos, todos_list = Some todos → todos = []).
Proof.
  intros Hrun. destruct (export_todos_quiet _ _ _ _ Hrun) as [-> Hc].
  repeat split; [exact Hc|].
  intros [|t todos] ->; [done|].
  destruct (export_todos_never_returns (t :: todos) s) as (e & s2 & Hraise & _); [done|].
  congruence.
Qed.

End TableFacts.

(** * Further properties of the selection *)

Lemma queried_app (tr1 tr2 : list event) :
  queried (tr1 ++ tr2) = queried tr1 ++ queried tr2.
Proof. apply omap_app. Qed.

Section MoreSelectionFacts.

Context `{Env}.

Lemma add_todo_uuids_mono (t : todo) (sel : selection) :
  todo_uuids sel ⊆ todo_uuids (add_todo t sel).
Proof.
  unfold add_todo. destruct (todo_uuid t) as [[|c u]|]; [done| |done].
  case_decide; cbn; set_solver.
Qed.

Lemma add_todos_uuids_mono (l : list todo) (sel : selection) :
  todo_uuids sel ⊆ todo_uuids (add_todos l sel).
Proof.
  revert sel. unfold add_todos. induction l as [|t l IH]; intros sel; [done|].
  cbn. etrans; [apply (add_todo_uuids_mono t)|apply IH].
Qed.

Lemma add_todos_covers (l : list todo) (sel : selection) (t : todo) (u : string) :
  t ∈ l → todo_uuid t = Some u → u ≠ "" → u ∈ todo_uuids (add_todos l sel).
Proof.
  revert sel. unfold add_todos. induction l as [|t0 l IH]; intros sel Hin Hu Hne.
  - by apply elem_of_nil in Hin.
  - cbn. apply elem_of_cons in Hin as [<-|Hin]; [|by apply IH].
    apply (add_todos_uuids_mono l). unfold add_todo. rewrite Hu.
    destruct u as [|c u]; [done|]. case_decide as Hnew; cbn; [set_solver|done].
Qed.

Lemma add_todos_known (l : list todo) (sel : selection) :
  (∀ t u, t ∈ l → todo_uuid t = Some u → u ≠ "" → u ∈ todo_uuids sel) →
  add_todos l sel = sel.
Proof.
  unfold add_todos. induction l as [|t l IH]; intros Hknown; [done|].
  cbn. assert (add_todo t sel = sel) as ->.
  { unfold add_todo. destruct (todo_uuid t) as [[|c u]|] eqn:Hu; [done| |done].
    rewrite decide_False; [done|]. intros Hnot. apply Hnot.
    apply (Hknown t); [by left|done|done]. }
  apply IH. intros t' u Hin. apply Hknown. by right.
Qed.

(** X14: adding the same todos a second time changes nothing: a view that
    is asked twice, or two views that return the same todos, contribute
    once. *)
Theorem add_todos_twice (l : list todo) (sel : selection) :
  add_todos l (add_todos l sel) = add_todos l sel.
Proof.
  apply add_todos_known. intros t u Hin Hu Hne. by eapply add_todos_covers.
Qed.

Lemma add_todo_extends (t : todo) (sel : selection) :
  todos_to_export (add_todo t sel) = todos_to_export sel ∨
  (todos_to_export (add_todo t sel) = todos_to_export sel ++ [t] ∧
   Py.truthy (todo_uuid t) = true).
Proof.
  unfold add_todo. destruct (todo_uuid t) as [[|c u]|]; [by left| |by left].
  case_decide; [by right|by left].
Qed.

(** X15: [add_todos] only appends.  The todos queued before stay where
    they are; what is added after them are todos of the list, in the order
    of the list, each with a non-empty identifier: a todo without an
    identifier is never queued. *)
Theorem add_todos_extends (l : list todo) (sel : selection) :
  ∃ new,
    todos_to_export (add_todos l sel) = todos_to_export sel ++ new ∧
    new `sublist_of` l ∧
    Forall (λ t, Py.truthy (todo_uuid t) = true) new.
Proof.
  revert sel. unfold add_todos. induction l as [|t l IH]; intros sel.
  - exists []. by rewrite app_nil_r.
  - cbn. destruct (IH (add_todo t sel)) as (new & -> & Hsub & Hall).
    destruct (add_todo_extends t sel) as [->|[-> Ht]].
    + exists new. split; [done|]. split; [by apply sublist_cons|done].
    + exists (t :: new). rewrite <- app_assoc. split; [done|].
      split; [by apply sublist_skip|by constructor].
Qed.

Lemma add_view_inv (flag : bool) (msg : string) (q : query)
    (view : external World (list todo)) (sel sel' : selection) (s s' : state) :
  add_view flag msg q view sel s = (Ok sel', s') →
  _tag_map s' = _tag_map s ∧
  queried (trace s') = queried (trace s) ++ (if flag then [q] else []) ∧
  created (trace s') = created (trace s) ∧
  (flag = false → sel' = sel).
Proof.
  unfold add_view. destruct flag.
  - unfold mbind, M_bind, log, call. cbn [world].
    destruct (view (world s)) as [[l|e] w]; [|done]. intros [= <- <-].
    cbn [trace _tag_map].
    rewrite !queried_app, !created_app. cbn.
    by rewrite !app_nil_r.
  - intros [= <- <-]. by rewrite app_nil_r.
Qed.

Lemma log_inv (lvl : level) (msg : string) (s s' : state) (u : unit) :
  log lvl msg s = (Ok u, s') →
  _tag_map s' = _tag_map s ∧ queried (trace s') = queried (trace s) ∧
  created (trace s') = created (trace s).
Proof.
  unfold log. intros ?; simplify_eq. cbn [trace _tag_map].
  rewrite queried_app, created_app. cbn. by rewrite !app_nil_r.
Qed.

(** The run of [collect_todos], step by step. *)
Lemma collect_todos_inv (o : options) (s s' : state) (l : list todo) :
  collect_todos o s = (Ok l, s') →
  ∃ sel6 sel7 sel9,
    l = todos_to_export sel9 ∧
    _tag_map s' = _tag_map s ∧
    queried (trace s') = queried (trace s) ++ queries_of o ∧
    created (trace s') = created (trace s) ∧
    todos_to_export sel7
    = (if Py.truthy (filter_tag o)
       then filter (λ t, default "" (filter_tag o) ∈ resolved_tag_names (_tag_map s) t)
              (todos_to_export sel6)
       else todos_to_export sel6) ∧
    (include_completed o = false → include_canceled o = false → sel9 = sel7).
Proof.
  unfold collect_todos. intros Hrun.
  apply bind_Ok in Hrun as (sel1 & s1 & (T1 & Q1 & C1 & _)%add_view_inv & Hrun).
  apply bind_Ok in Hrun as (sel2 & s2 & (T2 & Q2 & C2 & _)%add_view_inv & Hrun).
  apply bind_Ok in Hrun as (sel3 & s3 & (T3 & Q3 & C3 & _)%add_view_inv & Hrun).
  apply bind_Ok in Hrun as (sel4 & s4 & (T4 & Q4 & C4 & _)%add_view_inv & Hrun).
  apply bind_Ok in Hrun as (sel5 & s5 & (T5 & Q5 & C5 & _)%add_view_inv & Hrun).
  apply bind_Ok in Hrun as (sel6 & s6 & (T6 & Q6 & C6 & _)%add_view_inv & Hrun).
  apply bind_Ok in Hrun as (sel7 & s7 & Hfilter & Hrun).
  assert (_tag_map s7 = _tag_map s6 ∧ queried (trace s7) = queried (trace s6) ∧
          created (trace s7) = created (trace s6) ∧
          todos_to_export sel7
          = (if Py.truthy (filter_tag o)
             then filter (λ t, default "" (filter_tag o)
                               ∈ resolved_tag_names (_tag_map s6) t)
                    (todos_to_export sel6)
             else todos_to_export sel6)) as (T7 & Q7 & C7 & L7).
  { destruct (filter_tag o) as [[|c tg]|]; try (by injection Hfilter as <- <-).
    apply bind_Ok in Hfilter as (? & s6' & (T & Q & C)%log_inv & Hfilter).
    apply bind_Ok in Hfilter as (self & ? & [= <- <-] & [= <- <-]).
    by rewrite T. }
  apply bind_Ok in Hrun as (sel8 & s8 & Hcompleted & Hrun).
  assert (_tag_map s8 = _tag_map s7 ∧
          queried (trace s8)
          = queried (trace s7) ++
            (if include_completed o
             then [GetCompleted (if Py.truthy (completed_last o)
                                 then completed_last o else None)]
             else []) ∧
          created (trace s8) = created (trace s7) ∧
          (include_completed o = false → sel8 = sel7)) as (T8 & Q8 & C8 & L8).
  { destruct (include_completed o).
    - destruct (Py.truthy (completed_last o));
        apply add_view_inv in Hcompleted as (? & ? & ? & _); done.
    - injection Hcompleted as <- <-. by rewrite app_nil_r. }
  apply bind_Ok in Hrun as (sel9 & s9 & (T9 & Q9 & C9 & L9)%add_view_inv & Hrun).
  injection Hrun as <- <-.
  exists sel6, sel7, sel9. split; [done|].
  split; [congruence|]. split.
  { rewrite Q9, Q8, Q7, Q6, Q5, Q4, Q3, Q2, Q1. unfold queries_of.
    rewrite negb_if. by rewrite <- !app_assoc. }
  split; [congruence|]. split.
  { rewrite L7. by rewrite T6, T5, T4, T3, T2, T1. }
  intros Hc Hx. rewrite L9, L8; done.
Qed.

(** X16: [export_with_options] asks the source for exactly the views its
    options name, once each and in a fixed order, and for the list of all
    active todos exactly when none of the five view options is set; the
    completed and canceled todos are asked for last. *)
Theorem collect_todos_queries (o : options) (s s' : state) (l : list todo) :
  collect_todos o s = (Ok l, s') →
  queried (trace s') = queried (trace s) ++ queries_of o.
Proof. by intros (? & ? & ? & _ & _ & ? & _)%collect_todos_inv. Qed.

(** X17: with a tag filter and without the completed and canceled
    additions, every collected todo carries the tag: one of its tag
    identifiers is in the exporter's tag table under the name asked
    for. *)
Theorem collect_todos_tag_filter (o : options) (s s' : state) (l : list todo)
    (c : ascii) (name : string) :
  collect_todos o s = (Ok l, s') →
  filter_tag o = Some (String c name) →
  include_completed o = false →
  include_canceled o = false →
  ∀ t, t ∈ l →
       ∃ tag_uuid, tag_uuid ∈ default [] (todo_tags t) ∧
                   _tag_map s !! Some tag_uuid = Some (String c name).
Proof.
  intros (sel6 & sel7 & sel9 & -> & _ & _ & _ & L7 & L9)%collect_todos_inv Htag Hc Hx.
  rewrite (L9 Hc Hx), L7, Htag. cbn [Py.truthy default from_option].
  intros t [Ht _]%list_elem_of_filter. cbn in Ht.
  unfold resolved_tag_names in Ht. apply list_elem_of_omap in Ht as (u & Hu & Hlook).
  by exists u.
Qed.

End MoreSelectionFacts.

(** * Further properties of the entry points *)

Section EntryFacts.

Context `{Env}.

Lemma process_areas_quiet (s s' : state) (r : result (gmap (option string) area)) :
  process_areas s = (r, s') → created (trace s') = created (trace s).
Proof.
  rewrite process_areas_eq.
  destruct (get_areas things (world s)) as [[l|e] w]; cbv zeta;
    intros [= <- <-]; cbn [trace]; rewrite created_app; cbn; by rewrite app_nil_r.
Qed.

Lemma process_projects_quiet (s s' : state) (r : result (gmap (option string) project)) :
  process_projects s = (r, s') → created (trace s') = created (trace s).
Proof.
  rewrite process_projects_eq.
  destruct (get_projects things (world s)) as [[l|e] w]; cbv zeta;
    intros [= <- <-]; cbn [trace]; rewrite created_app; cbn; by rewrite app_nil_r.
Qed.

Lemma process_tags_quiet (s s' : state) (r : result (gmap (option string) string)) :
  process_tags s = (r, s') → created (trace s') = created (trace s).
Proof.
  rewrite process_tags_eq.
  destruct (get_tags things (world s)) as [[l|e] w]; cbv zeta;
    intros [= <- <-]; cbn [trace]; rewrite created_app; cbn; by rewrite app_nil_r.
Qed.

Lemma metadata_quiet {A} (k : gmap (option string) area → gmap (option string) project →
                              gmap (option string) string → M A)
    (s s' : state) (r : A) :
  (areas ← process_areas; projects ← process_projects; tags ← process_tags;
   k areas projects tags) s = (Ok r, s') →
  ∃ areas projects tags s3,
    created (trace s3) = created (trace s) ∧ k areas projects tags s3 = (Ok r, s').
Proof.
  intros Hrun.
  apply bind_Ok in Hrun as (areas & s1 & C1%process_areas_quiet & Hrun).
  apply bind_Ok in Hrun as (projects & s2 & C2%process_projects_quiet & Hrun).
  apply bind_Ok in Hrun as (tags & s3 & C3%process_tags_quiet & Hrun).
  exists areas, projects, tags, s3. split; [congruence|done].
Qed.

Lemma export_all_quiet (s s' : state) (counts : nat * nat * nat * nat) :
  export_all s = (Ok counts, s') →
  counts.2 = 0 ∧ created (trace s') = created (trace s).
Proof.
  intros Hrun.
  apply metadata_quiet in Hrun as (areas & projects & tags & s3 & C3 & Hrun).
  apply bind_Ok in Hrun as (r & s4 & [-> C4]%export_todos_quiet & [= <- <-]).
  split; [done|congruence].
Qed.

Lemma export_with_options_quiet (o : options) (s s' : state)
    (counts : nat * nat * nat * nat) :
  export_with_options o s = (Ok counts, s') →
  counts.2 = 0 ∧ created (trace s') = created (trace s).
Proof.
  intros Hrun.
  apply metadata_quiet in Hrun as (areas & projects & tags & s3 & C3 & Hrun).
  apply bind_Ok in Hrun as (l & s4 & (? & ? & ? & _ & _ & _ & C4 & _)%collect_todos_inv
                            & Hrun).
  apply bind_Ok in Hrun as (? & s5 & (_ & _ & C5)%log_inv & Hrun).
  apply bind_Ok in Hrun as (r & s6 & [-> C6]%export_todos_quiet & [= <- <-]).
  split; [done|congruence].
Qed.

Lemma export_all_tasks_quiet (s s' : state) (counts : nat * nat * nat * nat) :
  export_all_tasks s = (Ok counts, s') →
  counts.2 = 0 ∧ created (trace s') = created (trace s).
Proof.
  intros Hrun.
  apply metadata_quiet in Hrun as (areas & projects & tags & s3 & C3 & Hrun).
  apply bind_Ok in Hrun as (? & s4 & (_ & _ & C4)%log_inv & Hrun).
  apply bind_Ok in Hrun as (l & s5 & Hcall & Hrun).
  assert (created (trace s5) = created (trace s4)) as C5.
  { unfold call in Hcall. destruct (get_all_tasks things (world s4)) as [[l'|e] w];
      [|done]. injection Hcall as <- <-. cbn [trace]. rewrite created_app. cbn.
    by rewrite app_nil_r. }
  apply bind_Ok in Hrun as (? & s6 & (_ & _ & C6)%log_inv & Hrun).
  apply bind_Ok in Hrun as (r & s7 & [-> C7]%export_todos_quiet & [= <- <-]).
  split; [done|congruence].
Qed.

(** X18: a run that reports success has exported nothing.  Whenever
    [export_all], [export_with_options] or [export_all_tasks] returns its
    four counts, the count of exported todos is 0 and [create_reminder]
    has not been called. *)
Theorem exports_report_no_todo (o : options) (s s' : state)
    (counts : nat * nat * nat * nat) :
  export_all s = (Ok counts, s') ∨
  export_with_options o s = (Ok counts, s') ∨
  export_all_tasks s = (Ok counts, s') →
  counts.2 = 0 ∧ created (trace s') = created (trace s).
Proof.
  intros [Hrun|[Hrun|Hrun]].
  - by apply export_all_quiet.
  - by apply (export_with_options_quiet o).
  - by apply export_all_tasks_quiet.
Qed.

End EntryFacts.

(** * Properties of the Reminders client *)

Lemma kit_calls_app (l1 l2 : list kit_event) :
  kit_calls (l1 ++ l2) = kit_calls l1 ++ kit_calls l2.
Proof. apply omap_app. Qed.

Lemma kit_created_app (l1 l2 : list kit_event) :
  kit_created (l1 ++ l2) = kit_created l1 ++ kit_created l2.
Proof. apply omap_app. Qed.

Lemma kit_updates_app (l1 l2 : list kit_event) :
  kit_updates (l1 ++ l2) = kit_updates l1 ++ kit_updates l2.
Proof. apply omap_app. Qed.

Lemma kit_warnings_app (l1 l2 : list kit_event) :
  kit_warnings (l1 ++ l2) = kit_warnings l1 ++ kit_warnings l2.
Proof. apply omap_app. Qed.

(** One step of the client's monad: binds, calls and log lines are run
    as far as the kit's answers are known. *)
Ltac kstep :=
  cbv beta iota zeta delta
    [mbind K_bind ktry kit klog mret K_ret kraise store kit_trace].

Lemma K_bind_inv {Store A B} (m : K Store A) (f : A → K Store B)
    (k k' : client Store) (r : result B) :
  (m ≫= f) k = (r, k') →
  (∃ a k1, m k = (Ok a, k1) ∧ f a k1 = (r, k')) ∨
  (∃ e, m k = (Raise e, k') ∧ r = Raise e).
Proof.
  unfold mbind, K_bind. destruct (m k) as [[a|e] k1].
  - intros Hf. left. by exists a, k1.
  - intros [= <- <-]. right. by exists e.
Qed.

Section ClientFacts.

Context {Store rem : Type}.
Variable remind : RemindKit Store rem.
Variable str_datetime : datetime → string.


(** Every run of [get_default_calendar], by the calls it made. *)
Lemma get_default_calendar_inv (k k' : client Store) (r : result calendar) :
  Reminders.get_default_calendar remind k = (r, k') →
  ∃ evs, kit_trace k' = kit_trace k ++ evs ∧
    kit_created evs = [] ∧ kit_updates evs = [] ∧
    ((kit_calls evs = [KitGetDefault] ∧
      calendars_get_default remind (store k) = (r, store k') ∧
      ∀ e, r = Raise e → exn_cls e ≠ ValueError) ∨
     (kit_calls evs = [KitGetDefault; KitGetCalendars] ∧
      ((∃ c, r = Ok c) ∨ ∃ e, r = Raise e ∧ is_Exception (exn_cls e) = false)) ∨
     (kit_calls evs = fallback_calls ∧
      ((∃ c, r = Ok c) ∨ r = Raise (Exn ValueError Reminders.no_calendar) ∨
       ∃ e, r = Raise e ∧ is_Exception (exn_cls e) = false))).
Proof.
  destruct k as [w0 tr0]. unfold Reminders.get_default_calendar, catches. kstep.
  destruct (calendars_get_default remind w0) as [[c|e] w1] eqn:Hdefault; kstep.
  { intros [= <- <-]. exists [KitGetDefault]. cbn. repeat split; left; done. }
  case_bool_decide as Hcls; kstep.
  2:{ intros [= <- <-]. exists [KitGetDefault]. cbn. repeat split. left.
      repeat split. intros e' [= <-] Hv. apply Hcls. rewrite Hv. by left. }
  destruct (remind_get_calendars remind w1) as [[[|c cs]|e2] w2] eqn:Hlist; kstep.
  - (* an empty listing *)
    destruct (remind_create_calendar remind "Things Export" w2) as [[c3|e3] w3]; kstep.
    + intros [= <- <-]. eexists. split; [by rewrite <- !app_assoc|].
      cbn. repeat split. right; right. split; [done|]. left; by eexists.
    + destruct (is_Exception (exn_cls e3)) eqn:He3; kstep.
      * intros [= <- <-]. eexists. split; [by rewrite <- !app_assoc|].
        cbn. repeat split. right; right. split; [done|]. right; by left.
      * intros [= <- <-]. eexists. split; [by rewrite <- !app_assoc|].
        cbn. repeat split. right; right. split; [done|]. right; right. by eexists.
  - (* a first calendar *)
    intros [= <- <-]. eexists. split; [by rewrite <- !app_assoc|].
    cbn. repeat split. right; left. split; [done|]. left; by eexists.
  - (* the listing raised *)
    destruct (is_Exception (exn_cls e2)) eqn:He2; kstep.
    2:{ intros [= <- <-]. eexists. split; [by rewrite <- !app_assoc|].
        cbn. repeat split. right; left. split; [done|]. right; by eexists. }
    destruct (remind_create_calendar remind "Things Export" w2) as [[c3|e3] w3]; kstep.
    + intros [= <- <-]. eexists. split; [by rewrite <- !app_assoc|].
      cbn. repeat split. right; right. split; [done|]. left; by eexists.
    + destruct (is_Exception (exn_cls e3)) eqn:He3; kstep.
      * intros [= <- <-]. eexists. split; [by rewrite <- !app_assoc|].
        cbn. repeat split. right; right. split; [done|]. right; by left.
      * intros [= <- <-]. eexists. split; [by rewrite <- !app_assoc|].
        cbn. repeat split. right; right. split; [done|]. right; right. by eexists.
Qed.

(** X19: the fallback chain of [get_default_calendar], call by call.
    The client asks the kit for the default calendar; an answer is
    returned and nothing else is called, and an exception other than
    [ValueError] is passed on in the same way.  Only after a [ValueError]
    it asks for all calendars: the first of a non-empty listing is
    returned and nothing else is called, and an exception that is no
    [Exception] is passed on.  Only after an empty listing or an
    [Exception] it asks for a new calendar named [Things Export]: the new
    calendar is returned, an [Exception] becomes the [ValueError] with the
    fixed message, anything else is passed on.  Result, store and calls
    are those of the table [fallback_answer], whatever the kit answers;
    no reminder is created or updated on the way. *)
Theorem get_default_calendar_fallbacks (k : client Store) :
  ∃ evs,
    Reminders.get_default_calendar remind k
    = ((fallback_answer remind (store k)).1.1,
       Client (fallback_answer remind (store k)).1.2 (kit_trace k ++ evs)) ∧
    kit_calls evs = (fallback_answer remind (store k)).2 ∧
    kit_created evs = [] ∧ kit_updates evs = [].
Proof.
  destruct k as [w0 tr0].
  unfold Reminders.get_default_calendar, fallback_answer, catches.
  cbn [store kit_trace]. kstep.
  destruct (calendars_get_default remind w0) as [[c|e] w1]; kstep.
  { by exists [KitGetDefault]. }
  case_bool_decide as Hcls; kstep.
  2:{ rewrite decide_False by (intros Hv; apply Hcls; rewrite Hv; by left).
      by exists [KitGetDefault]. }
  apply list_elem_of_singleton in Hcls. rewrite decide_True by done.
  destruct (remind_get_calendars remind w1) as [[[|c cs]|e2] w2]; kstep;
    [|eexists; split; [rewrite <- ?app_assoc; reflexivity|done]
     |destruct (is_Exception (exn_cls e2)); kstep;
      [|eexists; split; [rewrite <- ?app_assoc; reflexivity|done]]];
    (destruct (remind_create_calendar remind "Things Export" w2) as [[c3|e3] w3]; kstep;
     [|destruct (is_Exception (exn_cls e3)); kstep];
     (eexists; split; [rewrite <- ?app_assoc; reflexivity|done])).
Qed.

Lemma string_nonempty_app (c : ascii) (s t : string) :
  ∃ c' s', String c s +:+ t = String c' s'.
Proof. by exists c, (s +:+ t). Qed.

(** The notes of lines 135-152 are the sections joined by blank lines. *)
Lemma structured_notes_eq (a : create_args) :
  Reminders.structured_notes a
  = Py.join (nl +:+ nl) (notes_section a ++ tags_section a ++ completed_section a).
Proof.
  unfold Reminders.structured_notes, notes_section, tags_section, completed_section.
  destruct (a_notes a) as [[|c n]|]; cbn [default Py.truthy from_option id];
    destruct (a_tags a) as [[|tag tags]|];
    destruct (a_completed a && Py.truthy (a_completion_date a));
    try reflexivity;
    cbn [app Py.join String.concat];
    change (String c n +:+ ?t) with (String c (n +:+ t));
    cbv beta iota; try reflexivity.
  all: change (String c (n +:+ ?t) +:+ ?u) with (String c ((n +:+ t) +:+ u)).
  all: by rewrite string_app_assoc.
Qed.

(** Every run of the body of the [try] of [create_reminder]. *)
Lemma post_creation_updates_inv (a : create_args) (r0 : rem) (k k' : client Store)
    (res : result unit) :
  Reminders.post_creation_updates remind str_datetime a r0 k = (res, k') →
  ∃ evs, kit_trace k' = kit_trace k ++ evs ∧
    kit_created evs = [] ∧ kit_warnings evs = [] ∧
    (kit_updates evs).*2 `prefix_of` wanted_updates a ∧
    Forall (λ iu, iu.1 = rem_id remind r0) (kit_updates evs) ∧
    ((res = Ok tt ∧ (kit_updates evs).*2 = wanted_updates a) ∨
     (∃ e id u w w', res = Raise e ∧ remind_update_reminder remind id u w = (Raise e, w'))).
Proof.
  destruct k as [w0 tr0]. unfold Reminders.post_creation_updates, wanted_updates.
  destruct (a_completed a), (a_early_reminder_date a) as [d|], (a_flagged a); kstep;
    repeat (match goal with
            | |- context [remind_update_reminder ?r ?i ?u ?w] =>
                let Hu := fresh "Hu" in
                destruct (remind_update_reminder r i u w) as [[[]|?] ?] eqn:Hu; kstep
            end);
    intros [= <- <-]; cbn [kit_trace];
    first [eexists; split; [by rewrite <- ?app_assoc|]
          | exists []; split; [by rewrite app_nil_r|]];
    cbn; (split; [done|]); (split; [done|]);
    (split; [by eexists|]);
    (split; [by repeat constructor|]);
    first [by left | right; by repeat eexists].
Qed.

Lemma updates_tried_prefix (id : string) (updates : list update) (w : Store) :
  (updates_tried remind id updates w).1.1 `prefix_of` updates ∧
  ((updates_tried remind id updates w).2 = None →
   (updates_tried remind id updates w).1.1 = updates).
Proof.
  revert w. induction updates as [|u updates IH]; intros w; [done|].
  cbn [updates_tried].
  destruct (remind_update_reminder remind id u w) as [[[]|e] w1].
  - destruct (IH w1) as [Hpre Hall].
    destruct (updates_tried remind id updates w1) as [[tried w2] failure].
    cbn in *. split; [by apply prefix_cons|]. intros Hnone. by rewrite Hall.
  - cbn. split; [|done]. by exists updates.
Qed.

(** Every run of the body of the [try], by the updates tried. *)
Lemma post_creation_updates_run (a : create_args) (r0 : rem) (w0 : Store)
    (tr0 : list kit_event) :
  ∃ evs,
    Reminders.post_creation_updates remind str_datetime a r0 (Client w0 tr0)
    = (match (updates_tried remind (rem_id remind r0) (wanted_updates a) w0).2 with
       | None => Ok tt
       | Some e => Raise e
       end,
       Client (updates_tried remind (rem_id remind r0) (wanted_updates a) w0).1.2
         (tr0 ++ evs)) ∧
    kit_created evs = [] ∧ kit_warnings evs = [] ∧
    kit_updates evs
    = (λ u, (rem_id remind r0, u))
        <$> (updates_tried remind (rem_id remind r0) (wanted_updates a) w0).1.1.
Proof.
  unfold Reminders.post_creation_updates, wanted_updates.
  destruct (a_completed a), (a_early_reminder_date a) as [d|], (a_flagged a);
    cbn [app updates_tried]; kstep;
    repeat (match goal with
            | |- context [remind_update_reminder ?r ?i ?u ?w] =>
                destruct (remind_update_reminder r i u w) as [[[]|?] ?];
                cbn [app updates_tried fst snd]; kstep
            end);
    first [eexists; split; [rewrite <- ?app_assoc; reflexivity|done]
          | exists []; split; [by rewrite app_nil_r|done]].
Qed.

Lemma reminder_of_eq (a : create_args) (calendar_id : string) :
  Reminders.reminder_of a calendar_id = requested a calendar_id.
Proof. unfold Reminders.reminder_of, requested. by rewrite structured_notes_eq. Qed.

(** [create_reminder] from the point where the calendar is known. *)
Lemma create_reminder_from (a : create_args) (calendar_id : string)
    (w0 : Store) (tr0 : list kit_event) (r : result rem) (k' : client Store) :
  (reminder ← kit (KitCreateReminder (Reminders.reminder_of a calendar_id))
                (remind_create_reminder remind (Reminders.reminder_of a calendar_id));
   ktry (Reminders.post_creation_updates remind str_datetime a reminder)
     is_Exception
     (λ e, klog L_WARNING ("Error updating reminder attributes: " +:+ exn_msg e));;
   mret reminder) (Client w0 tr0) = (r, k') →
  ∃ evs, kit_trace k' = tr0 ++ evs ∧
    kit_created evs = [requested a calendar_id] ∧
    (kit_updates evs).*2 `prefix_of` wanted_updates a ∧
    (∀ e, r = Raise e → is_Exception (exn_cls e) = true →
       kit_updates evs = [] ∧
       ∃ w1, remind_create_reminder remind (requested a calendar_id) w0 = (Raise e, w1)) ∧
    (∀ r0, r = Ok r0 →
       (∃ w1, remind_create_reminder remind (requested a calendar_id) w0 = (Ok r0, w1)) ∧
       Forall (λ iu, iu.1 = rem_id remind r0) (kit_updates evs) ∧
       ((kit_warnings evs = [] ∧ (kit_updates evs).*2 = wanted_updates a) ∨
        ∃ e id u w w', remind_update_reminder remind id u w = (Raise e, w') ∧
          kit_warnings evs = ["Error updating reminder attributes: " +:+ exn_msg e])).
Proof.
  rewrite reminder_of_eq. kstep.
  destruct (remind_create_reminder remind (requested a calendar_id) w0)
    as [[r0|e] w1] eqn:Hcreate; kstep.
  2:{ intros [= <- <-]. exists [KitCreateReminder (requested a calendar_id)].
      cbn. split; [done|]. split; [done|]. split; [by eexists|]. split; [|done].
      intros e' [= <-] _. split; [done|]. by eexists. }
  destruct (Reminders.post_creation_updates remind str_datetime a r0
              (Client w1 (tr0 ++ [KitCreateReminder (requested a calendar_id)])))
    as [[[]|e] [w2 tr2]] eqn:Hupd;
    apply post_creation_updates_inv in Hupd
      as (evs & Htr & Hc & Hw & Hpre & Hid & Hres); cbn [kit_trace] in Htr; subst tr2;
    kstep.
  - intros [= <- <-]. exists ([KitCreateReminder (requested a calendar_id)] ++ evs).
    cbn [kit_trace]. split; [by rewrite <- app_assoc|].
    rewrite kit_created_app, kit_updates_app, kit_warnings_app, Hc, Hw.
    split; [done|]. split; [done|]. split; [done|].
    intros r1 [= <-]. split; [by eexists|]. split; [done|]. left. split; [done|].
    destruct Hres as [[_ Hall]|(e & id & u & w & w' & [=] & _)]. done.
  - destruct Hres as [[[=] _]|(e' & id & u & w & w' & [= <-] & Hraise)].
    destruct (is_Exception (exn_cls e)) eqn:He; kstep.
    + intros [= <- <-].
      exists ([KitCreateReminder (requested a calendar_id)] ++ evs
              ++ [KitLogged L_WARNING ("Error updating reminder attributes: "
                                       +:+ exn_msg e)]).
      cbn [kit_trace]. split; [by rewrite <- !app_assoc|].
      rewrite !kit_created_app, !kit_updates_app, !kit_warnings_app, Hc, Hw.
      change (kit_updates [KitLogged _ _]) with (@nil (string * update)).
      change (kit_updates [KitCreateReminder _]) with (@nil (string * update)).
      rewrite !app_nil_r. cbn [app].
      split; [done|]. split; [done|]. split; [done|].
      intros r1 [= <-]. split; [by eexists|]. split; [done|]. right.
      by exists e, id, u, w, w'.
    + intros [= <- <-]. exists ([KitCreateReminder (requested a calendar_id)] ++ evs).
      cbn [kit_trace]. split; [by rewrite <- app_assoc|].
      rewrite kit_created_app, kit_updates_app, Hc.
      split; [done|]. split; [done|]. split; [|done].
      intros e' [= <-]. congruence.
Qed.

(** X20: what [create_reminder] asks the kit for.  Every call asks for
    at most one reminder; none is asked for only when no calendar id was
    given and the lookup of the default calendar raised.  The reminder
    asked for has the title, due date and completed flag of the
    arguments, priority [NONE] when none was given, the calendar id
    given, and as notes the caller's notes, the tags as hashtags and the
    completion date, each left out when absent and joined by blank
    lines.  An [Exception] leaves the call only before any update was
    tried: from the calendar lookup or from the creation itself. *)
Theorem create_reminder_request (a : create_args) (k k' : client Store)
    (r : result rem) :
  Reminders.create_reminder remind str_datetime a k = (r, k') →
  ∃ evs, kit_trace k' = kit_trace k ++ evs ∧
    ((kit_created evs = [] ∧ a_calendar_id a = None ∧ ∃ e, r = Raise e) ∨
     (∃ calendar_id, kit_created evs = [requested a calendar_id] ∧
        ∀ given, a_calendar_id a = Some given → calendar_id = given)) ∧
    (∀ e, r = Raise e → is_Exception (exn_cls e) = true → kit_updates evs = []).
Proof.
  destruct k as [w0 tr0]. unfold Reminders.create_reminder.
  destruct (a_calendar_id a) as [calendar_id|] eqn:Hcal.
  - unfold mbind at 1, K_bind at 1. cbn [mret K_ret].
    intros (evs & Htr & Hc & _ & Hraise & _)%create_reminder_from.
    exists evs. split; [done|]. split.
    + right. exists calendar_id. split; [done|]. by intros given [= <-].
    + intros e -> He. by destruct (Hraise e eq_refl He).
  - intros [(calendar_id & [w1 tr1] & Hlookup & Hrest)|(e & Hlookup & ->)]%K_bind_inv.
    + apply K_bind_inv in Hlookup
        as [(c & k1 & Hdefault & [= <- ->])|(e & Hdefault & [=])].
      apply get_default_calendar_inv in Hdefault as (evs0 & Htr0 & Hc0 & Hu0 & _).
      cbn [kit_trace] in Htr0. subst tr1.
      apply create_reminder_from in Hrest as (evs & Htr & Hc & _ & Hraise & _).
      exists (evs0 ++ evs). cbn [kit_trace]. split; [by rewrite Htr, app_assoc|].
      rewrite kit_created_app, kit_updates_app, Hc0, Hu0. cbn [app]. split.
      * right. exists (cal_id c). by split.
      * intros e -> He. by destruct (Hraise e eq_refl He).
    + apply K_bind_inv in Hlookup
        as [(c & k1 & Hdefault & [=])|(e' & Hdefault & [= <-])].
      apply get_default_calendar_inv in Hdefault as (evs0 & Htr0 & Hc0 & Hu0 & _).
      exists evs0. split; [done|]. split; [|done].
      left. split; [done|]. split; [done|]. by eexists.
Qed.

(** With a calendar id given, [create_reminder] asks the kit for one
    reminder. *)
Lemma create_reminder_given (a : create_args) (calendar_id : string)
    (k k' : client Store) (r : result rem) :
  a_calendar_id a = Some calendar_id →
  Reminders.create_reminder remind str_datetime a k = (r, k') →
  ∃ evs, kit_trace k' = kit_trace k ++ evs ∧
         kit_created evs = [requested a calendar_id].
Proof.
  intros Hcal. destruct k as [w0 tr0]. unfold Reminders.create_reminder.
  rewrite Hcal. unfold mbind at 1, K_bind at 1. cbn [mret K_ret].
  intros (evs & Htr & Hc & _)%create_reminder_from. by exists evs.
Qed.

(** X21: a failing update does not lose the reminder.  When a calendar
    id is given and the kit creates the reminder, the client tries the
    wanted updates - completed, early reminder, flag, each only if asked
    for - on the new reminder, in this order, each in the store the one
    before it left, and stops at the first that raises: the updates after
    it are not tried.  When what was raised, if anything, is an
    [Exception], [create_reminder] returns the created reminder and
    leaves the store as the last update tried left it; nothing is logged
    as a warning when all updates were made, and one warning with the
    message of the exception when one raised. *)
Theorem create_reminder_survives_updates (a : create_args) (calendar_id : string)
    (k : client Store) (r0 : rem) (w1 : Store)
    (tried : list update) (w2 : Store) (failure : option exn) :
  a_calendar_id a = Some calendar_id →
  remind_create_reminder remind (requested a calendar_id) (store k) = (Ok r0, w1) →
  updates_tried remind (rem_id remind r0) (wanted_updates a) w1 = (tried, w2, failure) →
  (∀ e, failure = Some e → is_Exception (exn_cls e) = true) →
  ∃ evs,
    Reminders.create_reminder remind str_datetime a k
    = (Ok r0, Client w2 (kit_trace k ++ evs)) ∧
    kit_created evs = [requested a calendar_id] ∧
    kit_updates evs = (λ u, (rem_id remind r0, u)) <$> tried ∧
    tried `prefix_of` wanted_updates a ∧
    (failure = None → tried = wanted_updates a) ∧
    kit_warnings evs
    = match failure with
      | Some e => ["Error updating reminder attributes: " +:+ exn_msg e]
      | None => []
      end.
Proof.
  intros Hcal Hcreate Htried Hexc. destruct k as [w0 tr0]. cbn [store] in Hcreate.
  destruct (updates_tried_prefix (rem_id remind r0) (wanted_updates a) w1)
    as [Hpre Hall].
  destruct (post_creation_updates_run a r0 w1
              (tr0 ++ [KitCreateReminder (requested a calendar_id)]))
    as (evs & Hrun & Hc & Hw & Hu).
  rewrite Htried in Hpre, Hall, Hrun, Hu. cbn [fst snd] in Hpre, Hall, Hrun, Hu.
  unfold Reminders.create_reminder. rewrite Hcal. kstep.
  rewrite reminder_of_eq, Hcreate. kstep. rewrite Hrun.
  destruct failure as [e|]; kstep.
  - rewrite (Hexc e eq_refl). kstep.
    exists ([KitCreateReminder (requested a calendar_id)] ++ evs
            ++ [KitLogged L_WARNING ("Error updating reminder attributes: "
                                     +:+ exn_msg e)]).
    split; [by rewrite <- !app_assoc|].
    rewrite !kit_created_app, !kit_updates_app, !kit_warnings_app, Hc, Hw, Hu.
    cbn. by rewrite app_nil_r.
  - exists ([KitCreateReminder (requested a calendar_id)] ++ evs).
    split; [by rewrite <- !app_assoc|].
    by rewrite !kit_created_app, !kit_updates_app, !kit_warnings_app, Hc, Hw, Hu.
Qed.

End ClientFacts.

(** * Properties of the command line *)

Lemma cli_logged_app (lvl : loglevel) (l1 l2 : list cli_event) :
  cli_logged lvl (l1 ++ l2) = cli_logged lvl l1 ++ cli_logged lvl l2.
Proof. apply omap_app. Qed.

(** The options that were not specified are the ones that take their
    default: packing and unpacking the dictionary changes no option but
    an empty string, which becomes [None]. *)
Lemma options_of_kwargs_export_options (a : args) :
  options_of_kwargs (export_options a)
  = Options (arg_completed a) (arg_canceled a) (arg_with_deadlines a) (arg_today a)
      (arg_inbox a) (arg_upcoming a) (arg_someday a)
      (if Py.truthy (arg_completed_last a) then arg_completed_last a else None)
      (if Py.truthy (arg_tag a) then arg_tag a else None).
Proof.
  destruct a as [? ? ? [] [] [] [] [] [] [] [[|??]|] [[|??]|]]; vm_compute; reflexivity.
Qed.

Lemma export_options_nil (a : args) :
  export_options a = [] ↔ no_option a = true.
Proof.
  destruct a as [? ? ? [] [] [] [] [] [] [] [[|??]|] [[|??]|]]; vm_compute; split; done.
Qed.

Section MainFacts.

Context `{Env}.
Variable check_reminders_setup : external World bool.
Variable new_clients : external World unit.
Variable str_of_options : list (string * value) → string.

Lemma C_bind_inv {A B} (m : Cli.C A) (f : A → Cli.C B) (p p' : Cli.process)
    (r : result B) :
  (m ≫= f) p = (r, p') →
  (∃ a p1, m p = (Ok a, p1) ∧ f a p1 = (r, p')) ∨
  (∃ e, m p = (Raise e, p') ∧ r = Raise e).
Proof.
  unfold mbind, Cli.C_bind. destruct (m p) as [[a|e] p1].
  - intros Hf. left. by exists a, p1.
  - intros [= <- <-]. right. by exists e.
Qed.

Lemma clog_inv (lvl : loglevel) (msg : string) (p p' : Cli.process) (r : result unit) :
  Cli.clog lvl msg p = (r, p') →
  r = Ok tt ∧ Cli.exporter p' = Cli.exporter p ∧
  Cli.cli_trace p' = Cli.cli_trace p ++ [CliLogged lvl msg].
Proof. unfold Cli.clog. by intros [= <- <-]. Qed.

(** A method of the exporter that keeps [create_reminder] uncalled when
    it returns, run from the command line. *)
Lemma run_quiet (m : M (nat * nat * nat * nat)) (p p' : Cli.process)
    (r : result (nat * nat * nat * nat)) :
  (∀ s s' counts, m s = (Ok counts, s') →
                  counts.2 = 0 ∧ created (trace s') = created (trace s)) →
  Cli.run m p = (r, p') →
  Cli.cli_trace p' = Cli.cli_trace p ∧
  ∀ counts, r = Ok counts →
    counts.2 = 0 ∧
    created (trace (Cli.exporter p')) = created (trace (Cli.exporter p)).
Proof.
  intros Hm. unfold Cli.run.
  destruct (m (Cli.exporter p)) as [r1 s1] eqn:Hrun. intros [= <- <-].
  split; [done|]. intros counts ->. by apply Hm.
Qed.

(** The body of the [try]: when it returns, it returns 0, nothing was
    created and the count it logs is 0. *)
Lemma export_inv (a : args) (p p' : Cli.process) (z : Z) :
  Cli.export new_clients str_of_options a p = (Ok z, p') →
  z = 0%Z ∧
  created (trace (Cli.exporter p')) = created (trace (Cli.exporter p)) ∧
  ∃ evs, Cli.cli_trace p' = Cli.cli_trace p ++ evs ∧
    "Exported 0 todos from Things to Reminders" ∈ cli_logged L_INFO evs ∧
    cli_logged L_ERROR evs = [].
Proof.
  unfold Cli.export.
  intros [(? & p1 & Hnew & Hrun)|(e & _ & [=])]%C_bind_inv.
  assert (created (trace (Cli.exporter p1)) = created (trace (Cli.exporter p)) ∧
          Cli.cli_trace p1 = Cli.cli_trace p ++ [BuiltExporter]) as [C1 T1].
  { unfold Cli.new_exporter in Hnew.
    apply C_bind_inv in Hnew as [(? & p0 & Hcall & Htab)|(e & _ & [=])].
    unfold Cli.ccall in Hcall.
    destruct (new_clients (world (Cli.exporter p))) as [r0 w0].
    injection Hcall as _ <-. unfold Cli.empty_tables in Htab.
    injection Htab as _ <-. by cbn. }
  apply C_bind_inv in Hrun as [([[[areas projects] tags] todos] & p2 & Hcounts & Hrun)
                              |(e & _ & [=])].
  assert (todos = 0 ∧
          created (trace (Cli.exporter p2)) = created (trace (Cli.exporter p1)) ∧
          ∃ msg, Cli.cli_trace p2 = Cli.cli_trace p1 ++ [CliLogged L_INFO msg])
    as (-> & C2 & msg & T2).
  { destruct (arg_all a).
    - apply C_bind_inv in Hcounts as [(? & p3 & (_ & E3 & T3)%clog_inv & Hcounts)
                                     |(e & _ & [=])].
      apply run_quiet in Hcounts as [T4 Hq]; [|apply export_all_tasks_quiet].
      destruct (Hq _ eq_refl) as [Hz C4]. cbn in Hz. rewrite E3 in C4.
      split; [done|]. split; [done|]. eexists. by rewrite T4, T3.
    - destruct (export_options a) as [|kv kwargs].
      + apply C_bind_inv in Hcounts as [(? & p3 & (_ & E3 & T3)%clog_inv & Hcounts)
                                       |(e & _ & [=])].
        apply run_quiet in Hcounts as [T4 Hq]; [|apply export_all_quiet].
        destruct (Hq _ eq_refl) as [Hz C4]. cbn in Hz. rewrite E3 in C4.
        split; [done|]. split; [done|]. eexists. by rewrite T4, T3.
      + apply C_bind_inv in Hcounts as [(? & p3 & (_ & E3 & T3)%clog_inv & Hcounts)
                                       |(e & _ & [=])].
        apply run_quiet in Hcounts as [T4 Hq]; [|apply export_with_options_quiet].
        destruct (Hq _ eq_refl) as [Hz C4]. cbn in Hz. rewrite E3 in C4.
        split; [done|]. split; [done|]. eexists. by rewrite T4, T3. }
  revert Hrun. unfold mbind, Cli.C_bind, Cli.clog, mret, Cli.C_ret. cbn.
  intros [= <- <-]. split; [done|]. cbn. split; [congruence|].
  eexists. rewrite T2, T1, <- !app_assoc. split; [done|].
  cbn. split; [|done]. do 2 right. by left.
Qed.

(** Each of the three [except] clauses logs and returns 1. *)
Lemma handle_inv (a : args) (e : exn) (p : Cli.process) :
  ∃ p', Cli.handle a e p = (Ok 1%Z, p') ∧ Cli.exporter p' = Cli.exporter p.
Proof.
  unfold Cli.handle. repeat case_decide;
    try destruct (str_in "No default calendar found" (exn_msg e)
                  || str_in "Could not find or create a Reminders calendar" (exn_msg e));
    destruct (arg_verbose a); by eexists.
Qed.

(** The check of the setup at the head of [main]. *)
Lemma main_inv (a : args) (p p' : Cli.process) (r : result Z) :
  Cli.main check_reminders_setup new_clients str_of_options a p = (r, p') →
  (∃ e w', arg_skip_checks a = false ∧ r = Raise e ∧
     check_reminders_setup (world (Cli.exporter p)) = (Raise e, w')) ∨
  (∃ w', arg_skip_checks a = false ∧ r = Ok 1%Z ∧
     check_reminders_setup (world (Cli.exporter p)) = (Ok false, w') ∧
     Cli.exporter p' = moved (Cli.exporter p) w' ∧
     ∃ evs, Cli.cli_trace p' = Cli.cli_trace p ++ evs ∧ BuiltExporter ∉ evs) ∨
  (∃ p1 evs, created (trace (Cli.exporter p1)) = created (trace (Cli.exporter p)) ∧
     Cli.cli_trace p1 = Cli.cli_trace p ++ evs ∧ cli_logged L_ERROR evs = [] ∧
     Cli.ctry (Cli.export new_clients str_of_options a) is_Exception (Cli.handle a) p1
     = (r, p')).
Proof.
  unfold Cli.main.
  intros [([] & p0 & (_ & E0 & T0)%clog_inv & Hrun)
         |(e & ([=] & _)%clog_inv & _)]%C_bind_inv.
  destruct (arg_skip_checks a); cbn [negb] in Hrun.
  { right; right. exists p0, [CliLogged L_INFO "Starting Things2Reminder export"].
    rewrite E0. by repeat split. }
  apply C_bind_inv in Hrun as [(passed & p1 & Hcheck & Hrun)|(e & Hcheck & ->)].
  - apply C_bind_inv in Hcheck as [([] & p2 & (_ & E2 & T2)%clog_inv & Hcheck)
                                  |(e & _ & [=])].
    apply C_bind_inv in Hcheck as [(ok & p3 & Hcall & Hcheck)|(e & _ & [=])].
    unfold Cli.ccall in Hcall. rewrite E2, E0 in Hcall.
    destruct (check_reminders_setup (world (Cli.exporter p))) as [r3 w3] eqn:Hc.
    injection Hcall as -> <-.
    destruct ok; cbn [negb] in Hcheck.
    + revert Hcheck. unfold mbind, Cli.C_bind, Cli.clog, mret, Cli.C_ret. cbn.
      intros [= <- <-]. cbn [negb] in Hrun. right; right.
      lazymatch type of Hrun with
      | Cli.ctry _ _ _ ?q = _ => exists q
      end.
      eexists. split; [|split; [|split; [|exact Hrun]]].
      * cbn. done.
      * cbn. rewrite T2, T0, <- !app_assoc. done.
      * done.
    + revert Hcheck. unfold mbind, Cli.C_bind, Cli.clog, mret, Cli.C_ret. cbn.
      intros [= <- <-]. cbn [negb] in Hrun. injection Hrun as <- <-.
      right; left. exists w3. split; [done|]. split; [done|]. split; [done|].
      split; [done|]. cbn. eexists. split; [by rewrite T2, T0, <- !app_assoc|].
      repeat (apply not_elem_of_cons; split; [done|]). apply not_elem_of_nil.
  - apply C_bind_inv in Hcheck as [([] & p2 & (_ & E2 & T2)%clog_inv & Hcheck)
                                  |(e' & ([=] & _)%clog_inv & _)].
    apply C_bind_inv in Hcheck as [(ok & p3 & Hcall & Hcheck)|(e' & Hcall & [= <-])].
    + exfalso. destruct ok; cbn [negb] in Hcheck; revert Hcheck;
        unfold mbind, Cli.C_bind, Cli.clog, mret, Cli.C_ret; cbn; done.
    + unfold Cli.ccall in Hcall. rewrite E2, E0 in Hcall.
      destruct (check_reminders_setup (world (Cli.exporter p))) as [r3 w3] eqn:Hc.
      injection Hcall as -> _. left. by exists e, w3.
Qed.

(** X22: the exit status of [main].  Whenever [main] returns, it
    returns 0 or 1.  What it raises is either not an [Exception] (an
    interrupt, say), or was raised by the setup check, which runs
    outside the [try]: every [Exception] of the exporter, whatever its
    class, ends in exit status 1. *)
Theorem main_exit_status (a : args) (p p' : Cli.process) (r : result Z) :
  Cli.main check_reminders_setup new_clients str_of_options a p = (r, p') →
  r = Ok 0%Z ∨ r = Ok 1%Z ∨
  ∃ e, r = Raise e ∧
    (is_Exception (exn_cls e) = false ∨
     arg_skip_checks a = false ∧
     ∃ w', check_reminders_setup (world (Cli.exporter p)) = (Raise e, w')).
Proof.
  intros [(e & w' & Hskip & -> & Hc)|[(w' & _ & -> & _)|(p1 & evs & _ & _ & _ & Hrun)]]%main_inv.
  - right; right. exists e. split; [done|]. right. split; [done|]. by exists w'.
  - by right; left.
  - unfold Cli.ctry in Hrun.
    destruct (Cli.export new_clients str_of_options a p1) as [[z|e] p2] eqn:Hexport.
    + apply export_inv in Hexport as [-> _]. injection Hrun as <- _. by left.
    + destruct (is_Exception (exn_cls e)) eqn:He.
      * destruct (handle_inv a e p2) as (p3 & Hh & _). rewrite Hh in Hrun.
        injection Hrun as <- _. by right; left.
      * injection Hrun as <- _. right; right. exists e. split; [done|by left].
Qed.

(** X23: exit status 0 means that nothing was exported.  Whenever [main]
    returns 0, [create_reminder] has not been called during the run, the
    module's logger has reported [Exported 0 todos from Things to
    Reminders], and it has logged no error. *)
Theorem main_success_exports_nothing (a : args) (p p' : Cli.process) :
  Cli.main check_reminders_setup new_clients str_of_options a p = (Ok 0%Z, p') →
  created (trace (Cli.exporter p')) = created (trace (Cli.exporter p)) ∧
  ∃ evs, Cli.cli_trace p' = Cli.cli_trace p ++ evs ∧
    "Exported 0 todos from Things to Reminders" ∈ cli_logged L_INFO evs ∧
    cli_logged L_ERROR evs = [].
Proof.
  intros [(e & w' & _ & [=] & _)|[(w' & _ & [=] & _)
                                 |(p1 & evs & C1 & T1 & E1 & Hrun)]]%main_inv.
  unfold Cli.ctry in Hrun.
  destruct (Cli.export new_clients str_of_options a p1) as [[z|e] p2] eqn:Hexport.
  - injection Hrun as -> ->.
    apply export_inv in Hexport as (_ & C2 & evs2 & T2 & Hin & E2).
    split; [congruence|]. exists (evs ++ evs2).
    rewrite T2, T1, app_assoc, !cli_logged_app, E1, E2. split; [done|].
    split; [|done]. apply elem_of_app. by right.
  - destruct (is_Exception (exn_cls e)) eqn:He; [|done].
    destruct (handle_inv a e p2) as (p3 & Hh & _). rewrite Hh in Hrun. done.
Qed.

(** X24: a failed setup check ends the run before the exporter exists.
    When the check is not skipped and answers no, [main] returns 1; no
    exporter is built, so Things is not queried and nothing is created:
    the exporter's side is as it was but for what the check did to the
    world. *)
Theorem main_failed_check (a : args) (p : Cli.process) (w' : World) :
  arg_skip_checks a = false →
  check_reminders_setup (world (Cli.exporter p)) = (Ok false, w') →
  ∃ p' evs,
    Cli.main check_reminders_setup new_clients str_of_options a p = (Ok 1%Z, p') ∧
    Cli.exporter p' = moved (Cli.exporter p) w' ∧
    Cli.cli_trace p' = Cli.cli_trace p ++ evs ∧
    (BuiltExporter ∉ evs) ∧
    cli_logged L_ERROR evs ≠ [].
Proof.
  intros Hskip Hcheck. unfold Cli.main. rewrite Hskip.
  unfold mbind, Cli.C_bind, Cli.clog, Cli.ccall, mret, Cli.C_ret. cbn.
  rewrite Hcheck. cbn. eexists _, _. split; [done|]. split; [done|].
  split; [by rewrite <- !app_assoc|]. split; [|done].
  repeat (apply not_elem_of_cons; split; [done|]). apply not_elem_of_nil.
Qed.

(** X25: the options that were not specified are not lost.  The
    dictionary [main] builds holds only the options that are set, and
    [export_with_options] called with it behaves, in every state, as if
    called with the options read off the command line; the dictionary is
    empty exactly when no export option is given. *)
Theorem export_options_round_trip (a : args) (s : state) :
  export_with_options (options_of_kwargs (export_options a)) s
  = export_with_options (options_of_args a) s ∧
  (export_options a = [] ↔ no_option a = true).
Proof.
  split; [|apply export_options_nil].
  rewrite options_of_kwargs_export_options. unfold options_of_args.
  destruct (arg_completed_last a) as [[|??]|], (arg_tag a) as [[|??]|]; reflexivity.
Qed.

End MainFacts.

(** * From a todo to the notes of its reminder *)

Lemma join_merge (sep x y : string) (l : list string) :
  Py.join sep ((x +:+ sep +:+ y) :: l) = Py.join sep (x :: y :: l).
Proof.
  unfold Py.join. destruct l as [|z l]; cbn [String.concat]; [done|].
  by rewrite !string_app_assoc.
Qed.

Section PipelineFacts.

Context `{Env}.

Lemma render_notes_nonempty (t : todo) :
  ∃ c r, render_notes fromisoformat t = String c r.
Proof.
  unfold render_notes. rewrite !app_assoc.
  destruct (join_snoc (nl +:+ nl)
              ((((original_notes t ++ status_annotation t) ++ start_annotation t)
                ++ deadline_annotation fromisoformat t) ++ checklist_block t)
              (footer t)) as [before ->].
  destruct before as [|c before]; [|by exists c, (before +:+ footer t)].
  unfold footer. by eexists _, _.
Qed.

(** The notes of the reminder asked for, given the arguments the loop
    sends. *)
Lemma requested_sent_args (self : state) (default_calendar : calendar)
    (d : list (string * string)) (calendar_assignments : gmap Z string)
    (tag_assignments : gmap Z (list string)) (j : nat) (t : todo)
    (p0 : reminder_params) (calendar_id : string) :
  get_reminder_params_from_todo fromisoformat t (Some (cal_id default_calendar)) = Ok p0 →
  nr_notes (requested (sent_args self default_calendar d calendar_assignments
                         tag_assignments j t p0) calendar_id)
  = Py.join (nl +:+ nl)
      ([render_notes fromisoformat t] ++ context_block self t
       ++ hashtags (tag_names_of tag_assignments j t) ++ completion_note t) ∧
  nr_is_completed (requested (sent_args self default_calendar d calendar_assignments
                                tag_assignments j t p0) calendar_id)
  = bool_decide (todo_status t = Some "completed").
Proof.
  intros (Hc & Hd & _ & _ & Hnotes)%get_reminder_params_from_todo_fields.
  unfold requested, sent_args, args_of_params, params_sent.
  cbn [nr_notes nr_is_completed a_completed p_completed].
  split; [|rewrite Hc; by case_decide; case_bool_decide].
  unfold notes_section, tags_section, completed_section, context_block, hashtags,
    completion_note.
  cbn [a_notes a_tags a_completed a_completion_date p_notes p_tags p_completed
       p_completion_date].
  rewrite Hc, Hd, Hnotes.
  destruct (render_notes_nonempty t) as (c & r & Hr).
  assert ((if default false (if decide (todo_status t = Some "completed")
                             then Some true else None)
              && Py.truthy (default None (if decide (todo_status t = Some "completed")
                                          then Some (todo_stop_date t) else None))
           then ["Completed on: "
                 +:+ default "" (default None
                                   (if decide (todo_status t = Some "completed")
                                    then Some (todo_stop_date t) else None))]
           else [])
          = (if bool_decide (todo_status t = Some "completed")
                && Py.truthy (todo_stop_date t)
             then ["Completed on: " +:+ default "" (todo_stop_date t)] else [])) as ->.
  { case_decide; case_bool_decide; done. }
  assert (match tag_names_of tag_assignments j t with
          | [] => []
          | tag :: tags =>
              ["Tags: " +:+ Py.join " " ((λ tag, "#" +:+ tag) <$> tag :: tags)]
          end
          = match tag_names_of tag_assignments j t with
            | [] => []
            | _ :: _ =>
                ["Tags: " +:+ Py.join " "
                   ((λ tag, "#" +:+ tag) <$> tag_names_of tag_assignments j t)]
            end) as -> by (by destruct (tag_names_of tag_assignments j t)).
  unfold notes_with_context. rewrite Hr.
  destruct (context_info_of self t) as [|line lines]; cbn [Py.truthy default from_option id].
  - done.
  - change (String c r +:+ nl +:+ nl +:+ Py.join nl (line :: lines))
      with (String c (r +:+ (nl +:+ nl) +:+ Py.join nl (line :: lines))).
    cbn [app].
    change (String c (r +:+ (nl +:+ nl) +:+ Py.join nl (line :: lines)))
      with (String c r +:+ (nl +:+ nl) +:+ Py.join nl (line :: lines)).
    apply join_merge.
Qed.

End PipelineFacts.

Section KitPipelineFacts.

Context {Store rem : Type}.
Variable remind : RemindKit Store rem.
Variable str_datetime : datetime → string.
Variable iso : string → option datetime.
Variable names : list string → string.
Variable strip : string → string.
Variable lower : string → string.
Variable int : string → option Z.
Variable source : ThingsClient (client Store).
Variable run : list string → external (client Store) completed_process.

Local Notation "'E'" :=
  (kit_env remind str_datetime iso names strip lower int source run).

(** X26: the notes of an exported reminder.  Take an exporter whose
    destination is the Reminders client on a kit, a non-empty calendar
    listing and a todo the mapper accepts.  One round of the loop of
    [export_todos] then asks the kit for exactly one reminder, whatever
    the kit answers.  Its notes are: the notes of the mapper (which end
    with the import footer), the project and area lines, the tags the
    batch assigned to the todo as hashtags, and the completion date of a
    completed todo - in this order, each left out when absent, joined by
    blank lines.  It has the title the mapper gave, the calendar id the
    loop chose, and is created completed exactly when the status of the
    todo is [completed]. *)
Theorem exported_notes (default_calendar : calendar)
    (d : list (string * string)) (calendar_assignments : gmap Z string)
    (tag_assignments : gmap Z (list string)) (j : nat) (t : todo)
    (acc : list rem) (s : @state E) (p0 : reminder_params)
    (r : result (list rem)) (s' : @state E) :
  d ≠ [] →
  get_reminder_params_from_todo iso t (Some (cal_id default_calendar)) = Ok p0 →
  @export_todo E default_calendar d calendar_assignments tag_assignments (j, t) acc s
  = (r, s') →
  ∃ evs nr,
    kit_trace (@world E s') = kit_trace (@world E s) ++ evs ∧
    kit_created evs = [nr] ∧
    nr_notes nr
    = Py.join (nl +:+ nl)
        ([render_notes iso t] ++ @context_block E s t
         ++ hashtags (tag_names_of tag_assignments j t) ++ completion_note t) ∧
    nr_title nr = p_title p0 ∧
    nr_calendar_id nr = calendar_id_of default_calendar d calendar_assignments j ∧
    nr_is_completed nr = bool_decide (todo_status t = Some "completed").
Proof.
  intros Hd Hp0 Hrun.
  rewrite (@export_todo_eq E _ _ _ _ _ _ _ _ p0 Hd Hp0) in Hrun. cbv zeta in Hrun.
  set (p := @params_sent E s default_calendar d calendar_assignments tag_assignments
              j t p0) in Hrun.
  change (create_reminder (@reminders E) p (@world E s))
    with (Reminders.create_reminder remind str_datetime (args_of_params p) (@world E s))
    in Hrun.
  destruct (Reminders.create_reminder remind str_datetime (args_of_params p) (@world E s))
    as [r1 k1] eqn:Hcreate.
  apply (create_reminder_given remind str_datetime (args_of_params p)
           (calendar_id_of default_calendar d calendar_assignments j)) in Hcreate
    as (evs & Htr & Hc); [|done].
  assert (@world E s' = k1) as ->.
  { destruct r1 as [r1|e]; [|destruct (is_Exception (exn_cls e))];
      by injection Hrun as <- <-. }
  exists evs, (requested (args_of_params p)
                 (calendar_id_of default_calendar d calendar_assignments j)).
  split; [done|]. split; [done|].
  destruct (@requested_sent_args E s default_calendar d calendar_assignments
              tag_assignments j t p0
              (calendar_id_of default_calendar d calendar_assignments j) Hp0)
    as [Hnotes Hcompleted].
  split; [exact Hnotes|]. split; [done|]. split; [done|exact Hcompleted].
Qed.

End KitPipelineFacts.

(** * Properties of the setup check *)

Section CheckFacts.

Context {Store rem : Type}.
Variable import_pyremindkit : external Store unit.
Variable new_RemindKit : external Store unit.
Variable remind : RemindKit Store rem.
Variable lower : string → string.

Lemma print_instructions_eq (w : Store) (tr : list kit_event) :
  CheckSetup.print_instructions (Client w tr)
  = (Ok tt, Client w (tr ++ (KitPrinted <$> CheckSetup.instructions))).
Proof.
  unfold CheckSetup.print_instructions, CheckSetup.instructions.
  cbn [foldr fmap list_fmap]. unfold CheckSetup.print. kstep.
  by rewrite <- !app_assoc.
Qed.

Lemma kit_calls_printed (l : list string) : kit_calls (KitPrinted <$> l) = [].
Proof. by induction l. Qed.

Lemma kit_created_printed (l : list string) : kit_created (KitPrinted <$> l) = [].
Proof. by induction l. Qed.

Ltac check_done :=
  intros [= <- <-]; cbn [kit_trace]; eexists;
  (split; [by rewrite <- ?app_assoc|]);
  rewrite ?kit_calls_app, ?kit_created_app, ?kit_calls_printed, ?kit_created_printed;
  cbn.

(** Every run of the check. *)
Lemma check_reminders_setup_inv (k k' : client Store) (r : result bool) :
  CheckSetup.check_reminders_setup import_pyremindkit new_RemindKit remind lower k = (r, k') →
  ∃ evs, kit_trace k' = kit_trace k ++ evs ∧
    kit_calls evs `prefix_of` check_calls ∧ kit_created evs = [] ∧
    (r = Ok true ∧ setup_valid import_pyremindkit new_RemindKit remind (store k) ∨
     (r = Ok false ∨ ∃ e, r = Raise e ∧ is_Exception (exn_cls e) = false) ∧
     ¬ setup_valid import_pyremindkit new_RemindKit remind (store k)).
Proof.
  destruct k as [w0 tr0]. unfold CheckSetup.check_reminders_setup, catches, setup_valid.
  cbn [store kit_trace]. kstep.
  destruct (import_pyremindkit w0) as [[[]|e1] w1] eqn:H1; kstep.
  2:{ destruct (is_Exception (exn_cls e1)) eqn:He1; kstep.
      - repeat case_decide; kstep;
          try destruct (str_in "no default calendar" (lower (exn_msg e1))
                        || str_in "calendar" (lower (exn_msg e1)));
          kstep; rewrite ?print_instructions_eq; kstep; check_done;
          (split; [by eexists|]); (split; [done|]); right;
          (split; [by left|by intros (? & ? & [=] & _)]).
      - check_done. (split; [by eexists|]). (split; [done|]). right.
        split; [right; by eexists|by intros (? & ? & [=] & _)]. }
  destruct (new_RemindKit w1) as [[[]|e2] w2] eqn:H2; kstep.
  2:{ destruct (is_Exception (exn_cls e2)) eqn:He2; kstep.
      - repeat case_decide; kstep;
          try destruct (str_in "no default calendar" (lower (exn_msg e2))
                        || str_in "calendar" (lower (exn_msg e2)));
          kstep; rewrite ?print_instructions_eq; kstep; check_done;
          (split; [by eexists|]); (split; [done|]); right;
          (split; [by left|intros (? & ? & [= <-] & Hn & _); congruence]).
      - check_done. (split; [by eexists|]). (split; [done|]). right.
        split; [right; by eexists|intros (? & ? & [= <-] & Hn & _); congruence]. }
  destruct (calendars_get_default remind w2) as [[c|e3] w3] eqn:H3; kstep.
  { check_done. (split; [by eexists|]). (split; [done|]). left. split; [done|].
    exists w1, w2. split; [done|]. split; [done|]. left. by exists c, w3. }
  case_bool_decide as Hcls; kstep.
  2:{ assert (exn_cls e3 ≠ ValueError) as Hne
        by (intros Hv; apply Hcls; rewrite Hv; by left).
      assert (¬ ∃ w1' w2', (Ok (), w1) = (Ok (), w1') ∧ new_RemindKit w1' = (Ok (), w2') ∧
                ((∃ c w3', calendars_get_default remind w2' = (Ok c, w3')) ∨
                 (∃ e w3' c cs w4, calendars_get_default remind w2' = (Raise e, w3') ∧
                    exn_cls e = ValueError ∧
                    remind_get_calendars remind w3' = (Ok (c :: cs), w4)))) as Hno.
      { intros (? & ? & [= <-] & Hn & Hd). rewrite H2 in Hn. injection Hn as <-.
        destruct Hd as [(? & ? & Hd)|(? & ? & ? & ? & ? & Hd & Hv & _)];
          rewrite H3 in Hd; [done|]. injection Hd as <- _. done. }
      destruct (is_Exception (exn_cls e3)) eqn:He3; kstep.
      - repeat case_decide; kstep;
          try destruct (str_in "no default calendar" (lower (exn_msg e3))
                        || str_in "calendar" (lower (exn_msg e3)));
          kstep; rewrite ?print_instructions_eq; kstep; check_done;
          (split; [by eexists|]); (split; [done|]); right; (split; [by left|done]).
      - check_done. (split; [by eexists|]). (split; [done|]). right.
        split; [right; by eexists|done]. }
  assert (exn_cls e3 = ValueError) as Hv
    by (by apply list_elem_of_singleton in Hcls).
  destruct (remind_get_calendars remind w3) as [[[|c cs]|e4] w4] eqn:H4; kstep.
  - rewrite print_instructions_eq. kstep. check_done.
    (split; [by eexists|]). (split; [done|]). right. split; [by left|].
    intros (? & ? & [= <-] & Hn & Hd). rewrite H2 in Hn. injection Hn as <-.
    destruct Hd as [(? & ? & Hd)|(? & ? & ? & ? & ? & Hd & _ & Hl)];
      rewrite H3 in Hd; [done|]. injection Hd as _ <-. rewrite H4 in Hl. done.
  - check_done. (split; [by eexists|]). (split; [done|]). left. split; [done|].
    exists w1, w2. split; [done|]. split; [done|]. right. by exists e3, w3, c, cs, w4.
  - assert (¬ ∃ w1' w2', (Ok (), w1) = (Ok (), w1') ∧ new_RemindKit w1' = (Ok (), w2') ∧
                ((∃ c w3', calendars_get_default remind w2' = (Ok c, w3')) ∨
                 (∃ e w3' c cs w4, calendars_get_default remind w2' = (Raise e, w3') ∧
                    exn_cls e = ValueError ∧
                    remind_get_calendars remind w3' = (Ok (c :: cs), w4)))) as Hno.
    { intros (? & ? & [= <-] & Hn & Hd). rewrite H2 in Hn. injection Hn as <-.
      destruct Hd as [(? & ? & Hd)|(? & ? & ? & ? & ? & Hd & _ & Hl)];
        rewrite H3 in Hd; [done|]. injection Hd as _ <-. rewrite H4 in Hl. done. }
    destruct (is_Exception (exn_cls e4)) eqn:He4; kstep.
    + check_done. (split; [by eexists|]). (split; [done|]). right. split; [by left|done].
    + rewrite ?He4. kstep. check_done. (split; [by eexists|]). (split; [done|]). right.
      split; [right; by eexists|done].
Qed.

(** X27: what the setup check answers.  [check_reminders_setup] answers
    yes exactly when the kit can be imported and built and either has a
    default calendar or, having none ([ValueError]), lists at least one
    calendar.  No [Exception] leaves it, whatever the kit raises.  It
    imports, builds, asks for the default calendar and asks for the
    calendars, in this order, stopping early; unlike the client, it never
    asks the kit to create anything. *)
Theorem check_reminders_setup_answer (k k' : client Store) (r : result bool) :
  CheckSetup.check_reminders_setup import_pyremindkit new_RemindKit remind lower k = (r, k') →
  (r = Ok true ↔ setup_valid import_pyremindkit new_RemindKit remind (store k)) ∧
  (∀ e, r = Raise e → is_Exception (exn_cls e) = false) ∧
  ∃ evs, kit_trace k' = kit_trace k ++ evs ∧
    kit_calls evs `prefix_of` check_calls ∧ kit_created evs = [].
Proof.
  intros (evs & Htr & Hcalls & Hc & Hcases)%check_reminders_setup_inv.
  split; [|split; [|by exists evs]].
  - destruct Hcases as [[-> Hv]|[[->|(e & -> & _)] Hno]]; split; done.
  - intros e ->. destruct Hcases as [[[=] _]|[[[=]|(e' & [= <-] & He)] _]]. done.
Qed.

(** X28: the exit status of the check script.  [main] of the script
    returns 0 exactly when the setup is valid in the sense of the check;
    otherwise it returns 1, unless something that is not an [Exception]
    interrupts it. *)
Theorem check_script_exit_status (k k' : client Store) (r : result Z) :
  CheckSetup.main import_pyremindkit new_RemindKit remind lower k = (r, k') →
  (r = Ok 0%Z ↔ setup_valid import_pyremindkit new_RemindKit remind (store k)) ∧
  (r = Ok 0%Z ∨ r = Ok 1%Z ∨ ∃ e, r = Raise e ∧ is_Exception (exn_cls e) = false).
Proof.
  destruct k as [w0 tr0]. unfold CheckSetup.main, CheckSetup.print. kstep.
  destruct (CheckSetup.check_reminders_setup import_pyremindkit new_RemindKit remind lower
              (Client w0 (tr0 ++ [KitPrinted (nl +:+ "=== Reminders Setup Check ==="
                                              +:+ nl)])))
    as [r1 [w1 tr1]] eqn:Hcheck.
  apply check_reminders_setup_inv in Hcheck as (evs & _ & _ & _ & Hcases).
  cbn [store] in Hcases.
  destruct Hcases as [[-> Hv]|[[->|(e & -> & He)] Hno]]; kstep; rewrite ?He;
    intros [= <- <-]; cbn [store].
  - split; [done|by left].
  - split; [done|by right; left].
  - split; [done|]. right; right. by exists e.
Qed.

End CheckFacts.

(** * The further properties at the test doubles *)

(** The loop theorem at the batch whose second todo is rejected: two
    records, in the order of the batch, and one error. *)
Lemma export_batch_todos_isolates_failures_witness :
  let run := @export_batch_todos (Double.env "") Double.personal Double.calendar_dict
               ∅ ∅ three_todos [] (Double.start "") in
  (∃ r1 r3, fst run = Ok [r1; r3] ∧ p_title r1 = "Buy milk" ∧ p_title r3 = "Write report") ∧
  errors (trace (snd run)) = ["Error creating reminder for todo x: rejected"] ∧
  length (created (trace (snd run))) = 3.
Proof.
  cbv zeta.
  assert (Forall (λ tp, get_reminder_params_from_todo (@fromisoformat (Double.env ""))
                          tp.1 (Some (cal_id Double.personal)) = Ok tp.2)
            three_mapped) as Hmap.
  { unfold three_mapped.
    repeat (apply Forall_cons; split; [vm_compute; reflexivity|]). apply Forall_nil_2. }
  assert (Forall (λ c, ∀ e, call_result c = Raise e → is_Exception (exn_cls e) = true)
            (fst (@calls_of (Double.env "") (Double.start "") Double.personal
                    Double.calendar_dict ∅ ∅ 0 three_mapped (world (Double.start "")))))
    as Hexc.
  { cbn. repeat constructor; by intros e [= <-]. }
  pose proof (@export_batch_todos_isolates_failures (Double.env "") Double.personal
                Double.calendar_dict ∅ ∅ three_mapped [] (Double.start "") _ _
                ltac:(done) Hmap (surjective_pairing _) Hexc) as [Hrun _].
  change (three_mapped.*1) with three_todos in Hrun. rewrite Hrun.
  cbn [fst snd trace]. split; [|split].
  - eexists _, _. split; [reflexivity|]. split; reflexivity.
  - vm_compute. reflexivity.
  - vm_compute. reflexivity.
Defined.

Lemma export_todo_assigned_calendar_witness :
  ∃ p r s',
    @export_todo (Double.env "") Double.personal Double.calendar_dict
      {[ 0%Z := "personal" ]} ∅ (0, Double.t1) [] (Double.start "")
    = (r, s') ∧
    created (trace s') = [p] ∧
    p_calendar_id p = Some "cal-personal".
Proof.
  assert (@parse_calendar_assignments (Double.env "") Double.calendar_dict personal_reply
            (Double.start "")
          = (Ok {[ 0%Z := "personal" ]}, Double.start "")) as Hparse
    by reflexivity.
  assert (get_reminder_params_from_todo (@fromisoformat (Double.env "")) Double.t1
            (Some (cal_id Double.personal)) = Ok Double.params_t1) as Hp0
    by (vm_compute; reflexivity).
  destruct (@export_todo_assigned_calendar (Double.env "") Double.personal
              Double.calendar_dict personal_reply (Double.start "") (Double.start "")
              {[ 0%Z := "personal" ]} ∅ 0 "personal" Double.t1 [] (Double.start "")
              Double.params_t1 Hparse eq_refl Hp0)
    as (id & p & r & s' & Hid & Hrun & Hc & Hcal).
  exists p, r, s'. split; [exact Hrun|]. split; [exact Hc|].
  rewrite Hcal. f_equal. vm_compute in Hid. by injection Hid.
Defined.

Lemma export_todo_sends_witness :
  ∃ p r s',
    @export_todo (Double.env "") Double.personal Double.calendar_dict ∅ ∅
      (0, Double.t1) [] (Double.start "")
    = (r, s') ∧
    created (trace s') = [p] ∧
    p_tags p = [] ∧ p_notes p = "Imported from Things - UUID: t1".
Proof.
  assert (get_reminder_params_from_todo (@fromisoformat (Double.env "")) Double.t1
            (Some (cal_id Double.personal)) = Ok Double.params_t1) as Hp0
    by (vm_compute; reflexivity).
  destruct (@export_todo_sends (Double.env "") Double.personal Double.calendar_dict ∅ ∅
              0 Double.t1 [] (Double.start "") Double.params_t1 ltac:(done) Hp0)
    as (p & r & s' & Hrun & Hc & Htags & Hnotes & _).
  exists p, r, s'. split; [exact Hrun|]. split; [exact Hc|].
  split; [exact Htags|]. rewrite Hnotes. vm_compute. reflexivity.
Defined.

Lemma export_batch_todos_aborts_witness :
  @export_batch_todos (Double.env "") Double.personal [] ∅ ∅
    [Double.t1; Double.t2] [] (Double.start "")
  = (Raise (Exn IndexError "list index out of range"), Double.start "") ∧
  @export_batch_todos (Double.env "") Double.personal Double.calendar_dict ∅ ∅
    [todo_first_day; Double.t2] [] (Double.start "")
  = (Raise (Exn OverflowError "date value out of range"), Double.start "") ∧
  fst (@export_batch_todos Double2.env Double.personal Double.calendar_dict ∅ ∅
         [Double2.t_stop; Double.t2] [] Double2.start)
  = Raise (Exn (BaseOnly "KeyboardInterrupt") "").
Proof.
  split; [|split].
  - destruct (@export_batch_todos_aborts (Double.env "") Double.personal [] ∅ ∅
                Double.t1 [Double.t2] [] (Double.start "")) as (Hempty & _ & _).
    by apply Hempty.
  - destruct (@export_batch_todos_aborts (Double.env "") Double.personal
                Double.calendar_dict ∅ ∅ todo_first_day [Double.t2] []
                (Double.start "")) as (_ & Hmapper & _).
    apply Hmapper; [done|]. vm_compute. reflexivity.
  - destruct (@export_batch_todos_aborts Double2.env Double.personal
                Double.calendar_dict ∅ ∅ Double2.t_stop [Double.t2] []
                Double2.start) as (_ & _ & Hcreate).
    apply (Hcreate Double2.params_stop _ (world Double2.start)); [done| | |done].
    + vm_compute. reflexivity.
    + vm_compute. reflexivity.
Defined.

Lemma process_tags_lookup_witness :
  ∃ m s',
    @process_tags Double2.env Double2.start = (Ok m, s') ∧
    m !! Some "g1" = Some "errand" ∧ m !! Some "g2" = Some "Unnamed Tag".
Proof.
  destruct (@process_tags_lookup Double2.env Double2.start
              [Tag (Some "g1") (Some "errand"); Tag (Some "g2") None] [] eq_refl)
    as (m & s' & Hrun & _ & Hlook).
  exists m, s'. split; [exact Hrun|]. by rewrite !Hlook.
Defined.

Lemma get_default_calendar_cached_witness :
  let s1 := snd (@_get_default_calendar (Double.env "") (Double.start "")) in
  @_get_default_calendar (Double.env "") s1 = (Ok Double.personal, s1) ∧
  _default_calendar s1 = Some Double.personal.
Proof.
  cbv zeta.
  apply (@get_default_calendar_cached (Double.env "") (Double.start "")).
  reflexivity.
Defined.

Lemma parse_last_line_wins_witness :
  ∃ m s',
    @parse_calendar_assignments (Double.env "") Double.calendar_dict
      (CompletedProcess 0 ("0: work" +:+ nl +:+ "0: personal") "") (Double.start "")
    = (Ok m, s') ∧
    m !! 0%Z = Some "personal".
Proof.
  apply (@parse_last_line_wins (Double.env "") Double.calendar_dict
           (CompletedProcess 0 ("0: work" +:+ nl +:+ "0: personal") "") (Double.start "")
           ["0: work"] [] "0: personal").
  - vm_compute. reflexivity.
  - exists "0", " personal". repeat split; try (vm_compute; reflexivity).
    vm_compute. by right; left.
  - by intros later n' ?%elem_of_nil.
Defined.

Lemma export_todos_returns_nothing_witness :
  let run := @export_todos (Double.env "") (Some []) (Double.start "") in
  fst run = Ok [] ∧ created (trace (snd run)) = [].
Proof.
  cbv zeta.
  pose proof (eq_refl : fst (@export_todos (Double.env "") (Some []) (Double.start ""))
                        = Ok []) as Hfst.
  split; [exact Hfst|].
  destruct (@export_todos (Double.env "") (Some []) (Double.start ""))
    as [r s'] eqn:Hrun.
  cbn [fst] in Hfst. rewrite Hfst in Hrun.
  destruct (@export_todos_returns_nothing (Double.env "") _ _ _ _ Hrun) as (_ & Hc & _).
  exact Hc.
Defined.

Lemma collect_todos_queries_witness :
  queried (trace (snd (@collect_todos (Double.env "") today_and_inbox (Double.start ""))))
  = [GetToday; GetInbox].
Proof.
  pose proof (eq_refl : fst (@collect_todos (Double.env "") today_and_inbox
                               (Double.start ""))
                        = Ok [Double.t1; Double.t2; Double.t3]) as Hfst.
  destruct (@collect_todos (Double.env "") today_and_inbox (Double.start ""))
    as [r s'] eqn:Hrun.
  cbn [fst] in Hfst. rewrite Hfst in Hrun.
  apply (@collect_todos_queries (Double.env "")) in Hrun. exact Hrun.
Defined.

Lemma collect_todos_tag_filter_witness :
  fst (@collect_todos Double2.env Double2.today_errands Double2.start)
  = Ok [Double2.t4] ∧
  ∃ tag_uuid, tag_uuid ∈ default [] (todo_tags Double2.t4) ∧
              _tag_map Double2.start !! Some tag_uuid = Some "errand".
Proof.
  pose proof (eq_refl : fst (@collect_todos Double2.env Double2.today_errands
                               Double2.start)
                        = Ok [Double2.t4]) as Hfst.
  split; [exact Hfst|].
  destruct (@collect_todos Double2.env Double2.today_errands Double2.start)
    as [r s'] eqn:Hrun.
  cbn [fst] in Hfst. rewrite Hfst in Hrun.
  apply (@collect_todos_tag_filter Double2.env _ _ _ _ _ _ Hrun eq_refl eq_refl eq_refl).
  by left.
Defined.

Lemma exports_report_no_todo_witness :
  let run := @export_with_options (Double.env "") only_upcoming_set (Double.start "") in
  fst run = Ok (1, 1, 1, 0) ∧ created (trace (snd run)) = [].
Proof.
  cbv zeta.
  pose proof (eq_refl : fst (@export_with_options (Double.env "") only_upcoming_set
                               (Double.start ""))
                        = Ok (1, 1, 1, 0)) as Hfst.
  split; [exact Hfst|].
  destruct (@export_with_options (Double.env "") only_upcoming_set (Double.start ""))
    as [r s'] eqn:Hrun.
  cbn [fst] in Hfst. rewrite Hfst in Hrun.
  by apply (@exports_report_no_todo (Double.env "") only_upcoming_set
              (Double.start "") s' (1, 1, 1, 0)); right; left.
Defined.

(** * The client, the check and the command line at their doubles *)

(** No default calendar, no calendar listed, none created: all three
    calls are made and the error is the fixed [ValueError]. *)
Lemma get_default_calendar_fallbacks_witness :
  let run := Reminders.get_default_calendar (KitDouble.remind []) KitDouble.start in
  fst run = Raise (Exn ValueError Reminders.no_calendar) ∧
  kit_calls (kit_trace (snd run)) = fallback_calls.
Proof.
  cbv zeta.
  destruct (get_default_calendar_fallbacks (KitDouble.remind []) KitDouble.start)
    as (evs & Hrun & Hcalls & _).
  rewrite Hrun. cbn [fst snd kit_trace KitDouble.start app].
  split; [vm_compute; reflexivity|]. rewrite Hcalls. vm_compute. reflexivity.
Defined.

Lemma create_reminder_request_witness :
  kit_created
    (kit_trace (snd (Reminders.create_reminder (KitDouble.remind [KitDouble.lists])
                       KitDouble.str_datetime KitDouble.report_args KitDouble.start)))
  = [NewReminder "Write report"
       ("Draft first" +:+ nl +:+ nl +:+ "Tags: #work #urgent" +:+ nl +:+ nl
        +:+ "Completed on: 2023-04-01")
       None NONE "cal-lists" true].
Proof.
  destruct (Reminders.create_reminder (KitDouble.remind [KitDouble.lists])
              KitDouble.str_datetime KitDouble.report_args KitDouble.start)
    as [r k'] eqn:Hrun.
  destruct (create_reminder_request _ _ _ _ _ _ Hrun) as (evs & Htr & Hcreated & _).
  cbn [snd]. rewrite Htr. cbn [KitDouble.start kit_trace app].
  destruct Hcreated as [(_ & [=] & _)|(calendar_id & -> & Hid)].
  rewrite (Hid "cal-lists" eq_refl). vm_compute. reflexivity.
Defined.

(** The alert cannot be set: the reminder is returned all the same, the
    flag is never tried and one warning is logged. *)
Lemma create_reminder_survives_updates_witness :
  let run := Reminders.create_reminder (KitDouble.remind [KitDouble.lists])
               KitDouble.str_datetime KitDouble.report_args KitDouble.start in
  fst run = Ok (requested KitDouble.report_args "cal-lists") ∧
  kit_updates (kit_trace (snd run))
  = [("Write report", IsCompleted);
     ("Write report", RemindMeDate (Datetime 2023 3 31 0 0 0 0 None))] ∧
  kit_warnings (kit_trace (snd run))
  = ["Error updating reminder attributes: alerts are not supported"].
Proof.
  cbv zeta.
  destruct (create_reminder_survives_updates (KitDouble.remind [KitDouble.lists])
              KitDouble.str_datetime KitDouble.report_args "cal-lists" KitDouble.start
              (requested KitDouble.report_args "cal-lists")
              [requested KitDouble.report_args "cal-lists"]
              [IsCompleted; RemindMeDate (Datetime 2023 3 31 0 0 0 0 None)]
              [requested KitDouble.report_args "cal-lists"]
              (Some (Exn (OtherException "RuntimeError") "alerts are not supported")))
    as (evs & Hrun & _ & Hu & _ & _ & Hw).
  - reflexivity.
  - vm_compute. reflexivity.
  - vm_compute. reflexivity.
  - by intros e [= <-].
  - rewrite Hrun. cbn [fst snd kit_trace KitDouble.start app].
    split; [done|]. split; [by rewrite Hu|by rewrite Hw].
Defined.

(** A completed todo with two tags, of which the batch assigned one
    name, exported through the client of the kit. *)
Lemma exported_notes_witness :
  ∃ nr,
    kit_created
      (kit_trace
         (@world KitDouble.env
            (snd (@export_todo KitDouble.env KitDouble.lists [("lists", "cal-lists")] ∅
                    {[ 0%Z := ["home"] ]} (0, todo_done) [] KitDouble.exporter))))
    = [nr] ∧
    nr_notes nr
    = Py.join (nl +:+ nl)
        [render_notes IsoBasic.fromisoformat todo_done; "Tags: #home";
         "Completed on: 2023-04-01"] ∧
    nr_calendar_id nr = "cal-lists" ∧ nr_is_completed nr = true.
Proof.
  destruct (@export_todo KitDouble.env KitDouble.lists [("lists", "cal-lists")] ∅
              {[ 0%Z := ["home"] ]} (0, todo_done) [] KitDouble.exporter)
    as [r s'] eqn:Hrun.
  destruct (exported_notes (KitDouble.remind [KitDouble.lists]) KitDouble.str_datetime
              IsoBasic.fromisoformat Double.show_names AsciiOnly.strip AsciiOnly.lower
              AsciiOnly.int KitDouble.no_things
              (λ _ k, (Ok (CompletedProcess 0 "" ""), k))
              KitDouble.lists [("lists", "cal-lists")] ∅ {[ 0%Z := ["home"] ]} 0
              todo_done [] KitDouble.exporter
              (params_of (get_reminder_params_from_todo IsoBasic.fromisoformat todo_done
                            (Some (cal_id KitDouble.lists))))
              r s')
    as (evs & nr & Htr & Hc & Hnotes & _ & Hcal & Hcompleted).
  - done.
  - vm_compute. reflexivity.
  - exact Hrun.
  - exists nr. cbn [snd].
    assert (kit_trace (@world KitDouble.env s') = evs) as -> by exact Htr.
    split; [exact Hc|].
    rewrite Hnotes, Hcal, Hcompleted.
    split; [vm_compute; reflexivity|]. split; vm_compute; reflexivity.
Defined.

(** The kit of the double has no default calendar but lists one. *)
Lemma check_reminders_setup_answer_witness :
  fst (CheckSetup.check_reminders_setup KitDouble.succeeds KitDouble.succeeds
         (KitDouble.remind [KitDouble.lists]) AsciiOnly.lower KitDouble.start) = Ok true ∧
  fst (CheckSetup.check_reminders_setup KitDouble.succeeds KitDouble.succeeds
         (KitDouble.remind []) AsciiOnly.lower KitDouble.start) = Ok false ∧
  ¬ setup_valid KitDouble.succeeds KitDouble.succeeds (KitDouble.remind []) [].
Proof.
  split; [vm_compute; reflexivity|]. split; [vm_compute; reflexivity|].
  destruct (CheckSetup.check_reminders_setup KitDouble.succeeds KitDouble.succeeds
              (KitDouble.remind []) AsciiOnly.lower KitDouble.start) as [r k'] eqn:Hrun.
  assert (r = Ok false) as ->.
  { change r with (fst (r, k')). rewrite <- Hrun. vm_compute. reflexivity. }
  destruct (check_reminders_setup_answer _ _ _ _ _ _ _ Hrun) as [Hiff _].
  intros Hv%Hiff. done.
Defined.

Lemma check_script_exit_status_witness :
  fst (CheckSetup.main KitDouble.succeeds KitDouble.succeeds
         (KitDouble.remind [KitDouble.lists]) AsciiOnly.lower KitDouble.start) = Ok 0%Z ∧
  setup_valid KitDouble.succeeds KitDouble.succeeds (KitDouble.remind [KitDouble.lists]) [].
Proof.
  destruct (CheckSetup.main KitDouble.succeeds KitDouble.succeeds
              (KitDouble.remind [KitDouble.lists]) AsciiOnly.lower KitDouble.start) as [r k'] eqn:Hrun.
  assert (r = Ok 0%Z) as ->.
  { change r with (fst (r, k')). rewrite <- Hrun. vm_compute. reflexivity. }
  split; [done|].
  destruct (check_script_exit_status _ _ _ _ _ _ _ Hrun) as [Hiff _].
  by apply Hiff.
Defined.

(** With no argument, the todos of Things are fetched and the export
    stops at the unbound name: exit status 1. *)
Lemma main_exit_status_witness :
  fst (@Cli.main (Double.env "") (Double.returns true) (Double.returns tt)
         CliDouble.no_repr CliDouble.no_args CliDouble.start) = Ok 1%Z.
Proof.
  assert (fst (@Cli.main (Double.env "") (Double.returns true) (Double.returns tt)
         CliDouble.no_repr CliDouble.no_args CliDouble.start) = Ok 1%Z)
    as Hfst by (vm_compute; reflexivity).
  destruct (@Cli.main (Double.env "") (Double.returns true) (Double.returns tt)
         CliDouble.no_repr CliDouble.no_args CliDouble.start) as [r p'] eqn:Hrun.
  cbn [fst] in Hfst. rewrite Hfst in Hrun. cbn [fst].
  destruct (@main_exit_status (Double.env "") _ _ _ _ _ _ _ Hrun)
    as [[=]|[Hone|(e & [=] & _)]].
  by rewrite Hfst.
Defined.

(** The Upcoming view of the double is empty: exit status 0 and no
    reminder. *)
Lemma main_success_exports_nothing_witness :
  let run := @Cli.main (Double.env "") (Double.returns true) (Double.returns tt)
         CliDouble.no_repr CliDouble.upcoming_only CliDouble.start in
  fst run = Ok 0%Z ∧ created (trace (Cli.exporter (snd run))) = [].
Proof.
  cbv zeta.
  assert (fst (@Cli.main (Double.env "") (Double.returns true) (Double.returns tt)
         CliDouble.no_repr CliDouble.upcoming_only CliDouble.start) = Ok 0%Z)
    as Hfst by (vm_compute; reflexivity).
  split; [exact Hfst|].
  destruct (@Cli.main (Double.env "") (Double.returns true) (Double.returns tt)
         CliDouble.no_repr CliDouble.upcoming_only CliDouble.start)
    as [r p'] eqn:Hrun.
  cbn [fst] in Hfst. subst r.
  destruct (@main_success_exports_nothing (Double.env "") _ _ _ _ _ _ Hrun) as [Hc _].
  exact Hc.
Defined.

Lemma main_failed_check_witness :
  let run := @Cli.main (Double.env "") (Double.returns false) (Double.returns tt)
         CliDouble.no_repr CliDouble.no_args CliDouble.start in
  fst run = Ok 1%Z ∧ Cli.exporter (snd run) = Double.start "".
Proof.
  cbv zeta.
  destruct (@main_failed_check (Double.env "") (Double.returns false)
              (Double.returns tt) CliDouble.no_repr CliDouble.no_args CliDouble.start [])
    as (p' & evs & Hrun & Hexp & _).
  - reflexivity.
  - reflexivity.
  - rewrite Hrun. cbn [fst snd]. split; [done|]. exact Hexp.
Defined.

